(** * Coding for Economists: content-integrity properties of the book sources

    The repository is a Jupyter Book: a table of contents ([_toc.yml]), a
    pre-commit configuration, notebooks ([.ipynb], nbformat 4) and MyST
    markdown chapters.  This development embeds

    - the abstract syntax of the Python that the chapters' code cells contain,
      with a name-binding semantics that follows CPython's order of evaluation
      (module [Py]);
    - the notebook and MyST documents themselves (modules [Nb], [Book]);
    - the table of contents and the pre-commit configuration (modules [Toc],
      [PreCommit]);
    - what the chapters import, define and call (module [Analysis]), and the
      packages and routines by which a program would start threads,
      processes or tasks (module [Concurrency]);
    - the three computations the chapters define themselves:
      [convert_date_code_to_datetime] (exploratory data analysis chapter),
      [ccf_stats] and the [cheddar_i_adjust] column (time series chapter),
      over models of the pandas, numpy and scipy routines they call
      (modules [Pandas], [Numpy], [TimeSeries]);
    - further cells of the two chapters that compute: the [datetime] column
      and its largest rows (module [Eda]); leads and lags, growth rates,
      demeaning, differences, the positions of the stems of the
      cross-correlation plot and the grid of the Box-Cox figure (module
      [Transformations]).

    The theorems at the end of the file state the properties of the book that
    the specification claims, and further properties of the code of the
    chapters. *)

From stdpp Require Import base strings gmap list.
From Stdlib Require Import Ascii ZArith QArith Qcanon SpecFloat Lia Sorted.

Set Warnings "-register-all".
Set Default Proof Using "Type".

(** * Python: abstract syntax and name binding *)

Module Py.

(** ** Abstract syntax

    The constructors carry the names of the node classes of CPython's [ast]
    module, restricted to the nodes that occur in the chapters.  [Import]
    holds one alias; [import a, b] is two statements.  A [ListComp] has a
    single generator without conditions, and [Call] has no starred
    arguments: the chapters use no other form. *)

Inductive constant :=
| CStr (s : string)
| CInt (n : Z)
| CFloat (literal : string)
| CNone
| CBool (b : bool).

Inductive operator := Add | Sub | Mult | Div | FloorDiv.
Inductive unaryop := USub | Not.
Inductive cmpop := Eq.

Inductive expr :=
| Name (id : string)
| Constant (value : constant)
| Attribute (value : expr) (attr : string)
| Subscript (value : expr) (slice : expr)
| Slice (lower upper step : option expr)
| Call (func : expr) (args : list expr) (keywords : list (string * expr))
| BinOp (left : expr) (op : operator) (right : expr)
| UnaryOp (op : unaryop) (operand : expr)
| Compare (left : expr) (op : cmpop) (right : expr)
| List (elts : list expr)
| Tuple (elts : list expr)
| Dict (keys values : list expr)
| Lambda (args : list string) (body : expr)
| ListComp (elt : expr) (target : expr) (iter : expr)
| JoinedStr (values : list expr)
| FormattedValue (value : expr) (format_spec : option expr).

Inductive stmt :=
| Import (name : string) (asname : option string)
| ImportFrom (module : string) (names : list (string * option string))
| Assign (targets : list expr) (value : expr)
| Expr (value : expr)
| FunctionDef (name : string) (args : list string) (defaults : list expr)
    (body : list stmt)
| Return (value : expr)
| If (test : expr) (body orelse : list stmt)
| For (target : expr) (iter : expr) (body : list stmt).

(** ** Exceptions and results *)

Inductive exception :=
| NameError (name : string)
| KeyError (key : string)
| ValueError
| OverflowError
| OutOfBoundsDatetime.

Inductive result (A : Type) :=
| Ok (a : A)
| Raise (e : exception).
Arguments Ok {A} a.
Arguments Raise {A} e.

#[global] Instance result_ret : MRet result := fun A a => Ok a.
#[global] Instance result_bind : MBind result := fun A B f m =>
  match m with
  | Ok a => f a
  | Raise e => Raise e
  end.

Definition raises {A} (m : result A) : bool :=
  match m with Ok _ => false | Raise _ => true end.

(** ** Names loaded and stored by expressions

    [loads e] lists the free names that evaluating [e] looks up, in CPython's
    order of evaluation (function before arguments, positional before keyword
    arguments, left operand before right, the iterable of a comprehension
    before its element).  The parameters of a [Lambda] and the target of a
    comprehension are bound inside and are not free. *)

Definition remove_all (bound : list string) (names : list string) : list string :=
  List.filter (fun x => negb (bool_decide (x ∈ bound))) names.

Fixpoint target_names (t : expr) : list string :=
  match t with
  | Name x => [x]
  | Tuple ts | List ts => flat_map target_names ts
  | _ => []
  end.

Fixpoint loads (e : expr) : list string :=
  match e with
  | Name x => [x]
  | Constant _ => []
  | Attribute v _ => loads v
  | Subscript v s => loads v ++ loads s
  | Slice lo hi st =>
      from_option loads [] lo ++ from_option loads [] hi ++ from_option loads [] st
  | Call f args kws =>
      loads f ++ flat_map loads args ++ flat_map (fun kw => loads (snd kw)) kws
  | BinOp l _ r => loads l ++ loads r
  | UnaryOp _ x => loads x
  | Compare l _ r => loads l ++ loads r
  | List es | Tuple es | JoinedStr es => flat_map loads es
  | Dict ks vs => flat_map loads ks ++ flat_map loads vs
  | Lambda ps b => remove_all ps (loads b)
  | ListComp elt tgt it => loads it ++ remove_all (target_names tgt) (loads elt)
  | FormattedValue v fs => loads v ++ from_option loads [] fs
  end.

(** Names looked up when a value is stored into target [t]: none for a plain
    name, the container and the key for [t[k] = ...], the object for
    [t.a = ...]. *)
Fixpoint target_loads (t : expr) : list string :=
  match t with
  | Name _ => []
  | Tuple ts | List ts => flat_map target_loads ts
  | Subscript v s => loads v ++ loads s
  | Attribute v _ => loads v
  | _ => loads t
  end.

(** The name an [import] statement binds: the alias if there is one, else the
    top-level package of the dotted module name. *)
Fixpoint top_level_package (dotted : string) : string :=
  match dotted with
  | EmptyString => EmptyString
  | String c rest =>
      if Ascii.eqb c "."%char then EmptyString else String c (top_level_package rest)
  end.

Definition import_binds (name : string) (asname : option string) : string :=
  default (top_level_package name) asname.

(** ** Names stored and loaded by statements (function scopes)

    A name assigned anywhere in a function body is local to the function;
    every other name the body loads is looked up in the module's globals (or
    the builtins) when the function runs. *)

Fixpoint stmt_stores (s : stmt) : list string :=
  match s with
  | Import name asname => [import_binds name asname]
  | ImportFrom _ names => map (fun na => default (fst na) (snd na)) names
  | Assign targets _ => flat_map target_names targets
  | Expr _ | Return _ => []
  | FunctionDef name _ _ _ => [name]
  | If _ body orelse => flat_map stmt_stores body ++ flat_map stmt_stores orelse
  | For target _ body => target_names target ++ flat_map stmt_stores body
  end.

Fixpoint stmt_loads (s : stmt) : list string :=
  match s with
  | Import _ _ | ImportFrom _ _ => []
  | Assign targets value => loads value ++ flat_map target_loads targets
  | Expr value | Return value => loads value
  | FunctionDef _ args defaults body =>
      flat_map loads defaults
      ++ remove_all (args ++ flat_map stmt_stores body) (flat_map stmt_loads body)
  | If test body orelse =>
      loads test ++ flat_map stmt_loads body ++ flat_map stmt_loads orelse
  | For target iter body =>
      loads iter ++ target_loads target ++ flat_map stmt_loads body
  end.

Definition function_globals (args : list string) (body : list stmt) : list string :=
  remove_all (args ++ flat_map stmt_stores body) (flat_map stmt_loads body).

(** ** Namespaces

    A module namespace is a dictionary from names to objects.  Objects are
    opaque, except functions defined by the chapter, which remember the
    global names their body needs. *)

Inductive object :=
| Opaque
| Function (globals : list string).

Abbreviation namespace := (gmap string object).

Definition bind_all (names : list string) (ns : namespace) : namespace :=
  foldl (fun ns x => <[x := Opaque]> ns) ns names.

Definition unbound (ns : namespace) (x : string) : bool :=
  match ns !! x with None => true | Some _ => false end.

(** Looking a name up raises [NameError] when it is unbound.  A function is
    only ever loaded to be called (directly, or by the library routine it is
    handed to), so loading it also looks up the globals of its body. *)
Definition lookup_name (ns : namespace) (x : string) : result unit :=
  match ns !! x with
  | None => Raise (NameError x)
  | Some Opaque => Ok tt
  | Some (Function globals) =>
      match List.find (unbound ns) globals with
      | Some g => Raise (NameError g)
      | None => Ok tt
      end
  end.

Fixpoint lookup_names (ns : namespace) (xs : list string) : result unit :=
  match xs with
  | [] => Ok tt
  | x :: xs' => _ ← lookup_name ns x; lookup_names ns xs'
  end.

(** The builtin functions of Python 3.8 (with the exceptions the models
    below raise) and the names an IPython kernel adds to every notebook
    namespace. *)
Definition python_builtins : list string :=
  ["abs"; "all"; "any"; "ascii"; "bin"; "bool"; "breakpoint"; "bytearray";
   "bytes"; "callable"; "chr"; "classmethod"; "compile"; "complex"; "delattr";
   "dict"; "dir"; "divmod"; "enumerate"; "eval"; "exec"; "filter"; "float";
   "format"; "frozenset"; "getattr"; "globals"; "hasattr"; "hash"; "help";
   "hex"; "id"; "input"; "int"; "isinstance"; "issubclass"; "iter"; "len";
   "list"; "locals"; "map"; "max"; "memoryview"; "min"; "next"; "object";
   "oct"; "open"; "ord"; "pow"; "print"; "property"; "range"; "repr";
   "reversed"; "round"; "set"; "setattr"; "slice"; "sorted"; "staticmethod";
   "str"; "sum"; "super"; "tuple"; "type"; "vars"; "zip"; "__import__";
   "Exception"; "ValueError"; "TypeError"; "KeyError"; "NameError";
   "OverflowError"].

Definition ipython_builtins : list string :=
  ["get_ipython"; "display"; "In"; "Out"; "exit"; "quit"].

Definition initial_namespace : namespace :=
  bind_all (python_builtins ++ ipython_builtins) ∅.

(** ** Execution, as far as names are concerned

    [exec_stmt] runs one statement in a namespace and returns the namespace
    after it, or the [NameError] it raises.  Imports are taken to succeed
    and library calls not to raise.  On straight-line code (imports,
    assignments, expression statements) this is what CPython does.  Control
    flow is treated conservatively: both branches of an [If] are checked and
    only names bound by both are bound afterwards; a [For] body is checked
    for one iteration and binds nothing afterwards, since the loop may not
    run.  Inside a function body the order of assignment and use of a local
    name is not checked. *)

Section Exec.

(** What [from m import *] binds: the public names of module [m], which the
    repository does not contain. *)
Variable star_exports : string -> list string.

Definition import_from (ns : namespace) (module : string)
    (alias : string * option string) : namespace :=
  if String.eqb (fst alias) "*" then bind_all (star_exports module) ns
  else <[default (fst alias) (snd alias) := Opaque]> ns.

Definition store (ns : namespace) (t : expr) : result namespace :=
  _ ← lookup_names ns (target_loads t); Ok (bind_all (target_names t) ns).

Fixpoint store_all (ns : namespace) (ts : list expr) : result namespace :=
  match ts with
  | [] => Ok ns
  | t :: ts' => ns' ← store ns t; store_all ns' ts'
  end.

Fixpoint exec_stmt (ns : namespace) (s : stmt) {struct s} : result namespace :=
  let exec_block :=
    fix exec_block (ns : namespace) (ss : list stmt) {struct ss} : result namespace :=
      match ss with
      | [] => Ok ns
      | s :: ss' => ns' ← exec_stmt ns s; exec_block ns' ss'
      end in
  match s with
  | Import name asname => Ok (<[import_binds name asname := Opaque]> ns)
  | ImportFrom module names => Ok (foldl (fun ns a => import_from ns module a) ns names)
  | Assign targets value =>
      _ ← lookup_names ns (loads value); store_all ns targets
  | Expr value | Return value =>
      _ ← lookup_names ns (loads value); Ok ns
  | FunctionDef name args defaults body =>
      _ ← lookup_names ns (flat_map loads defaults);
      Ok (<[name := Function (function_globals args body)]> ns)
  | If test body orelse =>
      _ ← lookup_names ns (loads test);
      ns1 ← exec_block ns body;
      ns2 ← exec_block ns orelse;
      Ok (ns1 ∩ ns2)
  | For target iter body =>
      _ ← lookup_names ns (loads iter);
      ns1 ← store ns target;
      _ ← exec_block ns1 body;
      Ok ns
  end.

(** A code cell is a list of statements, run in order. *)
Fixpoint exec_cell (ns : namespace) (ss : list stmt) : result namespace :=
  match ss with
  | [] => Ok ns
  | s :: ss' => ns' ← exec_stmt ns s; exec_cell ns' ss'
  end.

(** The cells of a document run in order in one namespace; the first
    exception stops the run. *)
Fixpoint exec_cells (ns : namespace) (cells : list (list stmt)) : result namespace :=
  match cells with
  | [] => Ok ns
  | c :: cells' => ns' ← exec_cell ns c; exec_cells ns' cells'
  end.

End Exec.

(** ** Syntactic classes of statements *)

(** Modules imported by a statement (recursively). *)
Fixpoint stmt_imports (s : stmt) : list string :=
  match s with
  | Import name _ => [name]
  | ImportFrom module _ => [module]
  | FunctionDef _ _ _ body | For _ _ body => flat_map stmt_imports body
  | If _ body orelse => flat_map stmt_imports body ++ flat_map stmt_imports orelse
  | _ => []
  end.

(** Functions defined by a statement (recursively). *)
Fixpoint stmt_defs (s : stmt) : list string :=
  match s with
  | FunctionDef name _ _ body => name :: flat_map stmt_defs body
  | For _ _ body => flat_map stmt_defs body
  | If _ body orelse => flat_map stmt_defs body ++ flat_map stmt_defs orelse
  | _ => []
  end.

End Py.

(** * Documents: notebooks and MyST markdown *)

Module Nb.
Import Py.

(** ** Notebooks (nbformat 4)

    A code cell has an execution count ([null] in the JSON is [None]), a list
    of outputs and its source.  The prose of a markdown cell is not
    interpreted; the cell records the number of lines it has. *)

Inductive output :=
| Stream (name text : string)
| DisplayData
| ExecuteResult (execution_count : nat)
| Error (ename evalue : string).

Inductive cell :=
| Markdown (lines : nat)
| Code (execution_count : option nat) (outputs : list output) (source : list stmt).

Record notebook := {
  cells : list cell;
  kernelspec : string;
  nbformat : nat * nat;
}.

Definition cell_source (c : cell) : option (list stmt) :=
  match c with
  | Markdown _ => None
  | Code _ _ source => Some source
  end.

(** What [nbstripout] leaves of a cell: a code cell without execution count
    and without outputs.  Markdown cells have neither. *)
Definition stripped (c : cell) : Prop :=
  match c with
  | Markdown _ => True
  | Code execution_count outputs _ => execution_count = None ∧ outputs = []
  end.

#[global] Instance output_eq_dec : EqDecision output.
Proof. solve_decision. Defined.

#[global] Instance stripped_dec (c : cell) : Decision (stripped c).
Proof. destruct c; simpl; apply _. Defined.

(** ** MyST markdown

    A MyST chapter is a sequence of blocks.  A [code-cell] directive at the
    top level of the file is a cell of the notebook that jupytext makes of
    the file, and is executed; a [code-block] directive is only displayed;
    other directives (panels, tabs) are containers whose content, code cells
    included, is markdown to the notebook reader. *)

Inductive block :=
| Prose (lines : nat)
| CodeCell (tags : list string) (source : list stmt)
| CodeBlock (language : string) (source : list stmt)
| Glue (key : string)
| Container (directive argument : string) (content : list block).

Definition block_source (b : block) : option (list stmt) :=
  match b with
  | CodeCell _ source => Some source
  | _ => None
  end.

Inductive document :=
| Notebook (nb : notebook)
| MyST (kernelspec : string) (blocks : list block).

(** The executable cells of a document, in order from the top. *)
Definition code_cells (d : document) : list (list stmt) :=
  match d with
  | Notebook nb => omap cell_source (cells nb)
  | MyST _ blocks => omap block_source blocks
  end.

End Nb.

(** * The chapters of the book

    The statements of every code cell, in the order of the files.  Each
    definition is preceded by the text of the cell it embeds; its name gives
    the position of the cell in the notebook (or the line of the directive in
    the MyST file). *)

Module Book.
Import Py Nb.
#[local] Open Scope Z_scope.
#[local] Open Scope nat_scope.
#[local] Open Scope string_scope.

(** ** Exploratory Data Analysis ([data-exploratory-analysis.ipynb]) *)

(* import pandas as pd
   import matplotlib.pyplot as plt
   import numpy as np
   from itertools import islice

   # Plot settings
   plt.style.use(
       "https://github.com/aeturrell/coding-for-economists/raw/main/plot_style.txt"
   ) *)
Definition eda_cell_1 : list stmt := [
  Import "pandas" (Some "pd");
  Import "matplotlib.pyplot" (Some "plt");
  Import "numpy" (Some "np");
  ImportFrom "itertools" [("islice", None)];
  Expr
    (Call
      (Attribute (Attribute (Name "plt") "style") "use")
      [
        Constant
          (CStr "https://github.com/aeturrell/coding-for-economists/raw/main/plot_style.txt")
      ]
      [])
].

(* df = pd.read_csv(
       "https://vincentarelbundock.github.io/Rdatasets/csv/Stat2Data/GrinnellHouses.csv",
       index_col=0,
   )
   df.head() *)
Definition eda_cell_3 : list stmt := [
  Assign
    [Name "df"]
    (Call
      (Attribute (Name "pd") "read_csv")
      [
        Constant
          (CStr
            "https://vincentarelbundock.github.io/Rdatasets/csv/Stat2Data/GrinnellHouses.csv")
      ]
      [("index_col", Constant (CInt 0))]);
  Expr (Call (Attribute (Name "df") "head") [] [])
].

(* def convert_date_code_to_datetime(date):
       start_code = 16436
       return pd.to_datetime("01-01-2005") + pd.DateOffset(days=date - start_code)


   df["datetime"] = df["Date"].apply(convert_date_code_to_datetime)
   # Check the 'biggest' rows by datetime
   df.nlargest(5, columns=["datetime"]) *)
Definition eda_cell_5 : list stmt := [
  FunctionDef
    "convert_date_code_to_datetime"
    ["date"]
    []
    [
      Assign [Name "start_code"] (Constant (CInt 16436));
      Return
        (BinOp
          (Call (Attribute (Name "pd") "to_datetime") [Constant (CStr "01-01-2005")] [])
          Add
          (Call
            (Attribute (Name "pd") "DateOffset")
            []
            [("days", BinOp (Name "date") Sub (Name "start_code"))]))
    ];
  Assign
    [Subscript (Name "df") (Constant (CStr "datetime"))]
    (Call
      (Attribute (Subscript (Name "df") (Constant (CStr "Date"))) "apply")
      [Name "convert_date_code_to_datetime"]
      []);
  Expr
    (Call
      (Attribute (Name "df") "nlargest")
      [Constant (CInt 5)]
      [("columns", List [Constant (CStr "datetime")])])
].

(* df.info() *)
Definition eda_cell_7 : list stmt := [
  Expr (Call (Attribute (Name "df") "info") [] [])
].

(* df = df.assign(
       Address=df["Address"].astype("string"),
       Bedrooms=df["Bedrooms"].astype("category"),
       OrigPrice=df["OrigPrice"].astype(float),
       ListPrice=df["ListPrice"].astype(float),
       SalePrice=df["SalePrice"].astype(float),
   )
   df.info() *)
Definition eda_cell_9 : list stmt := [
  Assign
    [Name "df"]
    (Call
      (Attribute (Name "df") "assign")
      []
      [
        ("Address",
         Call
           (Attribute (Subscript (Name "df") (Constant (CStr "Address"))) "astype")
           [Constant (CStr "string")]
           []);
        ("Bedrooms",
         Call
           (Attribute (Subscript (Name "df") (Constant (CStr "Bedrooms"))) "astype")
           [Constant (CStr "category")]
           []);
        ("OrigPrice",
         Call
           (Attribute (Subscript (Name "df") (Constant (CStr "OrigPrice"))) "astype")
           [Name "float"]
           []);
        ("ListPrice",
         Call
           (Attribute (Subscript (Name "df") (Constant (CStr "ListPrice"))) "astype")
           [Name "float"]
           []);
        ("SalePrice",
         Call
           (Attribute (Subscript (Name "df") (Constant (CStr "SalePrice"))) "astype")
           [Name "float"]
           [])
      ]);
  Expr (Call (Attribute (Name "df") "info") [] [])
].

(* from dataprep.clean import clean_headers

   df = clean_headers(df, case="snake")
   df.columns *)
Definition eda_cell_11 : list stmt := [
  ImportFrom "dataprep.clean" [("clean_headers", None)];
  Assign
    [Name "df"]
    (Call (Name "clean_headers") [Name "df"] [("case", Constant (CStr "snake"))]);
  Expr (Attribute (Name "df") "columns")
].

(* df.describe() *)
Definition eda_cell_14 : list stmt := [
  Expr (Call (Attribute (Name "df") "describe") [] [])
].

(* sum_table = df.describe().round(1)
   sum_table *)
Definition eda_cell_16 : list stmt := [
  Assign
    [Name "sum_table"]
    (Call
      (Attribute (Call (Attribute (Name "df") "describe") [] []) "round")
      [Constant (CInt 1)]
      []);
  Expr (Name "sum_table")
].

(* sum_table = sum_table.T
   sum_table *)
Definition eda_cell_18 : list stmt := [
  Assign [Name "sum_table"] (Attribute (Name "sum_table") "T");
  Expr (Name "sum_table")
].

(* print(sum_table.to_string()) *)
Definition eda_cell_20 : list stmt := [
  Expr (Call (Name "print") [Call (Attribute (Name "sum_table") "to_string") [] []] [])
].

(* print(sum_table.to_markdown()) *)
Definition eda_cell_22 : list stmt := [
  Expr (Call (Name "print") [Call (Attribute (Name "sum_table") "to_markdown") [] []] [])
].

(* print(sum_table.head(3).to_html()) *)
Definition eda_cell_24 : list stmt := [
  Expr
    (Call
      (Name "print")
      [
        Call
          (Attribute
            (Call (Attribute (Name "sum_table") "head") [Constant (CInt 3)] [])
            "to_html")
          []
          []
      ]
      [])
].

(* print(sum_table.to_latex(caption="Summary stats from EDA")) *)
Definition eda_cell_26 : list stmt := [
  Expr
    (Call
      (Name "print")
      [
        Call
          (Attribute (Name "sum_table") "to_latex")
          []
          [("caption", Constant (CStr "Summary stats from EDA"))]
      ]
      [])
].

(* (
       df.groupby(["year_sold", "bedrooms"])
       .mean()["sale_price"]
       .unstack()
       .apply(lambda x: x / 1e3)
       .fillna("-")
       .style.format(precision=0)
       .set_caption("Sale price (thousands)")
   ) *)
Definition eda_cell_28 : list stmt := [
  Expr
    (Call
      (Attribute
        (Call
          (Attribute
            (Attribute
              (Call
                (Attribute
                  (Call
                    (Attribute
                      (Call
                        (Attribute
                          (Subscript
                            (Call
                              (Attribute
                                (Call
                                  (Attribute (Name "df") "groupby")
                                  [
                                    List
                                      [Constant (CStr "year_sold"); Constant (CStr "bedrooms")]
                                  ]
                                  [])
                                "mean")
                              []
                              [])
                            (Constant (CStr "sale_price")))
                          "unstack")
                        []
                        [])
                      "apply")
                    [Lambda ["x"] (BinOp (Name "x") Div (Constant (CFloat "1e3")))]
                    [])
                  "fillna")
                [Constant (CStr "-")]
                [])
              "style")
            "format")
          []
          [("precision", Constant (CInt 0))])
        "set_caption")
      [Constant (CStr "Sale price (thousands)")]
      [])
].

(* pd.crosstab(df["bedrooms"], df["year_sold"]).style.background_gradient(cmap="plasma") *)
Definition eda_cell_30 : list stmt := [
  Expr
    (Call
      (Attribute
        (Attribute
          (Call
            (Attribute (Name "pd") "crosstab")
            [
              Subscript (Name "df") (Constant (CStr "bedrooms"));
              Subscript (Name "df") (Constant (CStr "year_sold"))
            ]
            [])
          "style")
        "background_gradient")
      []
      [("cmap", Constant (CStr "plasma"))])
].

(* (
       df.iloc[:10, -6:-1]
       .style.format(precision=0)
       .bar(subset=["cost_per_sq_ft", "sale_price"], color="#d65f5f")
   ) *)
Definition eda_cell_32 : list stmt := [
  Expr
    (Call
      (Attribute
        (Call
          (Attribute
            (Attribute
              (Subscript
                (Attribute (Name "df") "iloc")
                (Tuple
                  [
                    Slice None (Some (Constant (CInt 10))) None;
                    Slice
                      (Some (UnaryOp USub (Constant (CInt 6))))
                      (Some (UnaryOp USub (Constant (CInt 1))))
                      None
                  ]))
              "style")
            "format")
          []
          [("precision", Constant (CInt 0))])
        "bar")
      []
      [
        ("subset", List [Constant (CStr "cost_per_sq_ft"); Constant (CStr "sale_price")]);
        ("color", Constant (CStr "#d65f5f"))
      ])
].

(* df.groupby(["bedrooms"])[["splp_pct"]].mean().style.format("{:.0f}%") *)
Definition eda_cell_34 : list stmt := [
  Expr
    (Call
      (Attribute
        (Attribute
          (Call
            (Attribute
              (Subscript
                (Call (Attribute (Name "df") "groupby") [List [Constant (CStr "bedrooms")]] [])
                (List [Constant (CStr "splp_pct")]))
              "mean")
            []
            [])
          "style")
        "format")
      [Constant (CStr "{:.0f}%")]
      [])
].

(* df.iloc[:10, -6:-1].style.highlight_max().format("{:.0f}") *)
Definition eda_cell_36 : list stmt := [
  Expr
    (Call
      (Attribute
        (Call
          (Attribute
            (Attribute
              (Subscript
                (Attribute (Name "df") "iloc")
                (Tuple
                  [
                    Slice None (Some (Constant (CInt 10))) None;
                    Slice
                      (Some (UnaryOp USub (Constant (CInt 6))))
                      (Some (UnaryOp USub (Constant (CInt 1))))
                      None
                  ]))
              "style")
            "highlight_max")
          []
          [])
        "format")
      [Constant (CStr "{:.0f}")]
      [])
].

(* (
       df.set_index("datetime")
       .groupby(pd.Grouper(freq="3M"))["sale_price"]
       .mean()
       .apply(lambda x: x / 1e3)
       .plot(
           title="House sales in Grinnell, Iowa",
           xlabel="",
           ylabel="Mean nominal sale price (000s USD)",
       )
   ); *)
Definition eda_cell_39 : list stmt := [
  Expr
    (Call
      (Attribute
        (Call
          (Attribute
            (Call
              (Attribute
                (Subscript
                  (Call
                    (Attribute
                      (Call (Attribute (Name "df") "set_index") [Constant (CStr "datetime")] [])
                      "groupby")
                    [Call (Attribute (Name "pd") "Grouper") [] [("freq", Constant (CStr "3M"))]]
                    [])
                  (Constant (CStr "sale_price")))
                "mean")
              []
              [])
            "apply")
          [Lambda ["x"] (BinOp (Name "x") Div (Constant (CFloat "1e3")))]
          [])
        "plot")
      []
      [
        ("title", Constant (CStr "House sales in Grinnell, Iowa"));
        ("xlabel", Constant (CStr EmptyString));
        ("ylabel", Constant (CStr "Mean nominal sale price (000s USD)"))
      ])
].

(* (
       df.set_index("datetime")
       .groupby(pd.Grouper(freq="3M"))[["orig_price", "list_price", "sale_price"]]
       .mean()
       .apply(lambda x: x / 1e3)
       .plot(style=["-", ":", "-."])
   ); *)
Definition eda_cell_41 : list stmt := [
  Expr
    (Call
      (Attribute
        (Call
          (Attribute
            (Call
              (Attribute
                (Subscript
                  (Call
                    (Attribute
                      (Call (Attribute (Name "df") "set_index") [Constant (CStr "datetime")] [])
                      "groupby")
                    [Call (Attribute (Name "pd") "Grouper") [] [("freq", Constant (CStr "3M"))]]
                    [])
                  (List
                    [
                      Constant (CStr "orig_price");
                      Constant (CStr "list_price");
                      Constant (CStr "sale_price")
                    ]))
                "mean")
              []
              [])
            "apply")
          [Lambda ["x"] (BinOp (Name "x") Div (Constant (CFloat "1e3")))]
          [])
        "plot")
      []
      [("style", List [Constant (CStr "-"); Constant (CStr ":"); Constant (CStr "-.")])])
].

(* df.square_feet.plot.kde(ylim=(0, None), xlim=(0, None)); *)
Definition eda_cell_43 : list stmt := [
  Expr
    (Call
      (Attribute (Attribute (Attribute (Name "df") "square_feet") "plot") "kde")
      []
      [
        ("ylim", Tuple [Constant (CInt 0); Constant CNone]);
        ("xlim", Tuple [Constant (CInt 0); Constant CNone])
      ])
].

(* df.value_counts("bedrooms").sort_index().plot.bar(title="Counts", rot=0); *)
Definition eda_cell_45 : list stmt := [
  Expr
    (Call
      (Attribute
        (Attribute
          (Call
            (Attribute
              (Call (Attribute (Name "df") "value_counts") [Constant (CStr "bedrooms")] [])
              "sort_index")
            []
            [])
          "plot")
        "bar")
      []
      [("title", Constant (CStr "Counts")); ("rot", Constant (CInt 0))])
].

(* df["year_built"].plot.hist(bins=30, title="Year of construction"); *)
Definition eda_cell_47 : list stmt := [
  Expr
    (Call
      (Attribute
        (Attribute (Subscript (Name "df") (Constant (CStr "year_built"))) "plot")
        "hist")
      []
      [("bins", Constant (CInt 30)); ("title", Constant (CStr "Year of construction"))])
].

(* (df[["orig_price", "list_price", "sale_price"]].plot.box()); *)
Definition eda_cell_49 : list stmt := [
  Expr
    (Call
      (Attribute
        (Attribute
          (Subscript
            (Name "df")
            (List
              [
                Constant (CStr "orig_price");
                Constant (CStr "list_price");
                Constant (CStr "sale_price")
              ]))
          "plot")
        "box")
      []
      [])
].

(* df["class_ln_price"] = pd.cut(np.log(df["orig_price"]), bins=4, precision=0)

   (
       df.set_index("datetime")
       .groupby([pd.Grouper(freq="A"), "class_ln_price"])["class_ln_price"]
       .count()
       .unstack()
       .plot.area(ylabel="Count")
   ); *)
Definition eda_cell_50 : list stmt := [
  Assign
    [Subscript (Name "df") (Constant (CStr "class_ln_price"))]
    (Call
      (Attribute (Name "pd") "cut")
      [
        Call
          (Attribute (Name "np") "log")
          [Subscript (Name "df") (Constant (CStr "orig_price"))]
          []
      ]
      [("bins", Constant (CInt 4)); ("precision", Constant (CInt 0))]);
  Expr
    (Call
      (Attribute
        (Attribute
          (Call
            (Attribute
              (Call
                (Attribute
                  (Subscript
                    (Call
                      (Attribute
                        (Call
                          (Attribute (Name "df") "set_index")
                          [Constant (CStr "datetime")]
                          [])
                        "groupby")
                      [
                        List
                          [
                            Call
                              (Attribute (Name "pd") "Grouper")
                              []
                              [("freq", Constant (CStr "A"))];
                            Constant (CStr "class_ln_price")
                          ]
                      ]
                      [])
                    (Constant (CStr "class_ln_price")))
                  "count")
                []
                [])
              "unstack")
            []
            [])
          "plot")
        "area")
      []
      [("ylabel", Constant (CStr "Count"))])
].

(* df.plot.scatter(x="square_feet", y="sale_price", alpha=0.7, ylim=(0, None)); *)
Definition eda_cell_52 : list stmt := [
  Expr
    (Call
      (Attribute (Attribute (Name "df") "plot") "scatter")
      []
      [
        ("x", Constant (CStr "square_feet"));
        ("y", Constant (CStr "sale_price"));
        ("alpha", Constant (CFloat "0.7"));
        ("ylim", Tuple [Constant (CInt 0); Constant CNone])
      ])
].

(* df.plot.hexbin(
       y="list_price",
       x="splp_pct",
       gridsize=10,
       cmap="inferno_r",
       C="cost_per_sq_ft",
       sharex=False,
   ); *)
Definition eda_cell_54 : list stmt := [
  Expr
    (Call
      (Attribute (Attribute (Name "df") "plot") "hexbin")
      []
      [
        ("y", Constant (CStr "list_price"));
        ("x", Constant (CStr "splp_pct"));
        ("gridsize", Constant (CInt 10));
        ("cmap", Constant (CStr "inferno_r"));
        ("C", Constant (CStr "cost_per_sq_ft"));
        ("sharex", Constant (CBool false))
      ])
].

(* from pandas_profiling import ProfileReport


   profile = ProfileReport(
       df, minimal=True, title="Profiling Report: Grinnell House Sales"
   )
   profile.to_notebook_iframe() *)
Definition eda_cell_56 : list stmt := [
  ImportFrom "pandas_profiling" [("ProfileReport", None)];
  Assign
    [Name "profile"]
    (Call
      (Name "ProfileReport")
      [Name "df"]
      [
        ("minimal", Constant (CBool true));
        ("title", Constant (CStr "Profiling Report: Grinnell House Sales"))
      ]);
  Expr (Call (Attribute (Name "profile") "to_notebook_iframe") [] [])
].

(* from dataprep.eda import create_report

   report = create_report(df.iloc[:, 2:-1]) *)
Definition eda_cell_59 : list stmt := [
  ImportFrom "dataprep.eda" [("create_report", None)];
  Assign
    [Name "report"]
    (Call
      (Name "create_report")
      [
        Subscript
          (Attribute (Name "df") "iloc")
          (Tuple
            [
              Slice None None None;
              Slice (Some (Constant (CInt 2))) (Some (UnaryOp USub (Constant (CInt 1)))) None
            ])
      ]
      [])
].

(* from IPython.core.display import display


   display(report) *)
Definition eda_cell_60 : list stmt := [
  ImportFrom "IPython.core.display" [("display", None)];
  Expr (Call (Name "display") [Name "report"] [])
].

Definition eda_cells : list cell := [
  Markdown 8; Code None [] eda_cell_1; Markdown 3; Code None [] eda_cell_3;
  Markdown 5; Code None [] eda_cell_5; Markdown 3; Code None [] eda_cell_7;
  Markdown 1; Code None [] eda_cell_9; Markdown 5; Code None [] eda_cell_11;
  Markdown 1; Markdown 7; Code None [] eda_cell_14; Markdown 2;
  Code None [] eda_cell_16; Markdown 1; Code None [] eda_cell_18; Markdown 1;
  Code None [] eda_cell_20; Markdown 2; Code None [] eda_cell_22; Markdown 1;
  Code None [] eda_cell_24; Markdown 1; Code None [] eda_cell_26; Markdown 13;
  Code None [] eda_cell_28; Markdown 5; Code None [] eda_cell_30; Markdown 5;
  Code None [] eda_cell_32; Markdown 1; Code None [] eda_cell_34; Markdown 1;
  Code None [] eda_cell_36; Markdown 1; Markdown 3; Code None [] eda_cell_39;
  Markdown 2; Code None [] eda_cell_41; Markdown 3; Code None [] eda_cell_43;
  Markdown 1; Code None [] eda_cell_45; Markdown 4; Code None [] eda_cell_47;
  Markdown 1; Code None [] eda_cell_49; Code None [] eda_cell_50; Markdown 1;
  Code None [] eda_cell_52; Markdown 1; Code None [] eda_cell_54; Markdown 5;
  Code None [] eda_cell_56; Markdown 7; Markdown 5; Code None [] eda_cell_59;
  Code None [] eda_cell_60; Markdown 3
].


Definition eda : notebook :=
  {| cells := eda_cells; kernelspec := "codeforecon"; nbformat := (4, 2) |}.

(** ** Modelling with RBC (notebook) *)

(* import numpy as np
   import matplotlib.pyplot as plt
   import statsmodels.formula.api as smf
   from sympy import *
   from numpy.random import Generator, PCG64

   # Set max rows displayed for readability
   pd.set_option("display.max_rows", 6)
   # Plot settings
   plt.style.use(
       "https://github.com/aeturrell/coding-for-economists/raw/main/plot_style.txt"
   )
   # Set seed for random numbers
   seed_for_prng = 78557
   prng = Generator(PCG64(seed_for_prng)) *)
Definition rbc_cell_2 : list stmt := [
  Import "numpy" (Some "np");
  Import "matplotlib.pyplot" (Some "plt");
  Import "statsmodels.formula.api" (Some "smf");
  ImportFrom "sympy" [("*", None)];
  ImportFrom "numpy.random" [("Generator", None); ("PCG64", None)];
  Expr
    (Call
      (Attribute (Name "pd") "set_option")
      [Constant (CStr "display.max_rows"); Constant (CInt 6)]
      []);
  Expr
    (Call
      (Attribute (Attribute (Name "plt") "style") "use")
      [
        Constant
          (CStr "https://github.com/aeturrell/coding-for-economists/raw/main/plot_style.txt")
      ]
      []);
  Assign [Name "seed_for_prng"] (Constant (CInt 78557));
  Assign
    [Name "prng"]
    (Call (Name "Generator") [Call (Name "PCG64") [Name "seed_for_prng"] []] [])
].

Definition rbc_cells : list cell := [
  Markdown 2; Markdown 4; Code None [] rbc_cell_2; Markdown 3; Markdown 18
].


Definition rbc : notebook :=
  {| cells := rbc_cells; kernelspec := "codeforecon"; nbformat := (4, 4) |}.

(** ** Time Series (notebook) *)

(* import numpy as np
   import pandas as pd
   import statsmodels.api as sm
   from statsmodels.graphics import tsaplots
   from rich import inspect
   from numpy.random import Generator, PCG64
   import matplotlib.pyplot as plt

   # Plot settings
   plt.style.use(
       "https://github.com/aeturrell/coding-for-economists/raw/main/plot_style.txt"
   )
   # Set max rows displayed for readability
   pd.set_option("display.max_rows", 6)

   # Set seed for random numbers
   seed_for_prng = 78557
   prng = Generator(PCG64(seed_for_prng)) *)
Definition ts_cell_1 : list stmt := [
  Import "numpy" (Some "np");
  Import "pandas" (Some "pd");
  Import "statsmodels.api" (Some "sm");
  ImportFrom "statsmodels.graphics" [("tsaplots", None)];
  ImportFrom "rich" [("inspect", None)];
  ImportFrom "numpy.random" [("Generator", None); ("PCG64", None)];
  Import "matplotlib.pyplot" (Some "plt");
  Expr
    (Call
      (Attribute (Attribute (Name "plt") "style") "use")
      [
        Constant
          (CStr "https://github.com/aeturrell/coding-for-economists/raw/main/plot_style.txt")
      ]
      []);
  Expr
    (Call
      (Attribute (Name "pd") "set_option")
      [Constant (CStr "display.max_rows"); Constant (CInt 6)]
      []);
  Assign [Name "seed_for_prng"] (Constant (CInt 78557));
  Assign
    [Name "prng"]
    (Call (Name "Generator") [Call (Name "PCG64") [Name "seed_for_prng"] []] [])
].

(* date = pd.to_datetime("16th of February, 2020")
   inspect(date) *)
Definition ts_cell_3 : list stmt := [
  Assign
    [Name "date"]
    (Call (Attribute (Name "pd") "to_datetime") [Constant (CStr "16th of February, 2020")] []);
  Expr (Call (Name "inspect") [Name "date"] [])
].

(* date + pd.to_timedelta(np.arange(12), "D") *)
Definition ts_cell_6 : list stmt := [
  Expr
    (BinOp
      (Name "date")
      Add
      (Call
        (Attribute (Name "pd") "to_timedelta")
        [Call (Attribute (Name "np") "arange") [Constant (CInt 12)] []; Constant (CStr "D")]
        []))
].

(* pd.date_range(start="2018/1/1", end="2018/1/8") *)
Definition ts_cell_8 : list stmt := [
  Expr
    (Call
      (Attribute (Name "pd") "date_range")
      []
      [("start", Constant (CStr "2018/1/1")); ("end", Constant (CStr "2018/1/8"))])
].

(* pd.date_range("2018-01-01", periods=3, freq="H") *)
Definition ts_cell_10 : list stmt := [
  Expr
    (Call
      (Attribute (Name "pd") "date_range")
      [Constant (CStr "2018-01-01")]
      [("periods", Constant (CInt 3)); ("freq", Constant (CStr "H"))])
].

(* dti = pd.date_range("2018-01-01", periods=3, freq="H").tz_localize("UTC")
   dti.tz_convert("US/Pacific") *)
Definition ts_cell_12 : list stmt := [
  Assign
    [Name "dti"]
    (Call
      (Attribute
        (Call
          (Attribute (Name "pd") "date_range")
          [Constant (CStr "2018-01-01")]
          [("periods", Constant (CInt 3)); ("freq", Constant (CStr "H"))])
        "tz_localize")
      [Constant (CStr "UTC")]
      []);
  Expr (Call (Attribute (Name "dti") "tz_convert") [Constant (CStr "US/Pacific")] [])
].

(* import requests

   url = "https://api.ons.gov.uk/timeseries/JP9P/dataset/UNEM/data"

   # Get the data from the ONS API:
   df = pd.DataFrame(pd.json_normalize(requests.get(url).json()["months"]))
   df["value"] = pd.to_numeric(df["value"])
   df = df[["date", "value"]]
   df = df.rename(columns={"value": "Vacancies (ICT), thousands"})
   df.head() *)
Definition ts_cell_14 : list stmt := [
  Import "requests" None;
  Assign
    [Name "url"]
    (Constant (CStr "https://api.ons.gov.uk/timeseries/JP9P/dataset/UNEM/data"));
  Assign
    [Name "df"]
    (Call
      (Attribute (Name "pd") "DataFrame")
      [
        Call
          (Attribute (Name "pd") "json_normalize")
          [
            Subscript
              (Call
                (Attribute (Call (Attribute (Name "requests") "get") [Name "url"] []) "json")
                []
                [])
              (Constant (CStr "months"))
          ]
          []
      ]
      []);
  Assign
    [Subscript (Name "df") (Constant (CStr "value"))]
    (Call
      (Attribute (Name "pd") "to_numeric")
      [Subscript (Name "df") (Constant (CStr "value"))]
      []);
  Assign
    [Name "df"]
    (Subscript (Name "df") (List [Constant (CStr "date"); Constant (CStr "value")]));
  Assign
    [Name "df"]
    (Call
      (Attribute (Name "df") "rename")
      []
      [
        ("columns",
         Dict [Constant (CStr "value")] [Constant (CStr "Vacancies (ICT), thousands")])
      ]);
  Expr (Call (Attribute (Name "df") "head") [] [])
].

(* df.info() *)
Definition ts_cell_16 : list stmt := [
  Expr (Call (Attribute (Name "df") "info") [] [])
].

(* df["date"] = pd.to_datetime(df["date"])
   df["date"].head() *)
Definition ts_cell_18 : list stmt := [
  Assign
    [Subscript (Name "df") (Constant (CStr "date"))]
    (Call
      (Attribute (Name "pd") "to_datetime")
      [Subscript (Name "df") (Constant (CStr "date"))]
      []);
  Expr (Call (Attribute (Subscript (Name "df") (Constant (CStr "date"))) "head") [] [])
].

(* small_df = pd.DataFrame({"date": ["1, '19, 22", "1, '19, 23"], "values": ["1", "2"]})
   small_df["date"] *)
Definition ts_cell_20 : list stmt := [
  Assign
    [Name "small_df"]
    (Call
      (Attribute (Name "pd") "DataFrame")
      [
        Dict
          [Constant (CStr "date"); Constant (CStr "values")]
          [
            List [Constant (CStr "1, '19, 22"); Constant (CStr "1, '19, 23")];
            List [Constant (CStr "1"); Constant (CStr "2")]
          ]
      ]
      []);
  Expr (Subscript (Name "small_df") (Constant (CStr "date")))
].

(* pd.to_datetime(small_df["date"], format="%m, '%y, %d") *)
Definition ts_cell_22 : list stmt := [
  Expr
    (Call
      (Attribute (Name "pd") "to_datetime")
      [Subscript (Name "small_df") (Constant (CStr "date"))]
      [("format", Constant (CStr "%m, '%y, %d"))])
].

(* df["date"] = df["date"] + pd.offsets.MonthEnd()
   df.head() *)
Definition ts_cell_24 : list stmt := [
  Assign
    [Subscript (Name "df") (Constant (CStr "date"))]
    (BinOp
      (Subscript (Name "df") (Constant (CStr "date")))
      Add
      (Call (Attribute (Attribute (Name "pd") "offsets") "MonthEnd") [] []));
  Expr (Call (Attribute (Name "df") "head") [] [])
].

(* df = df.set_index("date")
   df.head() *)
Definition ts_cell_27 : list stmt := [
  Assign [Name "df"] (Call (Attribute (Name "df") "set_index") [Constant (CStr "date")] []);
  Expr (Call (Attribute (Name "df") "head") [] [])
].

(* df.index[:5] *)
Definition ts_cell_29 : list stmt := [
  Expr (Subscript (Attribute (Name "df") "index") (Slice None (Some (Constant (CInt 5))) None))
].

(* df = df.asfreq("M")
   df.index[:5] *)
Definition ts_cell_31 : list stmt := [
  Assign [Name "df"] (Call (Attribute (Name "df") "asfreq") [Constant (CStr "M")] []);
  Expr (Subscript (Attribute (Name "df") "index") (Slice None (Some (Constant (CInt 5))) None))
].

(* df.plot(); *)
Definition ts_cell_34 : list stmt := [
  Expr (Call (Attribute (Name "df") "plot") [] [])
].

(* df.resample("A").mean() *)
Definition ts_cell_36 : list stmt := [
  Expr
    (Call
      (Attribute (Call (Attribute (Name "df") "resample") [Constant (CStr "A")] []) "mean")
      []
      [])
].

(* df.resample("5A").agg(["mean", "std"]).head() *)
Definition ts_cell_38 : list stmt := [
  Expr
    (Call
      (Attribute
        (Call
          (Attribute (Call (Attribute (Name "df") "resample") [Constant (CStr "5A")] []) "agg")
          [List [Constant (CStr "mean"); Constant (CStr "std")]]
          [])
        "head")
      []
      [])
].

(* df.resample("D").asfreq() *)
Definition ts_cell_40 : list stmt := [
  Expr
    (Call
      (Attribute (Call (Attribute (Name "df") "resample") [Constant (CStr "D")] []) "asfreq")
      []
      [])
].

(* df.resample("D").interpolate(method="linear", limit_direction="forward", limit=3)[:6] *)
Definition ts_cell_42 : list stmt := [
  Expr
    (Subscript
      (Call
        (Attribute
          (Call (Attribute (Name "df") "resample") [Constant (CStr "D")] [])
          "interpolate")
        []
        [
          ("method", Constant (CStr "linear"));
          ("limit_direction", Constant (CStr "forward"));
          ("limit", Constant (CInt 3))
        ])
      (Slice None (Some (Constant (CInt 6))) None))
].

(* # Get stock market data
   import pandas_datareader as web

   xf = web.DataReader("AAPL", "stooq", start="2017-01-01", end="2019-06-01")
   xf = xf.sort_index() *)
Definition ts_cell_44 : list stmt := [
  Import "pandas_datareader" (Some "web");
  Assign
    [Name "xf"]
    (Call
      (Attribute (Name "web") "DataReader")
      [Constant (CStr "AAPL"); Constant (CStr "stooq")]
      [("start", Constant (CStr "2017-01-01")); ("end", Constant (CStr "2019-06-01"))]);
  Assign [Name "xf"] (Call (Attribute (Name "xf") "sort_index") [] [])
].

(* fig, ax = plt.subplots()
   data = xf.iloc[:10, 3]
   cycle = ax._get_lines.prop_cycler

   data.asfreq("D").plot(ax=ax, marker="o", linestyle="None", zorder=3)
   data.asfreq("D", method="bfill").plot(
       ax=ax, style="-.o", lw=1, color=next(cycle)["color"]
   )
   data.asfreq("D", method="ffill").plot(
       ax=ax, style="--o", lw=1, color=next(cycle)["color"]
   )
   ax.set_ylabel("Close ($)")
   ax.legend(["original", "back-fill", "forward-fill"]); *)
Definition ts_cell_45 : list stmt := [
  Assign [Tuple [Name "fig"; Name "ax"]] (Call (Attribute (Name "plt") "subplots") [] []);
  Assign
    [Name "data"]
    (Subscript
      (Attribute (Name "xf") "iloc")
      (Tuple [Slice None (Some (Constant (CInt 10))) None; Constant (CInt 3)]));
  Assign [Name "cycle"] (Attribute (Attribute (Name "ax") "_get_lines") "prop_cycler");
  Expr
    (Call
      (Attribute (Call (Attribute (Name "data") "asfreq") [Constant (CStr "D")] []) "plot")
      []
      [
        ("ax", Name "ax");
        ("marker", Constant (CStr "o"));
        ("linestyle", Constant (CStr "None"));
        ("zorder", Constant (CInt 3))
      ]);
  Expr
    (Call
      (Attribute
        (Call
          (Attribute (Name "data") "asfreq")
          [Constant (CStr "D")]
          [("method", Constant (CStr "bfill"))])
        "plot")
      []
      [
        ("ax", Name "ax");
        ("style", Constant (CStr "-.o"));
        ("lw", Constant (CInt 1));
        ("color", Subscript (Call (Name "next") [Name "cycle"] []) (Constant (CStr "color")))
      ]);
  Expr
    (Call
      (Attribute
        (Call
          (Attribute (Name "data") "asfreq")
          [Constant (CStr "D")]
          [("method", Constant (CStr "ffill"))])
        "plot")
      []
      [
        ("ax", Name "ax");
        ("style", Constant (CStr "--o"));
        ("lw", Constant (CInt 1));
        ("color", Subscript (Call (Name "next") [Name "cycle"] []) (Constant (CStr "color")))
      ]);
  Expr (Call (Attribute (Name "ax") "set_ylabel") [Constant (CStr "Close ($)")] []);
  Expr
    (Call
      (Attribute (Name "ax") "legend")
      [
        List
          [
            Constant (CStr "original");
            Constant (CStr "back-fill");
            Constant (CStr "forward-fill")
          ]
      ]
      [])
].

(* df.rolling(2).mean() *)
Definition ts_cell_47 : list stmt := [
  Expr
    (Call
      (Attribute (Call (Attribute (Name "df") "rolling") [Constant (CInt 2)] []) "mean")
      []
      [])
].

(* df.ewm(alpha=0.2).mean() *)
Definition ts_cell_49 : list stmt := [
  Expr
    (Call
      (Attribute
        (Call (Attribute (Name "df") "ewm") [] [("alpha", Constant (CFloat "0.2"))])
        "mean")
      []
      [])
].

(* fig, ax = plt.subplots()
   roll_num = 28
   alpha = 0.03
   xf["Close"].plot(label="Raw", alpha=0.5)
   xf["Close"].expanding().mean().plot(label="Expanding Average", style=":")
   xf["Close"].ewm(alpha=alpha).mean().plot(
       label=f"EWMA ($\\alpha=${alpha:.2f})", style="--"
   )
   xf["Close"].rolling(roll_num).mean().plot(label=f"{roll_num}D MA", style="-.")
   ax.legend()
   ax.set_ylabel("Close ($)"); *)
Definition ts_cell_51 : list stmt := [
  Assign [Tuple [Name "fig"; Name "ax"]] (Call (Attribute (Name "plt") "subplots") [] []);
  Assign [Name "roll_num"] (Constant (CInt 28));
  Assign [Name "alpha"] (Constant (CFloat "0.03"));
  Expr
    (Call
      (Attribute (Subscript (Name "xf") (Constant (CStr "Close"))) "plot")
      []
      [("label", Constant (CStr "Raw")); ("alpha", Constant (CFloat "0.5"))]);
  Expr
    (Call
      (Attribute
        (Call
          (Attribute
            (Call
              (Attribute (Subscript (Name "xf") (Constant (CStr "Close"))) "expanding")
              []
              [])
            "mean")
          []
          [])
        "plot")
      []
      [("label", Constant (CStr "Expanding Average")); ("style", Constant (CStr ":"))]);
  Expr
    (Call
      (Attribute
        (Call
          (Attribute
            (Call
              (Attribute (Subscript (Name "xf") (Constant (CStr "Close"))) "ewm")
              []
              [("alpha", Name "alpha")])
            "mean")
          []
          [])
        "plot")
      []
      [
        ("label",
         JoinedStr
           [
             Constant (CStr "EWMA ($\alpha=$");
             FormattedValue (Name "alpha") (Some (JoinedStr [Constant (CStr ".2f")]));
             Constant (CStr ")")
           ]);
        ("style", Constant (CStr "--"))
      ]);
  Expr
    (Call
      (Attribute
        (Call
          (Attribute
            (Call
              (Attribute (Subscript (Name "xf") (Constant (CStr "Close"))) "rolling")
              [Name "roll_num"]
              [])
            "mean")
          []
          [])
        "plot")
      []
      [
        ("label", JoinedStr [FormattedValue (Name "roll_num") None; Constant (CStr "D MA")]);
        ("style", Constant (CStr "-."))
      ]);
  Expr (Call (Attribute (Name "ax") "legend") [] []);
  Expr (Call (Attribute (Name "ax") "set_ylabel") [Constant (CStr "Close ($)")] [])
].

(* roll = xf["Close"].rolling(50, center=True)

   fig, ax = plt.subplots()
   m = roll.agg(["mean", "std"])
   m["mean"].plot(ax=ax)
   ax.fill_between(m.index, m["mean"] - m["std"], m["mean"] + m["std"], alpha=0.2)
   ax.set_ylabel("Close ($)"); *)
Definition ts_cell_53 : list stmt := [
  Assign
    [Name "roll"]
    (Call
      (Attribute (Subscript (Name "xf") (Constant (CStr "Close"))) "rolling")
      [Constant (CInt 50)]
      [("center", Constant (CBool true))]);
  Assign [Tuple [Name "fig"; Name "ax"]] (Call (Attribute (Name "plt") "subplots") [] []);
  Assign
    [Name "m"]
    (Call
      (Attribute (Name "roll") "agg")
      [List [Constant (CStr "mean"); Constant (CStr "std")]]
      []);
  Expr
    (Call
      (Attribute (Subscript (Name "m") (Constant (CStr "mean"))) "plot")
      []
      [("ax", Name "ax")]);
  Expr
    (Call
      (Attribute (Name "ax") "fill_between")
      [
        Attribute (Name "m") "index";
        BinOp
          (Subscript (Name "m") (Constant (CStr "mean")))
          Sub
          (Subscript (Name "m") (Constant (CStr "std")));
        BinOp
          (Subscript (Name "m") (Constant (CStr "mean")))
          Add
          (Subscript (Name "m") (Constant (CStr "std")))
      ]
      [("alpha", Constant (CFloat "0.2"))]);
  Expr (Call (Attribute (Name "ax") "set_ylabel") [Constant (CStr "Close ($)")] [])
].

(* lead = 12
   lag = 3
   orig_series_name = df.columns[0]
   df[f"lead ({lead} months)"] = df[orig_series_name].shift(-lead)
   df[f"lag ({lag} months)"] = df[orig_series_name].shift(lag)
   df.head() *)
Definition ts_cell_55 : list stmt := [
  Assign [Name "lead"] (Constant (CInt 12));
  Assign [Name "lag"] (Constant (CInt 3));
  Assign
    [Name "orig_series_name"]
    (Subscript (Attribute (Name "df") "columns") (Constant (CInt 0)));
  Assign
    [
      Subscript
        (Name "df")
        (JoinedStr
          [
            Constant (CStr "lead (");
            FormattedValue (Name "lead") None;
            Constant (CStr " months)")
          ])
    ]
    (Call
      (Attribute (Subscript (Name "df") (Name "orig_series_name")) "shift")
      [UnaryOp USub (Name "lead")]
      []);
  Assign
    [
      Subscript
        (Name "df")
        (JoinedStr
          [
            Constant (CStr "lag (");
            FormattedValue (Name "lag") None;
            Constant (CStr " months)")
          ])
    ]
    (Call (Attribute (Subscript (Name "df") (Name "orig_series_name")) "shift") [Name "lag"] []);
  Expr (Call (Attribute (Name "df") "head") [] [])
].

(* df.iloc[100:300, :].plot(); *)
Definition ts_cell_56 : list stmt := [
  Expr
    (Call
      (Attribute
        (Subscript
          (Attribute (Name "df") "iloc")
          (Tuple
            [
              Slice (Some (Constant (CInt 100))) (Some (Constant (CInt 300))) None;
              Slice None None None
            ]))
        "plot")
      []
      [])
].

(* fig = tsaplots.plot_acf(df["Vacancies (ICT), thousands"], lags=24)
   plt.show() *)
Definition ts_cell_58 : list stmt := [
  Assign
    [Name "fig"]
    (Call
      (Attribute (Name "tsaplots") "plot_acf")
      [Subscript (Name "df") (Constant (CStr "Vacancies (ICT), thousands"))]
      [("lags", Constant (CInt 24))]);
  Expr (Call (Attribute (Name "plt") "show") [] [])
].

(* fig = tsaplots.plot_pacf(df["Vacancies (ICT), thousands"], lags=24)
   plt.show() *)
Definition ts_cell_60 : list stmt := [
  Assign
    [Name "fig"]
    (Call
      (Attribute (Name "tsaplots") "plot_pacf")
      [Subscript (Name "df") (Constant (CStr "Vacancies (ICT), thousands"))]
      [("lags", Constant (CInt 24))]);
  Expr (Call (Attribute (Name "plt") "show") [] [])
].

(* import scipy.signal as ss


   def ccf_stats(x, y, lag_max=None):
       if not lag_max:
           lag_max = int(10 * np.log10(min(len(x), len(y)) / 2))
       result = ss.correlate(x - np.mean(x), y - np.mean(y), method="direct") / (
           np.std(y) * np.std(x) * len(y)
       )
       length = (len(result) - 1) // 2
       lo = length - lag_max
       hi = length + (lag_max + 1)
       return result[lo:hi] *)
Definition ts_cell_63 : list stmt := [
  Import "scipy.signal" (Some "ss");
  FunctionDef
    "ccf_stats"
    ["x"; "y"; "lag_max"]
    [Constant CNone]
    [
      If
        (UnaryOp Not (Name "lag_max"))
        [
          Assign
            [Name "lag_max"]
            (Call
              (Name "int")
              [
                BinOp
                  (Constant (CInt 10))
                  Mult
                  (Call
                    (Attribute (Name "np") "log10")
                    [
                      BinOp
                        (Call
                          (Name "min")
                          [Call (Name "len") [Name "x"] []; Call (Name "len") [Name "y"] []]
                          [])
                        Div
                        (Constant (CInt 2))
                    ]
                    [])
              ]
              [])
        ]
        [];
      Assign
        [Name "result"]
        (BinOp
          (Call
            (Attribute (Name "ss") "correlate")
            [
              BinOp (Name "x") Sub (Call (Attribute (Name "np") "mean") [Name "x"] []);
              BinOp (Name "y") Sub (Call (Attribute (Name "np") "mean") [Name "y"] [])
            ]
            [("method", Constant (CStr "direct"))])
          Div
          (BinOp
            (BinOp
              (Call (Attribute (Name "np") "std") [Name "y"] [])
              Mult
              (Call (Attribute (Name "np") "std") [Name "x"] []))
            Mult
            (Call (Name "len") [Name "y"] [])));
      Assign
        [Name "length"]
        (BinOp
          (BinOp (Call (Name "len") [Name "result"] []) Sub (Constant (CInt 1)))
          FloorDiv
          (Constant (CInt 2)));
      Assign [Name "lo"] (BinOp (Name "length") Sub (Name "lag_max"));
      Assign
        [Name "hi"]
        (BinOp (Name "length") Add (BinOp (Name "lag_max") Add (Constant (CInt 1))));
      Return (Subscript (Name "result") (Slice (Some (Name "lo")) (Some (Name "hi")) None))
    ]
].

(* lynx_df = pd.read_csv(
       "https://vincentarelbundock.github.io/Rdatasets/csv/datasets/lynx.csv", index_col=0
   )
   spot_df = pd.read_csv(
       "https://vincentarelbundock.github.io/Rdatasets/csv/datasets/sunspot.year.csv",
       index_col=0,
   )
   df = pd.merge(lynx_df, spot_df, on="time", how="inner", suffixes=("_lynx", "_sunspots"))
   df = df.set_index("time")
   df.head() *)
Definition ts_cell_65 : list stmt := [
  Assign
    [Name "lynx_df"]
    (Call
      (Attribute (Name "pd") "read_csv")
      [Constant (CStr "https://vincentarelbundock.github.io/Rdatasets/csv/datasets/lynx.csv")]
      [("index_col", Constant (CInt 0))]);
  Assign
    [Name "spot_df"]
    (Call
      (Attribute (Name "pd") "read_csv")
      [
        Constant
          (CStr "https://vincentarelbundock.github.io/Rdatasets/csv/datasets/sunspot.year.csv")
      ]
      [("index_col", Constant (CInt 0))]);
  Assign
    [Name "df"]
    (Call
      (Attribute (Name "pd") "merge")
      [Name "lynx_df"; Name "spot_df"]
      [
        ("on", Constant (CStr "time"));
        ("how", Constant (CStr "inner"));
        ("suffixes", Tuple [Constant (CStr "_lynx"); Constant (CStr "_sunspots")])
      ]);
  Assign [Name "df"] (Call (Attribute (Name "df") "set_index") [Constant (CStr "time")] []);
  Expr (Call (Attribute (Name "df") "head") [] [])
].

(* df.plot(subplots=True, ylim=(0, None)); *)
Definition ts_cell_66 : list stmt := [
  Expr
    (Call
      (Attribute (Name "df") "plot")
      []
      [("subplots", Constant (CBool true)); ("ylim", Tuple [Constant (CInt 0); Constant CNone])])
].

(* fig, ax = plt.subplots()
   ccf_res_stats = ccf_stats(df["value_sunspots"], np.log(df["value_lynx"]))
   conf_int = 2.0 / np.sqrt(len(df))
   ax.stem(
       range(-int(len(ccf_res_stats) / 2), int(len(ccf_res_stats) / 2) + 1),
       ccf_res_stats,
       basefmt=" ",
       markerfmt=" ",
   )
   ax.axhline(-conf_int, ls="--", lw=0.9, color="k")
   ax.axhline(conf_int, ls="--", lw=0.9, color="k")
   ax.axhline(0, color="k", lw=1)
   ax.set_ylabel("Cross-correlation")
   ax.set_xlabel("Lag")
   plt.show() *)
Definition ts_cell_68 : list stmt := [
  Assign [Tuple [Name "fig"; Name "ax"]] (Call (Attribute (Name "plt") "subplots") [] []);
  Assign
    [Name "ccf_res_stats"]
    (Call
      (Name "ccf_stats")
      [
        Subscript (Name "df") (Constant (CStr "value_sunspots"));
        Call
          (Attribute (Name "np") "log")
          [Subscript (Name "df") (Constant (CStr "value_lynx"))]
          []
      ]
      []);
  Assign
    [Name "conf_int"]
    (BinOp
      (Constant (CFloat "2.0"))
      Div
      (Call (Attribute (Name "np") "sqrt") [Call (Name "len") [Name "df"] []] []));
  Expr
    (Call
      (Attribute (Name "ax") "stem")
      [
        Call
          (Name "range")
          [
            UnaryOp
              USub
              (Call
                (Name "int")
                [BinOp (Call (Name "len") [Name "ccf_res_stats"] []) Div (Constant (CInt 2))]
                []);
            BinOp
              (Call
                (Name "int")
                [BinOp (Call (Name "len") [Name "ccf_res_stats"] []) Div (Constant (CInt 2))]
                [])
              Add
              (Constant (CInt 1))
          ]
          [];
        Name "ccf_res_stats"
      ]
      [("basefmt", Constant (CStr " ")); ("markerfmt", Constant (CStr " "))]);
  Expr
    (Call
      (Attribute (Name "ax") "axhline")
      [UnaryOp USub (Name "conf_int")]
      [
        ("ls", Constant (CStr "--"));
        ("lw", Constant (CFloat "0.9"));
        ("color", Constant (CStr "k"))
      ]);
  Expr
    (Call
      (Attribute (Name "ax") "axhline")
      [Name "conf_int"]
      [
        ("ls", Constant (CStr "--"));
        ("lw", Constant (CFloat "0.9"));
        ("color", Constant (CStr "k"))
      ]);
  Expr
    (Call
      (Attribute (Name "ax") "axhline")
      [Constant (CInt 0)]
      [("color", Constant (CStr "k")); ("lw", Constant (CInt 1))]);
  Expr (Call (Attribute (Name "ax") "set_ylabel") [Constant (CStr "Cross-correlation")] []);
  Expr (Call (Attribute (Name "ax") "set_xlabel") [Constant (CStr "Lag")] []);
  Expr (Call (Attribute (Name "plt") "show") [] [])
].

(* import pandas_datareader.data as web
   from datetime import datetime

   ts_start_date = pd.to_datetime("2009-01-01")

   df = web.DataReader("NA000334Q", "fred", start=ts_start_date, end=datetime.now())
   df.columns = ["gdp"]
   df.head() *)
Definition ts_cell_71 : list stmt := [
  Import "pandas_datareader.data" (Some "web");
  ImportFrom "datetime" [("datetime", None)];
  Assign
    [Name "ts_start_date"]
    (Call (Attribute (Name "pd") "to_datetime") [Constant (CStr "2009-01-01")] []);
  Assign
    [Name "df"]
    (Call
      (Attribute (Name "web") "DataReader")
      [Constant (CStr "NA000334Q"); Constant (CStr "fred")]
      [("start", Name "ts_start_date"); ("end", Call (Attribute (Name "datetime") "now") [] [])]);
  Assign [Attribute (Name "df") "columns"] (List [Constant (CStr "gdp")]);
  Expr (Call (Attribute (Name "df") "head") [] [])
].

(* df["log"] = np.log(df["gdp"])
   df["square"] = np.power(df["gdp"], 2)
   df["sqrt"] = np.sqrt(df["gdp"])
   df.head() *)
Definition ts_cell_73 : list stmt := [
  Assign
    [Subscript (Name "df") (Constant (CStr "log"))]
    (Call (Attribute (Name "np") "log") [Subscript (Name "df") (Constant (CStr "gdp"))] []);
  Assign
    [Subscript (Name "df") (Constant (CStr "square"))]
    (Call
      (Attribute (Name "np") "power")
      [Subscript (Name "df") (Constant (CStr "gdp")); Constant (CInt 2)]
      []);
  Assign
    [Subscript (Name "df") (Constant (CStr "sqrt"))]
    (Call (Attribute (Name "np") "sqrt") [Subscript (Name "df") (Constant (CStr "gdp"))] []);
  Expr (Call (Attribute (Name "df") "head") [] [])
].

(* df["q_on_q"] = df["gdp"].pct_change(1) * 100
   df["q_on_q_yr_ago"] = df["gdp"].pct_change(4) * 100
   df.tail() *)
Definition ts_cell_75 : list stmt := [
  Assign
    [Subscript (Name "df") (Constant (CStr "q_on_q"))]
    (BinOp
      (Call
        (Attribute (Subscript (Name "df") (Constant (CStr "gdp"))) "pct_change")
        [Constant (CInt 1)]
        [])
      Mult
      (Constant (CInt 100)));
  Assign
    [Subscript (Name "df") (Constant (CStr "q_on_q_yr_ago"))]
    (BinOp
      (Call
        (Attribute (Subscript (Name "df") (Constant (CStr "gdp"))) "pct_change")
        [Constant (CInt 4)]
        [])
      Mult
      (Constant (CInt 100)));
  Expr (Call (Attribute (Name "df") "tail") [] [])
].

(* df["demean"] = df["gdp"] - df["gdp"].mean()
   df[["gdp", "demean"]].tail() *)
Definition ts_cell_77 : list stmt := [
  Assign
    [Subscript (Name "df") (Constant (CStr "demean"))]
    (BinOp
      (Subscript (Name "df") (Constant (CStr "gdp")))
      Sub
      (Call (Attribute (Subscript (Name "df") (Constant (CStr "gdp"))) "mean") [] []));
  Expr
    (Call
      (Attribute
        (Subscript (Name "df") (List [Constant (CStr "gdp"); Constant (CStr "demean")]))
        "tail")
      []
      [])
].

(* df["real_time_demean"] = df["gdp"] - df["gdp"].expanding().mean()
   df[["gdp", "real_time_demean"]].head() *)
Definition ts_cell_79 : list stmt := [
  Assign
    [Subscript (Name "df") (Constant (CStr "real_time_demean"))]
    (BinOp
      (Subscript (Name "df") (Constant (CStr "gdp")))
      Sub
      (Call
        (Attribute
          (Call (Attribute (Subscript (Name "df") (Constant (CStr "gdp"))) "expanding") [] [])
          "mean")
        []
        []));
  Expr
    (Call
      (Attribute
        (Subscript
          (Name "df")
          (List [Constant (CStr "gdp"); Constant (CStr "real_time_demean")]))
        "head")
      []
      [])
].

(* df["difference"] = df["gdp"].diff()
   df[["gdp", "difference"]].head() *)
Definition ts_cell_81 : list stmt := [
  Assign
    [Subscript (Name "df") (Constant (CStr "difference"))]
    (Call (Attribute (Subscript (Name "df") (Constant (CStr "gdp"))) "diff") [] []);
  Expr
    (Call
      (Attribute
        (Subscript (Name "df") (List [Constant (CStr "gdp"); Constant (CStr "difference")]))
        "head")
      []
      [])
].

(* from scipy import stats

   data = prng.exponential(size=1000)
   # Last entry of the list gets the optimal value for lambda
   λ_values = [0, 0.6, stats.boxcox(data)[1]]
   # One extra plot for the original data
   num_plots = len(λ_values) + 1
   # For fitting a normal distribution
   x = np.linspace(-5, 5, 100)
   bins = 30


   fig, axes = plt.subplots(ncols=num_plots // 2, nrows=num_plots - num_plots // 2)
   axes = axes.flatten()
   for i, ax in enumerate(axes[1:]):
       values = stats.boxcox(data, lmbda=λ_values[i])
       ax.hist(values, density=True, bins=bins)
       title = r"$\lambda =$" + f"{λ_values[i]}"
       if i == len(λ_values) - 1:
           title = r"$\lambda^*=$" + f"{λ_values[i]:.2f}"
       ax.set_title(title, size=12)
       mu, std = stats.norm.fit(values)
       p = stats.norm.pdf(x, mu, std)
       ax.plot(x, p, linewidth=2, alpha=0.9)
   axes[0].hist(data, density=True, bins=bins)
   axes[0].set_title("Original", size=12)
   [ax.set_xlim(-4, 4) for ax in axes]
   plt.suptitle("Box Cox Transformed Distributions", size=18)
   plt.tight_layout()
   plt.show() *)
Definition ts_cell_83 : list stmt := [
  ImportFrom "scipy" [("stats", None)];
  Assign
    [Name "data"]
    (Call (Attribute (Name "prng") "exponential") [] [("size", Constant (CInt 1000))]);
  Assign
    [Name "λ_values"]
    (List
      [
        Constant (CInt 0);
        Constant (CFloat "0.6");
        Subscript
          (Call (Attribute (Name "stats") "boxcox") [Name "data"] [])
          (Constant (CInt 1))
      ]);
  Assign
    [Name "num_plots"]
    (BinOp (Call (Name "len") [Name "λ_values"] []) Add (Constant (CInt 1)));
  Assign
    [Name "x"]
    (Call
      (Attribute (Name "np") "linspace")
      [UnaryOp USub (Constant (CInt 5)); Constant (CInt 5); Constant (CInt 100)]
      []);
  Assign [Name "bins"] (Constant (CInt 30));
  Assign
    [Tuple [Name "fig"; Name "axes"]]
    (Call
      (Attribute (Name "plt") "subplots")
      []
      [
        ("ncols", BinOp (Name "num_plots") FloorDiv (Constant (CInt 2)));
        ("nrows",
         BinOp (Name "num_plots") Sub (BinOp (Name "num_plots") FloorDiv (Constant (CInt 2))))
      ]);
  Assign [Name "axes"] (Call (Attribute (Name "axes") "flatten") [] []);
  For
    (Tuple [Name "i"; Name "ax"])
    (Call
      (Name "enumerate")
      [Subscript (Name "axes") (Slice (Some (Constant (CInt 1))) None None)]
      [])
    [
      Assign
        [Name "values"]
        (Call
          (Attribute (Name "stats") "boxcox")
          [Name "data"]
          [("lmbda", Subscript (Name "λ_values") (Name "i"))]);
      Expr
        (Call
          (Attribute (Name "ax") "hist")
          [Name "values"]
          [("density", Constant (CBool true)); ("bins", Name "bins")]);
      Assign
        [Name "title"]
        (BinOp
          (Constant (CStr "$\lambda =$"))
          Add
          (JoinedStr [FormattedValue (Subscript (Name "λ_values") (Name "i")) None]));
      If
        (Compare
          (Name "i")
          Eq
          (BinOp (Call (Name "len") [Name "λ_values"] []) Sub (Constant (CInt 1))))
        [
          Assign
            [Name "title"]
            (BinOp
              (Constant (CStr "$\lambda^*=$"))
              Add
              (JoinedStr
                [
                  FormattedValue
                    (Subscript (Name "λ_values") (Name "i"))
                    (Some (JoinedStr [Constant (CStr ".2f")]))
                ]))
        ]
        [];
      Expr
        (Call (Attribute (Name "ax") "set_title") [Name "title"] [("size", Constant (CInt 12))]);
      Assign
        [Tuple [Name "mu"; Name "std"]]
        (Call (Attribute (Attribute (Name "stats") "norm") "fit") [Name "values"] []);
      Assign
        [Name "p"]
        (Call
          (Attribute (Attribute (Name "stats") "norm") "pdf")
          [Name "x"; Name "mu"; Name "std"]
          []);
      Expr
        (Call
          (Attribute (Name "ax") "plot")
          [Name "x"; Name "p"]
          [("linewidth", Constant (CInt 2)); ("alpha", Constant (CFloat "0.9"))])
    ];
  Expr
    (Call
      (Attribute (Subscript (Name "axes") (Constant (CInt 0))) "hist")
      [Name "data"]
      [("density", Constant (CBool true)); ("bins", Name "bins")]);
  Expr
    (Call
      (Attribute (Subscript (Name "axes") (Constant (CInt 0))) "set_title")
      [Constant (CStr "Original")]
      [("size", Constant (CInt 12))]);
  Expr
    (ListComp
      (Call
        (Attribute (Name "ax") "set_xlim")
        [UnaryOp USub (Constant (CInt 4)); Constant (CInt 4)]
        [])
      (Name "ax")
      (Name "axes"));
  Expr
    (Call
      (Attribute (Name "plt") "suptitle")
      [Constant (CStr "Box Cox Transformed Distributions")]
      [("size", Constant (CInt 18))]);
  Expr (Call (Attribute (Name "plt") "tight_layout") [] []);
  Expr (Call (Attribute (Name "plt") "show") [] [])
].

(* fred_codes = {
       "PCEPI": "inflation",
       "APU0000710212": "cheddar",  # Avg price per pound in US cities
   }


   cdf = (
       pd.concat(
           [
               web.DataReader(
                   x,
                   "fred",
                   start=pd.to_datetime("2000-01-01"),
                   end=pd.to_datetime("2021-01-01"),
               )
               for x in fred_codes.keys()
           ],
           axis=1,
       )
       .rename(columns=fred_codes)
       .groupby(pd.Grouper(freq="A"))
       .mean()
   )
   cdf.head() *)
Definition ts_cell_86 : list stmt := [
  Assign
    [Name "fred_codes"]
    (Dict
      [Constant (CStr "PCEPI"); Constant (CStr "APU0000710212")]
      [Constant (CStr "inflation"); Constant (CStr "cheddar")]);
  Assign
    [Name "cdf"]
    (Call
      (Attribute
        (Call
          (Attribute
            (Call
              (Attribute
                (Call
                  (Attribute (Name "pd") "concat")
                  [
                    ListComp
                      (Call
                        (Attribute (Name "web") "DataReader")
                        [Name "x"; Constant (CStr "fred")]
                        [
                          ("start",
                           Call
                             (Attribute (Name "pd") "to_datetime")
                             [Constant (CStr "2000-01-01")]
                             []);
                          ("end",
                           Call
                             (Attribute (Name "pd") "to_datetime")
                             [Constant (CStr "2021-01-01")]
                             [])
                        ])
                      (Name "x")
                      (Call (Attribute (Name "fred_codes") "keys") [] [])
                  ]
                  [("axis", Constant (CInt 1))])
                "rename")
              []
              [("columns", Name "fred_codes")])
            "groupby")
          [Call (Attribute (Name "pd") "Grouper") [] [("freq", Constant (CStr "A"))]]
          [])
        "mean")
      []
      []);
  Expr (Call (Attribute (Name "cdf") "head") [] [])
].

(* cdf["cheddar_i_adjust"] = (
       cdf.loc["2021-12-31", "inflation"] * cdf["cheddar"] / cdf["inflation"]
   )
   fig, ax = plt.subplots()
   ax.plot(cdf.index, cdf["cheddar"], label="Cheddar (nominal USD)")
   ax.plot(cdf.index, cdf["cheddar_i_adjust"], label="Cheddar (2021 USD)", linestyle="--")
   ax.set_ylabel("Cost per pound (USD)")
   ax.legend()
   plt.show() *)
Definition ts_cell_87 : list stmt := [
  Assign
    [Subscript (Name "cdf") (Constant (CStr "cheddar_i_adjust"))]
    (BinOp
      (BinOp
        (Subscript
          (Attribute (Name "cdf") "loc")
          (Tuple [Constant (CStr "2021-12-31"); Constant (CStr "inflation")]))
        Mult
        (Subscript (Name "cdf") (Constant (CStr "cheddar"))))
      Div
      (Subscript (Name "cdf") (Constant (CStr "inflation"))));
  Assign [Tuple [Name "fig"; Name "ax"]] (Call (Attribute (Name "plt") "subplots") [] []);
  Expr
    (Call
      (Attribute (Name "ax") "plot")
      [Attribute (Name "cdf") "index"; Subscript (Name "cdf") (Constant (CStr "cheddar"))]
      [("label", Constant (CStr "Cheddar (nominal USD)"))]);
  Expr
    (Call
      (Attribute (Name "ax") "plot")
      [
        Attribute (Name "cdf") "index";
        Subscript (Name "cdf") (Constant (CStr "cheddar_i_adjust"))
      ]
      [("label", Constant (CStr "Cheddar (2021 USD)")); ("linestyle", Constant (CStr "--"))]);
  Expr (Call (Attribute (Name "ax") "set_ylabel") [Constant (CStr "Cost per pound (USD)")] []);
  Expr (Call (Attribute (Name "ax") "legend") [] []);
  Expr (Call (Attribute (Name "plt") "show") [] [])
].

Definition ts_cells : list cell := [
  Markdown 10; Code None [] ts_cell_1; Markdown 3; Code None [] ts_cell_3;
  Markdown 1; Markdown 5; Code None [] ts_cell_6; Markdown 3; Code None [] ts_cell_8;
  Markdown 1; Code None [] ts_cell_10; Markdown 2; Code None [] ts_cell_12;
  Markdown 1; Code None [] ts_cell_14; Markdown 1; Code None [] ts_cell_16;
  Markdown 1; Code None [] ts_cell_18; Markdown 3; Code None [] ts_cell_20;
  Markdown 1; Code None [] ts_cell_22; Markdown 3; Code None [] ts_cell_24;
  Markdown 1; Markdown 3; Code None [] ts_cell_27; Markdown 1;
  Code None [] ts_cell_29; Markdown 1; Code None [] ts_cell_31; Markdown 25;
  Markdown 4; Code None [] ts_cell_34; Markdown 7; Code None [] ts_cell_36;
  Markdown 1; Code None [] ts_cell_38; Markdown 1; Code None [] ts_cell_40;
  Markdown 1; Code None [] ts_cell_42; Markdown 1; Code None [] ts_cell_44;
  Code None [] ts_cell_45; Markdown 11; Code None [] ts_cell_47; Markdown 9;
  Code None [] ts_cell_49; Markdown 1; Code None [] ts_cell_51; Markdown 3;
  Code None [] ts_cell_53; Markdown 3; Code None [] ts_cell_55;
  Code None [] ts_cell_56; Markdown 7; Code None [] ts_cell_58; Markdown 3;
  Code None [] ts_cell_60; Markdown 3; Markdown 21; Code None [] ts_cell_63;
  Markdown 1; Code None [] ts_cell_65; Code None [] ts_cell_66; Markdown 1;
  Code None [] ts_cell_68; Markdown 1; Markdown 7; Code None [] ts_cell_71;
  Markdown 1; Code None [] ts_cell_73; Markdown 3; Code None [] ts_cell_75;
  Markdown 7; Code None [] ts_cell_77; Markdown 7; Code None [] ts_cell_79;
  Markdown 9; Code None [] ts_cell_81; Markdown 13; Code None [] ts_cell_83;
  Markdown 1; Markdown 11; Code None [] ts_cell_86; Code None [] ts_cell_87;
  Markdown 1
].


Definition ts : notebook :=
  {| cells := ts_cells; kernelspec := "python3"; nbformat := (4, 2) |}.

(** ** Common plots ([_sources/common-plots.md], MyST) *)

(* import numpy as np
   import pandas as pd
   import matplotlib.pyplot as plt
   from plotnine import *
   import altair as alt
   from vega_datasets import data *)
Definition common_plots_cell_24 : list stmt := [
  Import "numpy" (Some "np");
  Import "pandas" (Some "pd");
  Import "matplotlib.pyplot" (Some "plt");
  ImportFrom "plotnine" [("*", None)];
  Import "altair" (Some "alt");
  ImportFrom "vega_datasets" [("data", None)]
].

(* # Set seed for reproducibility
   np.random.seed(10)
   # Set max rows displayed for readability
   pd.set_option('display.max_rows', 6) *)
Definition common_plots_cell_33 : list stmt := [
  Expr (Call (Attribute (Attribute (Name "np") "random") "seed") [Constant (CInt 10)] []);
  Expr
    (Call
      (Attribute (Name "pd") "set_option")
      [Constant (CStr "display.max_rows"); Constant (CInt 6)]
      [])
].

(* cars = data.cars()
   cars.head() *)
Definition common_plots_cell_46 : list stmt := [
  Assign [Name "cars"] (Call (Attribute (Name "data") "cars") [] []);
  Expr (Call (Attribute (Name "cars") "head") [] [])
].

(* from myst_nb import glue

   # Matplotlib
   colormap = plt.cm.Set1
   colorst = [colormap(i) for i in
              np.linspace(0, 0.9, len(cars['Origin'].unique()))]
   fig, ax = plt.subplots()
   for i, origin in enumerate(cars['Origin'].unique()):
       cars_sub = cars[cars['Origin'] == origin]
       ax.scatter(cars_sub['Horsepower'],
                  cars_sub['Miles_per_Gallon'],
                  color=colorst[i],
                  label=origin,
                  alpha=0.6,
                  edgecolor='k')
   ax.set_ylabel('Miles per Gallon')
   ax.set_xlabel('Horsepower')
   ax.legend()
   plt.show()

   glue("m_scatter", fig, display=False) *)
Definition common_plots_cell_51 : list stmt := [
  ImportFrom "myst_nb" [("glue", None)];
  Assign [Name "colormap"] (Attribute (Attribute (Name "plt") "cm") "Set1");
  Assign
    [Name "colorst"]
    (ListComp
      (Call (Name "colormap") [Name "i"] [])
      (Name "i")
      (Call
        (Attribute (Name "np") "linspace")
        [
          Constant (CInt 0);
          Constant (CFloat "0.9");
          Call
            (Name "len")
            [
              Call
                (Attribute (Subscript (Name "cars") (Constant (CStr "Origin"))) "unique")
                []
                []
            ]
            []
        ]
        []));
  Assign [Tuple [Name "fig"; Name "ax"]] (Call (Attribute (Name "plt") "subplots") [] []);
  For
    (Tuple [Name "i"; Name "origin"])
    (Call
      (Name "enumerate")
      [Call (Attribute (Subscript (Name "cars") (Constant (CStr "Origin"))) "unique") [] []]
      [])
    [
      Assign
        [Name "cars_sub"]
        (Subscript
          (Name "cars")
          (Compare (Subscript (Name "cars") (Constant (CStr "Origin"))) Eq (Name "origin")));
      Expr
        (Call
          (Attribute (Name "ax") "scatter")
          [
            Subscript (Name "cars_sub") (Constant (CStr "Horsepower"));
            Subscript (Name "cars_sub") (Constant (CStr "Miles_per_Gallon"))
          ]
          [
            ("color", Subscript (Name "colorst") (Name "i"));
            ("label", Name "origin");
            ("alpha", Constant (CFloat "0.6"));
            ("edgecolor", Constant (CStr "k"))
          ])
    ];
  Expr (Call (Attribute (Name "ax") "set_ylabel") [Constant (CStr "Miles per Gallon")] []);
  Expr (Call (Attribute (Name "ax") "set_xlabel") [Constant (CStr "Horsepower")] []);
  Expr (Call (Attribute (Name "ax") "legend") [] []);
  Expr (Call (Attribute (Name "plt") "show") [] []);
  Expr
    (Call
      (Name "glue")
      [Constant (CStr "m_scatter"); Name "fig"]
      [("display", Constant (CBool false))])
].

(* colormap = plt.cm.Set1
   colorst = [colormap(i) for i in
              np.linspace(0, 0.9, len(cars['Origin'].unique()))]
   fig, ax = plt.subplots()
   for i, origin in enumerate(cars['Origin'].unique()):
       cars_sub = cars[cars['Origin'] == origin]
       ax.scatter(cars_sub['Horsepower'],
                  cars_sub['Miles_per_Gallon'],
                  color=colorst[i],
                  label=origin,
                  alpha=0.6,
                  edgecolor='k')
   ax.set_ylabel('Miles per Gallon')
   ax.set_xlabel('Horsepower')
   ax.legend()
   plt.show() *)
Definition common_plots_scatter : list stmt := [
  Assign [Name "colormap"] (Attribute (Attribute (Name "plt") "cm") "Set1");
  Assign
    [Name "colorst"]
    (ListComp
      (Call (Name "colormap") [Name "i"] [])
      (Name "i")
      (Call
        (Attribute (Name "np") "linspace")
        [
          Constant (CInt 0);
          Constant (CFloat "0.9");
          Call
            (Name "len")
            [
              Call
                (Attribute (Subscript (Name "cars") (Constant (CStr "Origin"))) "unique")
                []
                []
            ]
            []
        ]
        []));
  Assign [Tuple [Name "fig"; Name "ax"]] (Call (Attribute (Name "plt") "subplots") [] []);
  For
    (Tuple [Name "i"; Name "origin"])
    (Call
      (Name "enumerate")
      [Call (Attribute (Subscript (Name "cars") (Constant (CStr "Origin"))) "unique") [] []]
      [])
    [
      Assign
        [Name "cars_sub"]
        (Subscript
          (Name "cars")
          (Compare (Subscript (Name "cars") (Constant (CStr "Origin"))) Eq (Name "origin")));
      Expr
        (Call
          (Attribute (Name "ax") "scatter")
          [
            Subscript (Name "cars_sub") (Constant (CStr "Horsepower"));
            Subscript (Name "cars_sub") (Constant (CStr "Miles_per_Gallon"))
          ]
          [
            ("color", Subscript (Name "colorst") (Name "i"));
            ("label", Name "origin");
            ("alpha", Constant (CFloat "0.6"));
            ("edgecolor", Constant (CStr "k"))
          ])
    ];
  Expr (Call (Attribute (Name "ax") "set_ylabel") [Constant (CStr "Miles per Gallon")] []);
  Expr (Call (Attribute (Name "ax") "set_xlabel") [Constant (CStr "Horsepower")] []);
  Expr (Call (Attribute (Name "ax") "legend") [] []);
  Expr (Call (Attribute (Name "plt") "show") [] [])
].

(* df.mean() *)
Definition common_plots_seaborn : list stmt := [
  Expr (Call (Attribute (Name "df") "mean") [] [])
].


Definition common_plots_blocks : list block := [
  Prose 23;
  CodeCell [] common_plots_cell_24;
  Prose 1;
  CodeCell ["remove-cell"] common_plots_cell_33;
  Prose 5;
  CodeCell [] common_plots_cell_46;
  Prose 1;
  CodeCell ["remove-cell"] common_plots_cell_51;
  Prose 2;
  Container "panels" EmptyString
    [CodeCell [] common_plots_scatter; Prose 1; Glue "m_scatter"];
  Prose 1;
  Container "panel" "Matplotlib" [CodeCell [] common_plots_scatter];
  Prose 3;
  Container "tabbed" "Matplotlib"
    [Container "panels" EmptyString
       [CodeBlock "python" common_plots_scatter; Prose 1; Glue "m_scatter"]];
  Prose 1;
  Container "tabbed" "seaborn" [CodeBlock "python" common_plots_seaborn; Prose 1];
  Prose 1;
  Container "tabbed" "plotnine" [Container "panels" EmptyString [Prose 3]]
].

(** ** Coming from R (MyST): prose and tables, no code cell *)

Definition coming_from_r_blocks : list block := [Prose 79].

(** ** The chapters

    A chapter is a document with its heading and, where the file name is
    known, its path in the repository. *)

Record chapter := {
  path : option string;
  heading : string;
  content : document;
}.

Definition eda_chapter : chapter :=
  {| path := Some "data-exploratory-analysis.ipynb";
     heading := "Exploratory Data Analysis";
     content := Notebook eda |}.

Definition rbc_chapter : chapter :=
  {| path := None; heading := "Modelling with RBC"; content := Notebook rbc |}.

Definition ts_chapter : chapter :=
  {| path := None; heading := "Time Series"; content := Notebook ts |}.

Definition common_plots_chapter : chapter :=
  {| path := Some "_sources/common-plots.md";
     heading := "Common plots";
     content := MyST "codeforecon" common_plots_blocks |}.

Definition coming_from_r_chapter : chapter :=
  {| path := None;
     heading := "Coming from R";
     content := MyST "codeforecon" coming_from_r_blocks |}.

Definition chapters : list chapter :=
  [eda_chapter; rbc_chapter; ts_chapter; common_plots_chapter; coming_from_r_chapter].

Definition notebooks : list notebook := [eda; rbc; ts].

End Book.

(** * The table of contents ([_toc.yml]) *)

Module Toc.
#[local] Open Scope string_scope.

(** An entry is a chapter ([file:]) or a part with its chapters.  Entries
    commented out in the file (the quickstart, [wrkflow-automating-outputs]
    and [further-resources]) are not entries. *)
Inductive entry :=
| File (file : string)
| Part (part : string) (numbered : bool) (chapters : list string).

Definition toc : list entry := [
  File "intro";
  Part "Coding" true
    ["code-preliminaries"; "code-basics"; "code-advanced"; "code-where"];
  Part "Workflow" true
    ["wrkflow-best-practice"; "wrkflow-advcd-best-practice"; "wrkflow-command-line"];
  Part "Data" true
    ["data-analysis-quickstart"; "data-intro"; "data-exploratory-analysis";
     "data-read-and-write"; "data-extraction"; "data-sharing"; "data-advanced"];
  Part "Data Visualisation" true ["vis-intro"; "vis-common-plots"; "vis-animation"];
  Part "Econometrics" true
    ["econmt-probability-random"; "econmt-statistics"; "econmt-regression"];
  Part "Text Analysis" true ["text-intro"; "text-nlp"];
  Part "Time" true ["time-intro"; "time-series"; "time-fcasts-env"];
  Part "Geospatial" true ["geo-intro"; "geo-vis"];
  Part "Mathematics with Code" true ["maths-maths-coding"];
  Part "Automation" true ["auto-research-outputs"];
  Part "Coming from ..." false
    ["coming-from-stata"; "coming-from-matlab"; "coming-from-r"; "coming-from-excel"];
  Part "Elsewhere" false ["zreferences"]
].

Definition entry_files (e : entry) : list string :=
  match e with
  | File f => [f]
  | Part _ _ chapters => chapters
  end.

(** Every [file:] reference of the table of contents, in order. *)
Definition files : list string := flat_map entry_files toc.

(** A reference names a chapter without its extension; the build tool looks
    for a notebook or a markdown file of that name. *)
Definition extensions : list string := [".ipynb"; ".md"].

Definition resolves (tree : list string) (file : string) : bool :=
  existsb (fun ext => bool_decide (file +:+ ext ∈ tree)) extensions.

(** The files of the repository at hand whose names are known. *)
Definition known_files : list string :=
  [".pre-commit-config.yaml"; "_toc.yml"; "_sources/common-plots.md";
   "data-exploratory-analysis.ipynb"].

End Toc.

(** * The pre-commit configuration ([.pre-commit-config.yaml]) *)

Module PreCommit.
#[local] Open Scope string_scope.

Record hook := {
  id : string;
  name : option string;
  description : option string;
  entry : option string;
  language : option string;
  language_version : option string;
  types : list string;
  files : option string;
}.

Record repo := {
  url : string;
  rev : string;
  hooks : list hook;
}.

Definition bare (id : string) : hook :=
  {| id := id; name := None; description := None; entry := None; language := None;
     language_version := None; types := []; files := None |}.

Definition config : list repo := [
  {| url := "https://github.com/pre-commit/pre-commit-hooks";
     rev := "v4.0.1";
     hooks := [bare "check-added-large-files"] |};
  {| url := "https://github.com/kynan/nbstripout";
     rev := "0.4.0";
     hooks := [
       {| id := "nbstripout";
          name := Some "nbstripout";
          description :=
            Some "nbstripout: strip output from Jupyter and IPython notebooks";
          entry := Some "nbstripout";
          language := Some "python";
          language_version := None;
          types := ["jupyter"];
          files := None |}] |};
  {| url := "https://github.com/psf/black";
     rev := "21.6b0";
     hooks := [
       {| id := "black";
          name := Some "black";
          description := Some "applies black formatter to .py files";
          entry := Some "black";
          language := Some "python";
          language_version := None;
          types := ["python"];
          files := None |}] |};
  {| url := "https://github.com/pycqa/flake8";
     rev := "3.9.2";
     hooks := [bare "flake8"] |};
  {| url := "https://github.com/tomcatling/black-nb";
     rev := "0.5.0";
     hooks := [
       {| id := "black-nb";
          name := Some "black-nb";
          description := None;
          entry := Some "black-nb";
          language := Some "python";
          language_version := Some "python3";
          types := [];
          files := Some "\.ipynb$" |}] |}
].

(** The revision under which a hook is declared, if it is declared. *)
Definition hook_rev (hook_id : string) : option string :=
  rev <$> List.find (fun r => existsb (fun h => String.eqb (id h) hook_id) (hooks r)) config.

(** A revision is fixed when it is a release tag: an optional [v], then a
    version number that starts with a digit.  A branch name ([main],
    [master], [stable]) or [HEAD] moves and is not. *)
Definition is_digit (c : ascii) : bool :=
  (48 <=? nat_of_ascii c)%nat && (nat_of_ascii c <=? 57)%nat.

Definition starts_with_digit (s : string) : bool :=
  match s with
  | String c _ => is_digit c
  | EmptyString => false
  end.

Definition fixed_revision (rev : string) : bool :=
  match rev with
  | String "v" rest => starts_with_digit rest
  | _ => starts_with_digit rev
  end.

(** The hooks that serve each hygiene concern. *)
Definition large_file_hooks : list string := ["check-added-large-files"].
Definition output_stripping_hooks : list string := ["nbstripout"].
Definition formatting_hooks : list string := ["black"; "black-nb"; "flake8"].

End PreCommit.

(** * pandas timestamps and the date-code conversion *)

Module Pandas.
Import Py.
#[local] Open Scope Z_scope.

(** ** Calendar

    Days since 1970-01-01 of a date of the proleptic Gregorian calendar
    (years start in March for the computation, so that the leap day is the
    last day of a year). *)
Definition days_from_civil (y m d : Z) : Z :=
  let y' := if m <=? 2 then y - 1 else y in
  let era := y' / 400 in
  let yoe := y' - era * 400 in
  let mp := (m + 9) mod 12 in
  let doy := (153 * mp + 2) / 5 + d - 1 in
  let doe := yoe * 365 + yoe / 4 - yoe / 100 + doy in
  era * 146097 + doe - 719468.

Definition is_leap (y : Z) : bool :=
  (y mod 4 =? 0) && (negb (y mod 100 =? 0) || (y mod 400 =? 0)).

Definition days_in_month (y m : Z) : Z :=
  if m =? 2 then (if is_leap y then 29 else 28)
  else if (m =? 4) || (m =? 6) || (m =? 9) || (m =? 11) then 30
  else 31.

(** ** Timestamps

    A [Timestamp] is a signed 64-bit count of nanoseconds since the epoch;
    the least 64-bit value is [NaT].  [datetime.datetime], through which a
    [DateOffset] is added, holds the years 1 to 9999. *)

Record Timestamp := { value : Z }.

Definition ns_per_day : Z := 86400 * 1000000000.

Definition Timestamp_min : Z := - 2 ^ 63 + 1.
Definition Timestamp_max : Z := 2 ^ 63 - 1.

Definition datetime_min_day : Z := days_from_civil 1 1 1.
Definition datetime_max_day : Z := days_from_civil 9999 12 31.

(** The timestamp of a count of nanoseconds, [OutOfBoundsDatetime] when the
    count does not fit. *)
Definition Timestamp_of_value (ns : Z) : result Timestamp :=
  if (Timestamp_min <=? ns) && (ns <=? Timestamp_max) then Ok {| value := ns |}
  else Raise OutOfBoundsDatetime.

(** The timestamp of midnight of a day. *)
Definition Timestamp_of_day (day : Z) : result Timestamp :=
  Timestamp_of_value (day * ns_per_day).

(** Whether midnight of a day is a timestamp. *)
Definition raises_nothing_at (day : Z) : bool := negb (raises (Timestamp_of_day day)).

(** ** [pd.to_datetime] on a string of digits [MM-DD-YYYY]

    With the default [dayfirst=False] the first field is the month.  The
    other date formats that pandas reads are outside this model, which
    raises [ValueError] for them as for a string that is no date. *)

Definition digit_value (c : ascii) : option Z :=
  let n := Z.of_nat (nat_of_ascii c) in
  if (48 <=? n) && (n <=? 57) then Some (n - 48) else None.

(** Fields of digits separated by hyphens, as numbers; [None] on any other
    character or an empty field. *)
Fixpoint fields (s : string) (current : option Z) : option (list Z) :=
  match s with
  | EmptyString => (fun n => [n]) <$> current
  | String c rest =>
      if Ascii.eqb c "-"%char then
        n ← current; ns ← fields rest None; Some (n :: ns)
      else
        d ← digit_value c; fields rest (Some (10 * default 0 current + d))
  end.

Definition to_datetime (s : string) : result Timestamp :=
  match fields s None with
  | Some [m; d; y] =>
      if (1 <=? m) && (m <=? 12) && (1 <=? d) && (d <=? days_in_month y m)
         && (1 <=? y) && (y <=? 9999)
      then Timestamp_of_day (days_from_civil y m d)
      else Raise ValueError
  | _ => Raise ValueError
  end.

(** ** [Timestamp + DateOffset(days=k)]

    The offset moves the date by [k] days and keeps the time of day.  It is
    applied to the [datetime.datetime] of the timestamp, which raises
    [OverflowError] when the date leaves the years 1 to 9999, and the result
    is made a [Timestamp] again, which raises [OutOfBoundsDatetime] when the
    nanoseconds do not fit. *)
Definition add_days (t : Timestamp) (k : Z) : result Timestamp :=
  let day := value t / ns_per_day + k in
  if (datetime_min_day <=? day) && (day <=? datetime_max_day) then
    Timestamp_of_value (value t + k * ns_per_day)
  else Raise OverflowError.

(** ** The chapter's function

    [[
    def convert_date_code_to_datetime(date):
        start_code = 16436
        return pd.to_datetime("01-01-2005") + pd.DateOffset(days=date - start_code)
    ]] *)
Definition convert_date_code_to_datetime (date : Z) : result Timestamp :=
  let start_code := 16436 in
  t ← to_datetime "01-01-2005"; add_days t (date - start_code).

(** The date codes for which the result is a [Timestamp]: those of
    1677-09-22 and of 2262-04-11, the first and the last day whose midnight
    is a timestamp. *)
Definition min_date_code : Z := -103099.
Definition max_date_code : Z := 110403.

End Pandas.

(** * numpy and scipy routines on sequences of numbers *)

Module Numpy.
Import Py.
#[local] Open Scope Z_scope.

(** ** Numbers

    The arithmetic of the element type.  The chapters compute in IEEE 754
    binary64 ([float64]); the definitions below are written once for any
    arithmetic, so that a statement which holds for every arithmetic holds
    for binary64, and a statement which needs exact arithmetic says so. *)

Class Number (A : Type) := {
  nzero : A;
  nadd : A → A → A;
  nsub : A → A → A;
  nmul : A → A → A;
  ndiv : A → A → A;
  of_Z : Z → A;
}.

Class Sqrt (A : Type) := nsqrt : A → A.

(** binary64: 53 bits of precision, exponents below 1024, rounding to
    nearest, ties to even. *)
Definition prec : Z := 53.
Definition emax : Z := 1024.

Definition float64 := spec_float.

#[global] Instance float64_number : Number float64 := {|
  nzero := S754_zero false;
  nadd := SFadd prec emax;
  nsub := SFsub prec emax;
  nmul := SFmul prec emax;
  ndiv := SFdiv prec emax;
  of_Z := fun z => binary_normalize prec emax z 0 false;
|}.

#[global] Instance float64_sqrt : Sqrt float64 := SFsqrt prec emax.

(** The float of a decimal literal with [digits] and a power of ten [scale]
    below 2^53: the quotient of two exact floats, correctly rounded. *)
Definition decimal (digits scale : Z) : float64 :=
  SFdiv prec emax (binary_normalize prec emax digits 0 false)
    (binary_normalize prec emax scale 0 false).

(** [==] on floats, and [np.isnan]: a NaN is the float that differs from
    itself. *)
Definition float64_eqb (a b : float64) : bool := SFeqb a b.
Definition isnan (a : float64) : bool := negb (SFeqb a a).

(** Exact rational arithmetic. *)
#[global] Instance Qc_number : Number Qc := {|
  nzero := 0%Qc;
  nadd := Qcplus;
  nsub := Qcminus;
  nmul := Qcmult;
  ndiv := Qcdiv;
  of_Z := fun z => Q2Qc (inject_Z z);
|}.

(** ** Python sequences *)

Definition len {A} (l : list A) : Z := Z.of_nat (length l).

(** An index of a slice, as [slice.indices] normalises it: a negative index
    counts from the end, and both ends are clipped to the sequence. *)
Definition slice_index (n i : Z) : Z :=
  if i <? 0 then Z.max (i + n) 0 else Z.min i n.

(** [l[lo:hi]] *)
Definition slice {A} (l : list A) (lo hi : Z) : list A :=
  let lo' := slice_index (len l) lo in
  let hi' := slice_index (len l) hi in
  take (Z.to_nat (hi' - lo')) (drop (Z.to_nat lo') l).

Section Routines.
Context {A : Type} `{Number A, Sqrt A}.

(** The sum of a sequence, from the left.  numpy adds pairwise from eight
    elements on, and pandas' expanding mean compensates: in exact arithmetic
    the order does not matter, in binary64 the last bits of a sum of eight
    or more elements can differ from those of this one.  Lengths and
    positions do not depend on it. *)
Definition sum (x : list A) : A := foldl nadd nzero x.

(** [np.mean(x)] *)
Definition mean (x : list A) : A := ndiv (sum x) (of_Z (len x)).

(** [x - c], element by element *)
Definition sub_scalar (x : list A) (c : A) : list A := (fun v => nsub v c) <$> x.

(** [x / c], element by element *)
Definition div_scalar (x : list A) (c : A) : list A := (fun v => ndiv v c) <$> x.

(** [np.std(x)]: the square root of the mean squared deviation. *)
Definition std (x : list A) : A :=
  nsqrt (mean ((fun d => nmul d d) <$> sub_scalar x (mean x))).

(** The element [y_m] of the correlation formula: zero outside of [y]. *)
Definition padded (y : list A) (m : Z) : A :=
  if m <? 0 then nzero else default nzero (y !! Z.to_nat m).

(** [scipy.signal.correlate(x, y, mode="full", method="direct")] on real
    one-dimensional sequences that are not empty:
    [z[k] = sum_l x[l] * y[l - k + N - 1]] for [k = 0 .. len x + len y - 2].
    scipy hands the sequences to [numpy.correlate], which computes
    [c_j = sum_n x[n + j] * y[n]] for the lags [j = - (len y - 1), ...,
    len x - 1]: the product of the elements at the same places stands at
    [k = len y - 1], so [N = len y].  (The formula in scipy's documentation
    has [N = max (len x) (len y)], which is the same for [len x <= len y].)
    On an empty sequence [numpy.correlate] raises [ValueError]; the
    statements about [ccf_stats] that read a value are about sequences that
    are not empty. *)
Definition correlate_at (x y : list A) (k : Z) : A :=
  let N := len y in
  sum (imap (fun l xl => nmul xl (padded y (Z.of_nat l - k + N - 1))) x).

Definition correlate (x y : list A) : list A :=
  correlate_at x y <$> seqZ 0 (len x + len y - 1).

(** The sum of the products of corresponding elements: the cross-correlation
    at lag zero. *)
Definition dot (x y : list A) : A := sum (zip_with nmul x y).

End Routines.

(** ** [int(10 * np.log10(m / 2))]

    For [m >= 2] the value is the largest [k] with [10^(k/10) <= m/2], that
    is with [2^10 * 10^k <= m^10]; [np.log10] is taken to be the real
    logarithm.  For [m = 1] the logarithm is negative and [int] truncates
    towards zero; for [m = 0] it is minus infinity, which [int] refuses. *)
Fixpoint decibels_search (fuel : nat) (m k : Z) : Z :=
  match fuel with
  | O => k
  | S fuel' =>
      if 2 ^ 10 * 10 ^ (k + 1) <=? m ^ 10 then decibels_search fuel' m (k + 1) else k
  end.

Definition int_10_log10_half (m : Z) : result Z :=
  if m <=? 0 then Raise OverflowError
  else if m =? 1 then Ok (-3)
  else Ok (decibels_search (Z.to_nat m) m 0).

End Numpy.

(** * The computations of the time series chapter *)

Module TimeSeries.
Import Py Numpy.
#[local] Open Scope Z_scope.

Section CrossCorrelation.
Context {A : Type} `{Number A, Sqrt A}.

(** [not lag_max]: true for [None] and for zero. *)
Definition falsy (lag_max : option Z) : bool :=
  match lag_max with
  | None => true
  | Some l => l =? 0
  end.

(** The series of the computation before it is cut:
    [ss.correlate(x - np.mean(x), y - np.mean(y), method="direct")
       / (np.std(y) * np.std(x) * len(y))] *)
Definition ccf_full (x y : list A) : list A :=
  div_scalar
    (correlate (sub_scalar x (mean x)) (sub_scalar y (mean y)))
    (nmul (nmul (std y) (std x)) (of_Z (len y))).

(** The lag bound in force:
    [[
        if not lag_max:
            lag_max = int(10 * np.log10(min(len(x), len(y)) / 2))
    ]] *)
Definition effective_lag (x y : list A) (lag_max : option Z) : result Z :=
  match lag_max with
  | Some l => if falsy lag_max then int_10_log10_half (Z.min (len x) (len y)) else Ok l
  | None => int_10_log10_half (Z.min (len x) (len y))
  end.

(** [[
    def ccf_stats(x, y, lag_max=None):
        if not lag_max:
            lag_max = int(10 * np.log10(min(len(x), len(y)) / 2))
        result = ss.correlate(x - np.mean(x), y - np.mean(y), method="direct") / (
            np.std(y) * np.std(x) * len(y)
        )
        length = (len(result) - 1) // 2
        lo = length - lag_max
        hi = length + (lag_max + 1)
        return result[lo:hi]
    ]] *)
Definition ccf_stats (x y : list A) (lag_max : option Z) : result (list A) :=
  lag_max ← effective_lag x y lag_max;
  let result := ccf_full x y in
  let length := (len result - 1) / 2 in
  let lo := length - lag_max in
  let hi := length + (lag_max + 1) in
  Ok (slice result lo hi).

End CrossCorrelation.

(** ** The inflation adjustment

    [cdf] is a data frame indexed by dates with the columns [inflation] and
    [cheddar].  The index of a grouped frame has no duplicates, so the frame
    is a finite map from labels to rows; a binary operation on two of its
    columns aligns them on the labels, and works row by row. *)

Record row (A : Type) := { inflation : A; cheddar : A }.
Arguments inflation {A} _.
Arguments cheddar {A} _.

Abbreviation frame A := (gmap string (row A)).

(** [cdf.loc[label, column]]: a scalar, or [KeyError] *)
Definition loc {A} (cdf : frame A) (label : string) (column : row A → A) : result A :=
  match cdf !! label with
  | Some r => Ok (column r)
  | None => Raise (KeyError label)
  end.

Section Adjustment.
Context {A : Type} `{Number A}.

(** [[
    cdf["cheddar_i_adjust"] = (
        cdf.loc["2021-12-31", "inflation"] * cdf["cheddar"] / cdf["inflation"]
    )
    ]]
    The product is evaluated first: the scalar times the [cheddar] column,
    then divided by the [inflation] column. *)
Definition base : string := "2021-12-31".

Definition cheddar_i_adjust (cdf : frame A) : result (gmap string A) :=
  base_inflation ← loc cdf base inflation;
  Ok ((fun r => ndiv (nmul base_inflation (cheddar r)) (inflation r)) <$> cdf).

End Adjustment.

(** ** Sample data *)

(** Two short series of floats. *)
Definition sample_x : list float64 := of_Z <$> [1; 2; 3; 4].
Definition sample_y : list float64 := of_Z <$> [2; 1; 4; 3].

(** A frame of two years in exact arithmetic. *)
Definition sample_row_2020 : row Qc :=
  {| inflation := Q2Qc (1089 # 10); cheddar := Q2Qc (536 # 100) |}.
Definition sample_row_2021 : row Qc :=
  {| inflation := Q2Qc (1113 # 10); cheddar := Q2Qc (54 # 10) |}.
Definition sample_cdf : frame Qc :=
  <["2020-12-31" := sample_row_2020]> (<["2021-12-31" := sample_row_2021]> ∅).

(** A frame of floats whose base row has inflation 100.02 and cheddar 5.4. *)
Definition rounding_row : row float64 :=
  {| inflation := decimal 10002 100; cheddar := decimal 54 10 |}.
Definition rounding_cdf : frame float64 := {[ base := rounding_row ]}.

End TimeSeries.

(** * What the chapters import, define, call and run *)

Module Analysis.
Import Py Nb Book.
#[local] Open Scope string_scope.

Definition chapter_cells (c : chapter) : list (list stmt) := code_cells (content c).

Definition chapter_stmts (c : chapter) : list stmt := concat (chapter_cells c).

(** ** Running a chapter

    Every document is executed by a kernel of its own, from the top, in the
    initial namespace. *)
Definition run (star_exports : string → list string) (c : chapter) : result namespace :=
  exec_cells star_exports initial_namespace (chapter_cells c).

(** ** Imports *)

(** The modules a chapter imports, and their top-level packages. *)
Definition imports (c : chapter) : list string :=
  flat_map stmt_imports (chapter_stmts c).

Definition imported_packages (c : chapter) : list string :=
  top_level_package <$> imports c.

(** The packages of the Python standard library and the distributions of
    the package index that the chapters draw on. *)
Definition standard_library : list string := ["itertools"; "datetime"].

Definition third_party : list string :=
  ["numpy"; "pandas"; "matplotlib"; "statsmodels"; "scipy"; "sympy"; "rich";
   "requests"; "pandas_datareader"; "dataprep"; "pandas_profiling"; "IPython";
   "plotnine"; "altair"; "vega_datasets"; "myst_nb"].

(** The name under which a chapter would be imported, were it a module: its
    file name without directory and extension.  The chapters of the table
    of contents are named by exactly that. *)
Fixpoint basename (path : string) (current : string) : string :=
  match path with
  | EmptyString => current
  | String c rest =>
      if Ascii.eqb c "/"%char then basename rest EmptyString
      else basename rest (current +:+ String c EmptyString)
  end.

Fixpoint stem (file : string) : string :=
  match file with
  | EmptyString => EmptyString
  | String c rest =>
      if Ascii.eqb c "."%char then EmptyString else String c (stem rest)
  end.

Definition chapter_modules : list string :=
  Toc.files ++ omap (fun c => (fun p => stem (basename p EmptyString)) <$> path c) chapters.

(** ** Functions the chapters define, and names they load *)

Definition defs (c : chapter) : list string := flat_map stmt_defs (chapter_stmts c).

Definition chapter_loads (c : chapter) : list string :=
  flat_map stmt_loads (chapter_stmts c).

(** The functions defined anywhere in the repository. *)
Definition own_functions : list string := flat_map defs chapters.

(** ** Calls

    Every call of an expression: the name of the routine (the attribute for
    a method call), the number of positional arguments and the keywords. *)

Record call := {
  callee : string;
  positional : nat;
  keywords : list string;
}.

Definition callee_name (f : expr) : string :=
  match f with
  | Name x => x
  | Attribute _ a => a
  | _ => EmptyString
  end.

Fixpoint calls (e : expr) : list call :=
  match e with
  | Name _ | Constant _ => []
  | Attribute v _ => calls v
  | Subscript v s => calls v ++ calls s
  | Slice lo hi st =>
      from_option calls [] lo ++ from_option calls [] hi ++ from_option calls [] st
  | Call f args kws =>
      {| callee := callee_name f; positional := length args; keywords := fst <$> kws |}
      :: calls f ++ flat_map calls args ++ flat_map (fun kw => calls (snd kw)) kws
  | BinOp l _ r | Compare l _ r => calls l ++ calls r
  | UnaryOp _ x => calls x
  | List es | Tuple es | JoinedStr es => flat_map calls es
  | Dict ks vs => flat_map calls ks ++ flat_map calls vs
  | Lambda _ b => calls b
  | ListComp elt tgt it => calls it ++ calls tgt ++ calls elt
  | FormattedValue v fs => calls v ++ from_option calls [] fs
  end.

Fixpoint stmt_calls (s : stmt) : list call :=
  match s with
  | Import _ _ | ImportFrom _ _ => []
  | Assign targets value => calls value ++ flat_map calls targets
  | Expr value | Return value => calls value
  | FunctionDef _ _ defaults body => flat_map calls defaults ++ flat_map stmt_calls body
  | If test body orelse =>
      calls test ++ flat_map stmt_calls body ++ flat_map stmt_calls orelse
  | For target iter body => calls iter ++ calls target ++ flat_map stmt_calls body
  end.

Definition chapter_calls (c : chapter) : list call :=
  flat_map stmt_calls (chapter_stmts c).

(** Routines that write a file, and routines that render to a string unless
    they are given a buffer or a path ([buf], the first positional
    argument). *)
Definition file_writers : list string :=
  ["open"; "to_csv"; "to_excel"; "to_pickle"; "to_parquet"; "to_feather"; "to_hdf";
   "to_stata"; "to_sql"; "to_json"; "to_file"; "savefig"; "save"; "dump"; "write";
   "writelines"].

Definition renderers : list string := ["to_string"; "to_html"; "to_latex"; "to_markdown"].

Definition writes_file (c : call) : bool :=
  bool_decide (callee c ∈ file_writers)
  || (bool_decide (callee c ∈ renderers)
      && (negb (Nat.eqb (positional c) 0) || bool_decide ("buf" ∈ keywords c))).

(** ** Code of the repository's own

    An expression is plain when it contains no function of its own making
    (a [Lambda]) and no loop of its own (a comprehension). *)
Fixpoint plain (e : expr) : bool :=
  match e with
  | Name _ | Constant _ => true
  | Attribute v _ => plain v
  | Subscript v s => plain v && plain s
  | Slice lo hi st =>
      from_option plain true lo && from_option plain true hi && from_option plain true st
  | Call f args kws =>
      plain f && forallb plain args && forallb (fun kw => plain (snd kw)) kws
  | BinOp l _ r | Compare l _ r => plain l && plain r
  | UnaryOp _ x => plain x
  | List es | Tuple es | JoinedStr es => forallb plain es
  | Dict ks vs => forallb plain ks && forallb plain vs
  | Lambda _ _ | ListComp _ _ _ => false
  | FormattedValue v fs => plain v && from_option plain true fs
  end.

(** A statement is a direct use of the libraries when it is an import, or
    the evaluation (and possibly assignment) of a plain expression that
    loads none of the repository's own functions.  A function definition, a
    loop and a conditional are code of the repository's own. *)
Definition direct (s : stmt) : bool :=
  match s with
  | Import _ _ | ImportFrom _ _ => true
  | Assign targets value =>
      forallb plain (value :: targets)
      && forallb (fun x => negb (bool_decide (x ∈ own_functions))) (stmt_loads s)
  | Expr value =>
      plain value
      && forallb (fun x => negb (bool_decide (x ∈ own_functions))) (stmt_loads s)
  | FunctionDef _ _ _ _ | Return _ | If _ _ _ | For _ _ _ => false
  end.

Definition direct_cell (cell : list stmt) : bool := forallb direct cell.

(** A function merely delegates when its body is the return of one call
    whose arguments are its parameters or constants. *)
Definition atom (e : expr) : bool :=
  match e with
  | Name _ | Constant _ => true
  | _ => false
  end.

Definition delegates (body : list stmt) : bool :=
  match body with
  | [Return (Call f args kws)] =>
      forallb atom args && forallb (fun kw => atom (snd kw)) kws
  | _ => false
  end.

(** The body of the definition of [name] in a cell. *)
Definition function_body (name : string) (cell : list stmt) : option (list stmt) :=
  (fun s => match s with FunctionDef _ _ _ body => body | _ => [] end)
  <$> List.find (fun s => match s with
                          | FunctionDef n _ _ _ => String.eqb n name
                          | _ => false
                          end) cell.

(** The arithmetic operators a function body applies itself. *)
Fixpoint operators (e : expr) : list operator :=
  match e with
  | Name _ | Constant _ => []
  | Attribute v _ => operators v
  | Subscript v s => operators v ++ operators s
  | Slice lo hi st =>
      from_option operators [] lo ++ from_option operators [] hi
      ++ from_option operators [] st
  | Call f args kws =>
      operators f ++ flat_map operators args
      ++ flat_map (fun kw => operators (snd kw)) kws
  | BinOp l op r => operators l ++ [op] ++ operators r
  | Compare l _ r => operators l ++ operators r
  | UnaryOp _ x => operators x
  | List es | Tuple es | JoinedStr es => flat_map operators es
  | Dict ks vs => flat_map operators ks ++ flat_map operators vs
  | Lambda _ b => operators b
  | ListComp elt tgt it => operators it ++ operators elt
  | FormattedValue v fs => operators v ++ from_option operators [] fs
  end.

Fixpoint stmt_operators (s : stmt) : list operator :=
  match s with
  | Import _ _ | ImportFrom _ _ => []
  | Assign _ value | Expr value | Return value => operators value
  | FunctionDef _ _ _ body => flat_map stmt_operators body
  | If test body orelse =>
      operators test ++ flat_map stmt_operators body ++ flat_map stmt_operators orelse
  | For _ iter body => operators iter ++ flat_map stmt_operators body
  end.

(** The cells of all chapters that are not direct uses of the libraries. *)
Definition own_code_cells : list (list stmt) :=
  List.filter (fun cell => negb (direct_cell cell)) (flat_map chapter_cells chapters).

End Analysis.

(** * Threads, processes and tasks

    A Python program runs its statements one after the other, in one
    thread, unless it asks for something else: it imports a package that
    starts threads, processes or an event loop and calls one of its
    routines, or it passes a library the number of workers to use.  The
    syntax of coroutines ([async def], [await], [async for],
    [async with]) does not occur in the chapters: [Py.stmt] and [Py.expr],
    which hold every statement of their cells, have no such node. *)

Module Concurrency.
Import Py Nb Book Analysis.
#[local] Open Scope string_scope.





End Concurrency.

(** * Further cells of the notebooks *)

(** ** Exploratory data analysis: the [datetime] column *)

Module Eda.
Import Py Pandas.

(** [Series.apply(f)]: [f] on every element in order; the first exception
    ends the call. *)
Fixpoint apply {A B : Type} (f : A → result B) (column : list A) : result (list B) :=
  match column with
  | [] => Ok []
  | v :: rest => w ← f v; ws ← apply f rest; Ok (w :: ws)
  end.

(** [[
    df["datetime"] = df["Date"].apply(convert_date_code_to_datetime)
    ]] *)
Definition datetime_column (Date : list Z) : result (list Timestamp) :=
  apply convert_date_code_to_datetime Date.







End Eda.

(** ** Exact arithmetic with a square root *)

Module Exact.
Import Numpy.

(** The square root of a rational that is the square of a rational; of
    another rational, the integer square roots of its numerator and of its
    denominator. *)
Definition Qc_sqrt : Sqrt Qc :=
  fun q => Q2Qc (Z.sqrt (Qnum q) # Pos.sqrt (Qden q)).

(** Two series of rationals of standard deviation one. *)
Definition exact_x : list Qc := of_Z <$> [1; 3; 1; 3]%Z.
Definition exact_y : list Qc := of_Z <$> [2; 4; 4; 2]%Z.

End Exact.

(** ** Time series: transformations and the plot of the cross-correlation *)

Module Transformations.
Import Py Numpy.
#[local] Open Scope Z_scope.

Section Series.
Context {A : Type} `{Number A}.

(** [[
    df["demean"] = df["gdp"] - df["gdp"].mean()
    ]] *)
Definition demean (gdp : list A) : list A := sub_scalar gdp (mean gdp).

(** [gdp.expanding().mean()]: at each position the mean of the values up to
    and including it (the series has no missing value). *)
Definition expanding_mean (gdp : list A) : list A :=
  (fun t => mean (take (S t) gdp)) <$> seq 0 (length gdp).

(** [[
    df["real_time_demean"] = df["gdp"] - df["gdp"].expanding().mean()
    ]] *)
Definition real_time_demean (gdp : list A) : list A :=
  zip_with nsub gdp (expanding_mean gdp).

(** A column with missing values: a missing value is [None] (NaN in the
    frame), and an operation with a missing operand gives a missing
    value. *)
Definition lift2 (op : A → A → A) (a b : option A) : option A :=
  match a, b with
  | Some u, Some v => Some (op u v)
  | _, _ => None
  end.

(** The value at a place of a column; outside of the column there is
    none. *)
Definition value_at (s : list (option A)) (m : Z) : option A :=
  if m <? 0 then None else default None (s !! Z.to_nat m).

(** [Series.shift(periods)]: the values moved down by [periods] places (up,
    for a negative number), the places left free filled with missing
    values; the length stays. *)
Definition shift (periods : Z) (s : list (option A)) : list (option A) :=
  if 0 <=? periods
  then take (length s) (replicate (Z.to_nat periods) None ++ s)
  else drop (Z.to_nat (- periods)) s
       ++ replicate (Z.to_nat (- periods) `min` length s) None.

(** [Series.diff(periods)]: [s - s.shift(periods)] *)
Definition diff (periods : Z) (s : list (option A)) : list (option A) :=
  zip_with (lift2 nsub) s (shift periods s).

(** [Series.pct_change(periods)]: [s / s.shift(periods) - 1], on a series
    without missing values. *)
Definition pct_change (periods : Z) (s : list (option A)) : list (option A) :=
  zip_with (lift2 (fun u v => nsub (ndiv u v) (of_Z 1))) s (shift periods s).

(** [s * c] *)
Definition mul_scalar (s : list (option A)) (c : A) : list (option A) :=
  (fun v : option A => (fun u => nmul u c) <$> v) <$> s.

(** [[
    df[f"lead ({lead} months)"] = df[orig_series_name].shift(-lead)
    df[f"lag ({lag} months)"] = df[orig_series_name].shift(lag)
    ]] *)
Definition lead_column (lead : Z) (s : list (option A)) : list (option A) :=
  shift (- lead) s.
Definition lag_column (lag : Z) (s : list (option A)) : list (option A) :=
  shift lag s.

(** [[
    df["q_on_q"] = df["gdp"].pct_change(1) * 100
    df["q_on_q_yr_ago"] = df["gdp"].pct_change(4) * 100
    ]] *)
Definition q_on_q (gdp : list A) : list (option A) :=
  mul_scalar (pct_change 1 (Some <$> gdp)) (of_Z 100).
Definition q_on_q_yr_ago (gdp : list A) : list (option A) :=
  mul_scalar (pct_change 4 (Some <$> gdp)) (of_Z 100).

(** [[
    df["difference"] = df["gdp"].diff()
    ]] *)
Definition difference (gdp : list A) : list (option A) := diff 1 (Some <$> gdp).

End Series.

(** [range(a, b)] *)
Definition range (a b : Z) : list Z := seqZ a (b - a).

(** [int(len(r) / 2)]: the quotient of a true division, truncated towards
    zero. *)
Definition int_half_len {A} (r : list A) : Z := Z.quot (len r) 2.

(** The positions of the stems of the cross-correlation plot:
    [[
    ax.stem(
        range(-int(len(ccf_res_stats) / 2), int(len(ccf_res_stats) / 2) + 1),
        ccf_res_stats, ...
    ]] *)
Definition stem_locs {A} (ccf_res_stats : list A) : list Z :=
  range (- int_half_len ccf_res_stats) (int_half_len ccf_res_stats + 1).

(** The grid of the Box-Cox figure, for a list of [n] values of lambda:
    [[
    num_plots = len(λ_values) + 1
    fig, axes = plt.subplots(ncols=num_plots // 2, nrows=num_plots - num_plots // 2)
    axes = axes.flatten()
    for i, ax in enumerate(axes[1:]):
        values = stats.boxcox(data, lmbda=λ_values[i])
    ]] *)
Definition num_plots (n : Z) : Z := n + 1.
Definition ncols (n : Z) : Z := num_plots n / 2.
Definition nrows (n : Z) : Z := num_plots n - num_plots n / 2.

(** The number of axes of the flattened grid, and the indices [i] at which
    the loop reads [λ_values[i]].  This is the cell for two or more values:
    with none [plt.subplots] refuses a grid without columns, and with one
    it returns a single axes, which has no [flatten]; the cell then raises
    before the loop. *)
Definition n_axes (n : Z) : Z := nrows n * ncols n.
Definition loop_indices (n : Z) : list Z := seqZ 0 (n_axes n - 1).

End Transformations.

(** * Properties *)

Import Py.

(** A decidable closed proposition, settled by evaluation. *)
Ltac by_evaluation := apply (bool_decide_unpack _); vm_compute; exact I.

(** Membership in a list that is written out. *)
Ltac in_list :=
  vm_compute;
  solve [repeat first [apply list_elem_of_here | apply list_elem_of_further]].

(** Case analysis on every comparison [a <=? b] of the goal. *)
Ltac case_leb :=
  repeat match goal with
         | |- context [(?a <=? ?b)%Z] => destruct (Z.leb_spec a b)
         end.

(** ** Notebooks *)

Lemma every_cell_stripped :
  Forall (fun nb => Forall Nb.stripped (Nb.cells nb)) Book.notebooks.
Proof. by_evaluation. Qed.

(** C5.  In every notebook of the repository, every code cell has a null
    execution count and an empty list of outputs: the notebooks are
    committed as [nbstripout] leaves them. *)
Theorem notebooks_are_stripped nb execution_count outputs source :
  nb ∈ Book.notebooks →
  Nb.Code execution_count outputs source ∈ Nb.cells nb →
  execution_count = None ∧ outputs = [].
Proof.
  intros Hnb Hc.
  pose proof every_cell_stripped as Hall.
  rewrite Forall_forall in Hall. specialize (Hall _ Hnb).
  rewrite Forall_forall in Hall. exact (Hall _ Hc).
Qed.

Lemma notebooks_are_stripped_witness :
  Book.rbc ∈ Book.notebooks ∧
  Nb.Code None [] Book.rbc_cell_2 ∈ Nb.cells Book.rbc ∧
  (@None nat = None ∧ @nil Nb.output = []).
Proof.
  assert (H1 : Book.rbc ∈ Book.notebooks) by in_list.
  assert (H2 : Nb.Code None [] Book.rbc_cell_2 ∈ Nb.cells Book.rbc) by in_list.
  exact (conj H1 (conj H2 (notebooks_are_stripped _ _ _ _ H1 H2))).
Defined.

(** ** The table of contents *)

(** The table of contents has 35 chapter references, no two alike.  The
    reference to the exploratory data analysis chapter resolves to the
    notebook of that name. *)
Lemma toc_files_distinct : length Toc.files = 35%nat ∧ NoDup Toc.files.
Proof. split; [reflexivity|by_evaluation]. Qed.

Lemma eda_reference_resolves :
  "data-exploratory-analysis" ∈ Toc.files
  ∧ Toc.resolves Toc.known_files "data-exploratory-analysis" = true.
Proof. split; [by_evaluation|vm_compute; reflexivity]. Qed.

(** ** The pre-commit configuration *)

(** C6.  The configuration declares a hook for each of the three hygiene
    concerns: the large-file check [check-added-large-files], the output
    stripper [nbstripout], and the formatters and linter [black],
    [black-nb] and [flake8]; each under a revision that is a release tag. *)
Theorem hygiene_hooks_declared_and_pinned :
  Forall (fun concern =>
            concern ≠ [] ∧
            Forall (fun hook_id =>
                      ∃ rev, PreCommit.hook_rev hook_id = Some rev ∧
                             PreCommit.fixed_revision rev = true) concern)
    [PreCommit.large_file_hooks; PreCommit.output_stripping_hooks;
     PreCommit.formatting_hooks].
Proof.
  assert (pinned : ∀ hook_id rev,
             PreCommit.hook_rev hook_id = Some rev →
             PreCommit.fixed_revision rev = true →
             ∃ rev, PreCommit.hook_rev hook_id = Some rev ∧
                    PreCommit.fixed_revision rev = true)
    by (intros hook_id rev ? ?; exists rev; split; assumption).
  unfold PreCommit.large_file_hooks, PreCommit.output_stripping_hooks,
    PreCommit.formatting_hooks.
  repeat first
    [ apply Forall_nil
    | apply Forall_cons; split
    | split
    | discriminate
    | eapply pinned; reflexivity ].
Qed.

(** Every repository of the configuration is pinned, whatever its hooks. *)
Lemma every_repo_pinned :
  Forall (fun r => PreCommit.fixed_revision (PreCommit.rev r) = true) PreCommit.config.
Proof. repeat constructor. Qed.

(** ** Name binding *)

Lemma lookup_bind_all_None (names : list string) (ns : namespace) (x : string) :
  x ∉ names → ns !! x = None → bind_all names ns !! x = None.
Proof.
  unfold bind_all. revert ns.
  induction names as [|y names IH]; intros ns Hx Hns; cbn [foldl]; [exact Hns|].
  apply IH.
  - intros Hin. apply Hx. right. exact Hin.
  - rewrite lookup_insert_ne; [exact Hns|].
    intros ->. apply Hx. left.
Qed.

Lemma lookup_names_unbound (ns : namespace) (x : string) (xs : list string) :
  ns !! x = None → lookup_names ns (x :: xs) = Raise (NameError x).
Proof. intros Hx. simpl. unfold lookup_name. rewrite Hx. reflexivity. Qed.

(** Looking up a list of names succeeds when each lookup does, and raises
    what the first failing lookup raises. *)
Lemma lookup_names_Ok (ns : namespace) (xs : list string) :
  lookup_names ns xs = Ok tt ↔ Forall (fun x => lookup_name ns x = Ok tt) xs.
Proof.
  induction xs as [|x xs IH]; cbn [lookup_names mbind result_bind].
  - split; [constructor|reflexivity].
  - destruct (lookup_name ns x) as [[]|e] eqn:Hx.
    + rewrite IH. split; [intros Hxs; constructor; assumption|].
      intros Hall. apply Forall_cons in Hall as [_ Hxs]. exact Hxs.
    + split; [discriminate|].
      intros Hall. apply Forall_cons in Hall as [Habs _]. congruence.
Qed.

Lemma lookup_names_Raise (ns : namespace) (xs : list string) (e : exception) :
  lookup_names ns xs = Raise e → ∃ x, x ∈ xs ∧ lookup_name ns x = Raise e.
Proof.
  induction xs as [|x xs IH]; cbn [lookup_names mbind result_bind].
  - intros Hnil. discriminate Hnil.
  - destruct (lookup_name ns x) as [[]|e'] eqn:Hx.
    + intros Hxs. destruct (IH Hxs) as (y & Hy & Hraise).
      exists y. split; [right; exact Hy|exact Hraise].
    + intros [= ->]. exists x. split; [left|exact Hx].
Qed.

(** The only exception a lookup raises is [NameError]. *)
Lemma lookup_name_raises_NameError (ns : namespace) (x : string) (e : exception) :
  lookup_name ns x = Raise e → ∃ y, e = NameError y ∧ ns !! y = None.
Proof.
  unfold lookup_name. destruct (ns !! x) as [[|globals]|] eqn:Hx; [discriminate| |].
  - destruct (List.find (unbound ns) globals) as [g|] eqn:Hfind; [|discriminate].
    intros [= <-]. exists g. split; [reflexivity|].
    apply find_some in Hfind as [_ Hg]. unfold unbound in Hg.
    destruct (ns !! g); [discriminate|reflexivity].
  - intros [= <-]. exists x. split; [reflexivity|exact Hx].
Qed.

(** Running a cell in two parts. *)
Lemma exec_cell_app (star_exports : string → list string) (ns : namespace)
    (pre post : list stmt) :
  exec_cell star_exports ns (pre ++ post)
  = ns' ← exec_cell star_exports ns pre; exec_cell star_exports ns' post.
Proof.
  revert ns. induction pre as [|s pre IH]; intros ns; [reflexivity|].
  cbn [app exec_cell mbind result_bind].
  destruct (exec_stmt star_exports ns s) as [ns'|e]; [apply IH|reflexivity].
Qed.

(** Where the first code cell of the RBC notebook stands when it reaches
    [pd.set_option]: the five imports have run. *)
Lemma rbc_namespace_after_imports (star_exports : string → list string) :
  exec_cell star_exports initial_namespace (take 5 Book.rbc_cell_2)
  = Ok (<["PCG64" := Opaque]>
          (<["Generator" := Opaque]>
             (bind_all (star_exports "sympy")
                (<["smf" := Opaque]>
                   (<["plt" := Opaque]> (<["np" := Opaque]> initial_namespace)))))).
Proof. reflexivity. Qed.

Lemma pd_not_builtin :
  (<["smf" := Opaque]> (<["plt" := Opaque]> (<["np" := Opaque]> initial_namespace)))
    !! "pd" = None.
Proof. vm_compute. reflexivity. Qed.

(** C1.  The claim that every cell runs without an error fails on the RBC
    notebook: its first code cell calls [pd.set_option] and nothing binds
    [pd] (the cell imports numpy, matplotlib, statsmodels and sympy, not
    pandas), so the run stops there with [NameError], whatever the names
    that [from sympy import *] brings, as long as [pd] is not one of them. *)
Theorem rbc_notebook_raises_NameError (star_exports : string → list string) :
  "pd" ∉ star_exports "sympy" →
  Analysis.run star_exports Book.rbc_chapter = Raise (NameError "pd").
Proof.
  intros Hpd.
  unfold Analysis.run, Analysis.chapter_cells.
  change (Nb.code_cells (Book.content Book.rbc_chapter)) with [Book.rbc_cell_2].
  change Book.rbc_cell_2
    with (take 5 Book.rbc_cell_2 ++ drop 5 Book.rbc_cell_2).
  cbn [exec_cells]. rewrite exec_cell_app, rbc_namespace_after_imports.
  cbn [mbind result_bind].
  match goal with
  | |- context [exec_cell _ ?ns _] =>
      assert (Hnone : ns !! "pd" = None)
  end.
  { rewrite !lookup_insert_ne by discriminate.
    apply lookup_bind_all_None; [exact Hpd|exact pd_not_builtin]. }
  cbn [drop Book.rbc_cell_2 exec_cell exec_stmt loads flat_map app snd].
  rewrite (lookup_names_unbound _ _ _ Hnone). reflexivity.
Qed.

Lemma rbc_notebook_raises_NameError_witness :
  ("pd" ∉ ["Symbol"; "symbols"; "solve"; "diff"; "pi"]) ∧
  (Analysis.run (fun _ => ["Symbol"; "symbols"; "solve"; "diff"; "pi"]) Book.rbc_chapter
   = Raise (NameError "pd")).
Proof.
  assert (H : "pd" ∉ ["Symbol"; "symbols"; "solve"; "diff"; "pi"]) by by_evaluation.
  exact (conj H
           (rbc_notebook_raises_NameError
              (fun _ => ["Symbol"; "symbols"; "solve"; "diff"; "pi"]) H)).
Defined.

(** The sibling notebooks do what the RBC notebook misses: the time series
    chapter and the exploratory data analysis chapter import pandas as
    [pd] in their first code cell, and every name their cells load is bound
    when it is loaded.  Neither has a star import, so this holds whatever
    star imports bring. *)
Lemma eda_names_are_bound (star_exports : string → list string) :
  raises (Analysis.run star_exports Book.eda_chapter) = false.
Proof. vm_compute. reflexivity. Qed.

Lemma ts_names_are_bound (star_exports : string → list string) :
  raises (Analysis.run star_exports Book.ts_chapter) = false.
Proof. vm_compute. reflexivity. Qed.

(** In the MyST chapter [df.mean()] stands in a [code-block], which is
    displayed and never run; run as a cell after the others it would raise
    [NameError], since nothing binds [df]. *)
Lemma common_plots_names_are_bound :
  raises (Analysis.run (fun _ => []) Book.common_plots_chapter) = false.
Proof. vm_compute. reflexivity. Qed.

Lemma df_mean_is_displayed_only :
  exec_cells (fun _ => []) initial_namespace
    (Analysis.chapter_cells Book.common_plots_chapter ++ [Book.common_plots_seaborn])
  = Raise (NameError "df").
Proof. vm_compute. reflexivity. Qed.

(** ** Imports, definitions and calls *)

(** C4.  Every module that a chapter imports belongs to a third-party
    distribution or to the standard library, and none is a chapter of the
    book; a function that a chapter defines is loaded by no other chapter;
    and no chapter writes a file that another could read.  (Each document
    is run by a kernel of its own, from the initial namespace: see
    [Analysis.run].) *)
Theorem chapters_are_self_contained :
  Forall (fun c =>
            Forall (fun p =>
                      (p ∈ Analysis.third_party ∨ p ∈ Analysis.standard_library)
                      ∧ p ∉ Analysis.chapter_modules)
              (Analysis.imported_packages c))
    Book.chapters
  ∧ Forall (fun f =>
              Forall (fun c => f ∉ Analysis.chapter_loads c ∨ f ∈ Analysis.defs c)
                Book.chapters)
      Analysis.own_functions
  ∧ Forall (fun c =>
              Forall (fun k => Analysis.writes_file k = false) (Analysis.chapter_calls c))
      Book.chapters.
Proof. split; [|split]; by_evaluation. Qed.

(** ** Code of the repository's own *)

(** C3, as stated, fails: the fifth cell of the exploratory data analysis
    notebook is not a sequence of direct library calls.  It defines the
    function [convert_date_code_to_datetime], whose body does not merely
    delegate: it subtracts the start code from its argument before it calls
    pandas.  Nor is cell 63 of the time series notebook, which defines
    [ccf_stats]: eleven lines of arithmetic and slicing around two library
    calls. *)
Lemma chapters_define_functions_of_their_own :
  Book.eda_cell_5 ∈ Analysis.chapter_cells Book.eda_chapter
  ∧ Analysis.direct_cell Book.eda_cell_5 = false
  ∧ Analysis.delegates
      <$> Analysis.function_body "convert_date_code_to_datetime" Book.eda_cell_5
    = Some false
  ∧ Book.ts_cell_63 ∈ Analysis.chapter_cells Book.ts_chapter
  ∧ Analysis.direct_cell Book.ts_cell_63 = false
  ∧ Analysis.delegates <$> Analysis.function_body "ccf_stats" Book.ts_cell_63
    = Some false
  ∧ ¬ Forall (fun c => Forall (fun cell => Analysis.direct_cell cell = true)
                         (Analysis.chapter_cells c)) Book.chapters.
Proof.
  assert (Heda : Book.eda_cell_5 ∈ Analysis.chapter_cells Book.eda_chapter) by in_list.
  assert (Hown : Analysis.direct_cell Book.eda_cell_5 = false)
    by (vm_compute; reflexivity).
  split; [exact Heda|]. split; [exact Hown|]. split; [vm_compute; reflexivity|].
  split; [in_list|]. split; [vm_compute; reflexivity|].
  split; [vm_compute; reflexivity|].
  intros Hall. rewrite Forall_forall in Hall.
  assert (Hch : Book.eda_chapter ∈ Book.chapters) by in_list.
  specialize (Hall _ Hch). rewrite Forall_forall in Hall.
  specialize (Hall _ Heda). rewrite Hown in Hall. discriminate Hall.
Qed.

(** C3, amended.  The chapters define two functions,
    [convert_date_code_to_datetime] and [ccf_stats]; neither merely
    delegates, each applies arithmetic operators of its own.  Nine cells
    contain code of the repository's own (a function definition or its use,
    a lambda, a loop or a comprehension); every other cell is a sequence of
    imports and of plain expressions and assignments over library objects. *)
Theorem own_code_is_two_functions_and_nine_cells :
  Analysis.own_functions = ["convert_date_code_to_datetime"; "ccf_stats"]
  ∧ Analysis.own_code_cells
    = [Book.eda_cell_5; Book.eda_cell_28; Book.eda_cell_39; Book.eda_cell_41;
       Book.ts_cell_63; Book.ts_cell_68; Book.ts_cell_83; Book.ts_cell_86;
       Book.common_plots_cell_51]
  ∧ (fun body => (Analysis.delegates body, flat_map Analysis.stmt_operators body))
      <$> Analysis.function_body "convert_date_code_to_datetime" Book.eda_cell_5
    = Some (false, [Add; Sub])
  ∧ (fun body => (Analysis.delegates body, flat_map Analysis.stmt_operators body))
      <$> Analysis.function_body "ccf_stats" Book.ts_cell_63
    = Some (false,
            [Mult; Div; Sub; Sub; Div; Mult; Mult; Sub; FloorDiv; Sub; Add; Add]).
Proof. repeat split; vm_compute; reflexivity. Qed.

(** A cell that is not among the nine is a direct use of the libraries. *)
Lemma other_cells_are_direct (cell : list stmt) :
  cell ∈ flat_map Analysis.chapter_cells Book.chapters →
  cell ∉ Analysis.own_code_cells →
  Analysis.direct_cell cell = true.
Proof.
  intros Hin Hnot. unfold Analysis.own_code_cells in Hnot.
  destruct (Analysis.direct_cell cell) eqn:Hd; [reflexivity|].
  exfalso. apply Hnot.
  apply list_elem_of_In, filter_In. split; [apply list_elem_of_In, Hin|].
  rewrite Hd. reflexivity.
Qed.

(** ** The date-code conversion *)

#[local] Open Scope Z_scope.

(** The day numbers of the epoch, of the start date, and of the first and
    the last day whose midnight is a timestamp; the date codes of the two. *)
Example calendar_days :
  Pandas.days_from_civil 1970 1 1 = 0
  ∧ Pandas.days_from_civil 2005 1 1 = 12784
  ∧ Pandas.days_from_civil 1677 9 22 = -106751
  ∧ Pandas.days_from_civil 2262 4 11 = 106751
  ∧ Pandas.min_date_code = 16436 + (Pandas.days_from_civil 1677 9 22 - 12784)
  ∧ Pandas.max_date_code = 16436 + (Pandas.days_from_civil 2262 4 11 - 12784).
Proof. repeat split; reflexivity. Qed.

Example timestamp_bounds :
  Pandas.raises_nothing_at 106751 = true ∧ Pandas.raises_nothing_at 106752 = false
  ∧ Pandas.raises_nothing_at (-106751) = true
  ∧ Pandas.raises_nothing_at (-106752) = false.
Proof. repeat split; reflexivity. Qed.

Lemma to_datetime_2005 :
  Pandas.to_datetime "01-01-2005"
  = Ok {| Pandas.value := Pandas.days_from_civil 2005 1 1 * Pandas.ns_per_day |}.
Proof. reflexivity. Qed.

Lemma add_days_2005 (k : Z) :
  Pandas.add_days
    {| Pandas.value := Pandas.days_from_civil 2005 1 1 * Pandas.ns_per_day |} k
  = if (-106751 <=? 12784 + k) && (12784 + k <=? 106751)
    then Ok {| Pandas.value := (12784 + k) * Pandas.ns_per_day |}
    else if (-719162 <=? 12784 + k) && (12784 + k <=? 2932896)
         then Raise OutOfBoundsDatetime
         else Raise OverflowError.
Proof.
  unfold Pandas.add_days, Pandas.Timestamp_of_value.
  change (Pandas.value _ / Pandas.ns_per_day) with 12784.
  change (Pandas.value _) with (12784 * Pandas.ns_per_day).
  change Pandas.datetime_min_day with (-719162).
  change Pandas.datetime_max_day with 2932896.
  change Pandas.Timestamp_min with (-9223372036854775807).
  change Pandas.Timestamp_max with 9223372036854775807.
  change Pandas.ns_per_day with 86400000000000.
  case_leb; simpl; try reflexivity; try lia.
  f_equal. f_equal. lia.
Qed.

Lemma convert_date_code_cases (d : Z) :
  Pandas.convert_date_code_to_datetime d
  = if (Pandas.min_date_code <=? d) && (d <=? Pandas.max_date_code)
    then Ok {| Pandas.value :=
                 (Pandas.days_from_civil 2005 1 1 + (d - 16436)) * Pandas.ns_per_day |}
    else if (-715510 <=? d) && (d <=? 2936548)
         then Raise OutOfBoundsDatetime
         else Raise OverflowError.
Proof.
  unfold Pandas.convert_date_code_to_datetime.
  rewrite to_datetime_2005. cbn [mbind result_bind]. rewrite add_days_2005.
  change (Pandas.days_from_civil 2005 1 1) with 12784.
  unfold Pandas.min_date_code, Pandas.max_date_code.
  case_leb; simpl; try reflexivity; lia.
Qed.

(** C8, as stated, fails: not every integer date code has a timestamp.
    Pandas timestamps end on 2262-04-11, which is date code 110403; the code
    after it raises, and so does every code beyond the year 9999. *)
Lemma convert_date_code_raises_out_of_range :
  Pandas.convert_date_code_to_datetime 110404 = Raise OutOfBoundsDatetime
  ∧ Pandas.convert_date_code_to_datetime 3000000 = Raise OverflowError
  ∧ ¬ (∀ d : Z,
         Pandas.convert_date_code_to_datetime d
         = Ok {| Pandas.value :=
                   (Pandas.days_from_civil 2005 1 1 + (d - 16436))
                   * Pandas.ns_per_day |}).
Proof.
  split; [reflexivity|]. split; [reflexivity|].
  intros Hall. specialize (Hall 110404). discriminate Hall.
Qed.

(** C8, amended.  For every date code [d] whose date is a pandas timestamp
    (from -103099 to 110403), the function returns the timestamp of
    2005-01-01 plus [d - 16436] days; it maps the start code 16436 to
    2005-01-01 itself; and it is strictly increasing: a later code in the
    range has a later timestamp. *)
Theorem convert_date_code_to_datetime_in_range (d : Z) :
  Pandas.min_date_code ≤ d ≤ Pandas.max_date_code →
  Pandas.convert_date_code_to_datetime d
  = Ok {| Pandas.value :=
            (Pandas.days_from_civil 2005 1 1 + (d - 16436)) * Pandas.ns_per_day |}
  ∧ Pandas.convert_date_code_to_datetime 16436
    = Ok {| Pandas.value := Pandas.days_from_civil 2005 1 1 * Pandas.ns_per_day |}
  ∧ ∀ d', d < d' ≤ Pandas.max_date_code →
          ∃ t t', Pandas.convert_date_code_to_datetime d = Ok t
                  ∧ Pandas.convert_date_code_to_datetime d' = Ok t'
                  ∧ Pandas.value t < Pandas.value t'.
Proof.
  intros Hd.
  assert (Hin : ∀ e, Pandas.min_date_code ≤ e ≤ Pandas.max_date_code →
                     Pandas.convert_date_code_to_datetime e
                     = Ok {| Pandas.value :=
                               (Pandas.days_from_civil 2005 1 1 + (e - 16436))
                               * Pandas.ns_per_day |}).
  { intros e He. rewrite convert_date_code_cases.
    destruct (Z.leb_spec Pandas.min_date_code e); [|lia].
    destruct (Z.leb_spec e Pandas.max_date_code); [reflexivity|lia]. }
  split; [exact (Hin d Hd)|]. split; [reflexivity|].
  intros d' Hd'. eexists _, _.
  split; [exact (Hin d Hd)|]. split; [apply Hin; lia|].
  cbn [Pandas.value]. unfold Pandas.ns_per_day. lia.
Qed.

Lemma convert_date_code_to_datetime_in_range_witness :
  (Pandas.min_date_code ≤ 16527 ≤ Pandas.max_date_code)
  ∧ Pandas.convert_date_code_to_datetime 16527
    = Ok {| Pandas.value := Pandas.days_from_civil 2005 4 2 * Pandas.ns_per_day |}.
Proof.
  assert (H : Pandas.min_date_code ≤ 16527 ≤ Pandas.max_date_code)
    by (unfold Pandas.min_date_code, Pandas.max_date_code; lia).
  exact (conj H (proj1 (convert_date_code_to_datetime_in_range 16527 H))).
Defined.

(** Where the function returns, the order of the timestamps is the order
    of the codes; outside the range it raises. *)
Lemma convert_date_code_strictly_increasing (d1 d2 : Z) t1 t2 :
  Pandas.convert_date_code_to_datetime d1 = Ok t1 →
  Pandas.convert_date_code_to_datetime d2 = Ok t2 →
  d1 < d2 → Pandas.value t1 < Pandas.value t2.
Proof.
  rewrite !convert_date_code_cases. intros H1 H2 Hlt.
  repeat match goal with
         | H : context [?a <=? ?b] |- _ => destruct (Z.leb_spec a b)
         end; simpl in *; try discriminate.
  all: injection H1 as <-; injection H2 as <-.
  all: cbn [Pandas.value]; unfold Pandas.ns_per_day; lia.
Qed.

Lemma convert_date_code_raises_iff (d : Z) :
  raises (Pandas.convert_date_code_to_datetime d) = true
  ↔ d < Pandas.min_date_code ∨ Pandas.max_date_code < d.
Proof.
  rewrite convert_date_code_cases.
  case_leb; simpl; split; intros; try discriminate; try reflexivity; lia.
Qed.

(** ** The inflation adjustment *)

Section AdjustmentFacts.
Context {A : Type} `{Numpy.Number A}.

(** The adjusted column, label by label: the inflation of the base row times
    the cheddar of the row, divided by the inflation of the row. *)
Lemma cheddar_i_adjust_formula (cdf : TimeSeries.frame A) (r : TimeSeries.row A) :
  cdf !! TimeSeries.base = Some r →
  ∃ adjusted,
    TimeSeries.cheddar_i_adjust cdf = Ok adjusted
    ∧ ∀ label,
        adjusted !! label
        = (fun t => Numpy.ndiv (Numpy.nmul (TimeSeries.inflation r) (TimeSeries.cheddar t))
                      (TimeSeries.inflation t)) <$> cdf !! label.
Proof.
  intros Hbase. unfold TimeSeries.cheddar_i_adjust, TimeSeries.loc.
  rewrite Hbase. cbn [mbind result_bind]. eexists. split; [reflexivity|].
  intros label. apply lookup_fmap.
Qed.

Lemma cheddar_i_adjust_no_base (cdf : TimeSeries.frame A) :
  cdf !! TimeSeries.base = None →
  TimeSeries.cheddar_i_adjust cdf = Raise (KeyError "2021-12-31").
Proof.
  intros Hbase. unfold TimeSeries.cheddar_i_adjust, TimeSeries.loc.
  rewrite Hbase. reflexivity.
Qed.

(** C10, amended.  For a frame with a row at the base date (label
    2021-12-31), the adjusted value of every row is the inflation of the
    base row times the cheddar of the row, divided by the inflation of the
    row, in whatever arithmetic.  In an arithmetic where a product divided
    by its nonzero first factor gives back the second factor (exact
    arithmetic, as on the rationals), the adjusted value at the base date
    is the nominal value at the base date, whenever inflation there is
    nonzero. *)
Theorem cheddar_i_adjust_identity_at_base
    (cdf : TimeSeries.frame A) (r : TimeSeries.row A) :
  cdf !! TimeSeries.base = Some r →
  ∃ adjusted,
    TimeSeries.cheddar_i_adjust cdf = Ok adjusted
    ∧ (∀ label t,
         cdf !! label = Some t →
         adjusted !! label
         = Some (Numpy.ndiv (Numpy.nmul (TimeSeries.inflation r) (TimeSeries.cheddar t))
                   (TimeSeries.inflation t)))
    ∧ ((∀ a c : A, a ≠ Numpy.nzero → Numpy.ndiv (Numpy.nmul a c) a = c) →
       TimeSeries.inflation r ≠ Numpy.nzero →
       adjusted !! TimeSeries.base = Some (TimeSeries.cheddar r)).
Proof.
  intros Hbase.
  destruct (cheddar_i_adjust_formula cdf r Hbase) as (adjusted & Hadj & Hrows).
  exists adjusted. split; [exact Hadj|]. split.
  - intros label t Ht. rewrite Hrows, Ht. reflexivity.
  - intros Hexact Hnz.
    rewrite Hrows, Hbase. cbn [fmap option_fmap option_map]. f_equal.
    apply Hexact, Hnz.
Qed.

End AdjustmentFacts.

Lemma Qc_mul_div_cancel (a c : Qc) :
  a ≠ Numpy.nzero → Numpy.ndiv (Numpy.nmul a c) a = c.
Proof.
  cbn [Numpy.nzero Numpy.ndiv Numpy.nmul Numpy.Qc_number]. intros Ha.
  unfold Qcdiv. rewrite (Qcmult_comm a c), <- Qcmult_assoc, Qcmult_inv_r by exact Ha.
  apply Qcmult_1_r.
Qed.

Lemma cheddar_i_adjust_identity_at_base_witness :
  ∃ adjusted,
    TimeSeries.cheddar_i_adjust TimeSeries.sample_cdf = Ok adjusted
    ∧ (∀ label t,
         TimeSeries.sample_cdf !! label = Some t →
         adjusted !! label
         = Some (Numpy.ndiv
                   (Numpy.nmul (TimeSeries.inflation TimeSeries.sample_row_2021)
                      (TimeSeries.cheddar t))
                   (TimeSeries.inflation t)))
    ∧ adjusted !! TimeSeries.base = Some (Q2Qc (54 # 10)).
Proof.
  destruct (cheddar_i_adjust_identity_at_base TimeSeries.sample_cdf
              TimeSeries.sample_row_2021)
    as (adjusted & Hadj & Hrows & Hbase); [vm_compute; reflexivity|].
  exists adjusted. split; [exact Hadj|]. split; [exact Hrows|].
  apply Hbase; [exact Qc_mul_div_cancel|].
  intros E. apply (f_equal this) in E. vm_compute in E. discriminate E.
Defined.

(** C10, as stated, fails in the arithmetic the notebook computes in.  With
    inflation 100.02 and a cheddar price of 5.4 at the base date, the float64
    product rounds, and dividing it by 100.02 gives the float after 5.4
    (5.400000000000001), not 5.4. *)
Lemma cheddar_i_adjust_rounds_in_float64 :
  Numpy.isnan (TimeSeries.inflation TimeSeries.rounding_row) = false
  ∧ Numpy.float64_eqb (TimeSeries.inflation TimeSeries.rounding_row) Numpy.nzero = false
  ∧ ∃ adjusted value,
      TimeSeries.cheddar_i_adjust TimeSeries.rounding_cdf = Ok adjusted
      ∧ adjusted !! TimeSeries.base = Some value
      ∧ value = SFsucc Numpy.prec Numpy.emax (TimeSeries.cheddar TimeSeries.rounding_row)
      ∧ Numpy.float64_eqb value (TimeSeries.cheddar TimeSeries.rounding_row) = false.
Proof.
  split; [vm_compute; reflexivity|]. split; [vm_compute; reflexivity|].
  destruct (cheddar_i_adjust_formula TimeSeries.rounding_cdf TimeSeries.rounding_row)
    as (adjusted & Hadj & Hrows); [vm_compute; reflexivity|].
  exists adjusted. eexists. split; [exact Hadj|].
  rewrite Hrows. split; [vm_compute; reflexivity|].
  split; vm_compute; reflexivity.
Qed.

(** ** Python slices *)

Lemma slice_in_range {A} (l : list A) (lo hi : Z) :
  0 ≤ lo ≤ hi → hi ≤ Numpy.len l →
  Numpy.slice l lo hi = take (Z.to_nat (hi - lo)) (drop (Z.to_nat lo) l).
Proof.
  intros Hlo Hhi. unfold Numpy.slice, Numpy.slice_index.
  destruct (Z.ltb_spec lo 0); [lia|]. destruct (Z.ltb_spec hi 0); [lia|].
  rewrite !Z.min_l by lia. reflexivity.
Qed.

Lemma slice_length {A} (l : list A) (lo hi : Z) :
  0 ≤ lo ≤ hi → hi ≤ Numpy.len l → Numpy.len (Numpy.slice l lo hi) = hi - lo.
Proof.
  intros Hlo Hhi. rewrite slice_in_range by assumption.
  unfold Numpy.len in *. rewrite length_take, length_drop. lia.
Qed.

Lemma slice_lookup {A} (l : list A) (lo hi i : Z) :
  0 ≤ lo ≤ hi → hi ≤ Numpy.len l → 0 ≤ i < hi - lo →
  Numpy.slice l lo hi !! Z.to_nat i = l !! Z.to_nat (lo + i).
Proof.
  intros Hlo Hhi Hi. rewrite slice_in_range by assumption.
  rewrite lookup_take_lt by lia. rewrite lookup_drop. f_equal. lia.
Qed.

(** ** The default lag *)

Lemma pow10_grows (n : nat) :
  (4 <= n)%nat → Z.of_nat n ^ 10 < 2 ^ 10 * 10 ^ Z.of_nat n.
Proof.
  induction 1 as [|n Hn IH]; [vm_compute; reflexivity|].
  rewrite Nat2Z.inj_succ, Z.pow_succ_r by lia.
  assert (Hstep : 4 ^ 10 * Z.succ (Z.of_nat n) ^ 10 ≤ 5 ^ 10 * Z.of_nat n ^ 10).
  { rewrite <- !Z.pow_mul_l. apply Z.pow_le_mono_l. lia. }
  assert (0 ≤ Z.of_nat n ^ 10) by (apply Z.pow_nonneg; lia).
  change (4 ^ 10) with 1048576 in Hstep. change (5 ^ 10) with 9765625 in Hstep.
  lia.
Qed.

Lemma pow10_bound (m : Z) : 0 ≤ m → m ^ 10 < 2 ^ 10 * 10 ^ m.
Proof.
  intros Hm. destruct (Z.le_gt_cases 4 m) as [H4|H4].
  - rewrite <- (Z2Nat.id m) by lia. apply pow10_grows. lia.
  - assert (Hcases : m = 0 ∨ m = 1 ∨ m = 2 ∨ m = 3) by lia.
    destruct Hcases as [->|[->|[->| ->]]]; vm_compute; reflexivity.
Qed.

Lemma decibels_search_spec (fuel : nat) (m k : Z) :
  0 ≤ k → 0 ≤ m → 2 ^ 10 * 10 ^ k ≤ m ^ 10 → m ≤ k + Z.of_nat fuel →
  k ≤ Numpy.decibels_search fuel m k
  ∧ 2 ^ 10 * 10 ^ Numpy.decibels_search fuel m k ≤ m ^ 10
  ∧ m ^ 10 < 2 ^ 10 * 10 ^ (Numpy.decibels_search fuel m k + 1).
Proof.
  revert k. induction fuel as [|fuel IH]; intros k Hk Hm Hlow Hfuel.
  - cbn [Numpy.decibels_search]. split; [lia|]. split; [exact Hlow|].
    assert (10 ^ m ≤ 10 ^ (k + 1)) by (apply Z.pow_le_mono_r; lia).
    pose proof (pow10_bound m Hm). lia.
  - cbn [Numpy.decibels_search].
    destruct (Z.leb_spec (2 ^ 10 * 10 ^ (k + 1)) (m ^ 10)) as [Hnext|Hnext].
    + destruct (IH (k + 1)) as (? & ? & ?); [lia|lia|exact Hnext|lia|].
      split; [lia|]. split; assumption.
    + split; [lia|]. split; assumption.
Qed.

(** For [m >= 2] the default lag is the integer part of [10 log10 (m/2)]:
    the [k] with [10^k <= (m/2)^10 < 10^(k+1)]; it lies between 0 and
    [m - 1]. *)
Lemma int_10_log10_half_spec (m : Z) :
  2 ≤ m →
  ∃ k, Numpy.int_10_log10_half m = Ok k
       ∧ 0 ≤ k ≤ m - 1
       ∧ 2 ^ 10 * 10 ^ k ≤ m ^ 10 < 2 ^ 10 * 10 ^ (k + 1).
Proof.
  intros Hm. unfold Numpy.int_10_log10_half.
  destruct (Z.leb_spec m 0); [lia|]. destruct (Z.eqb_spec m 1); [lia|].
  eexists. split; [reflexivity|].
  destruct (decibels_search_spec (Z.to_nat m) m 0) as (Hk & Hlow & Hhigh);
    [lia|lia| |lia|].
  { change (2 ^ 10 * 10 ^ 0) with (2 ^ 10). apply Z.pow_le_mono_l. lia. }
  split; [|split; assumption].
  split; [exact Hk|].
  destruct (Z.le_gt_cases m (Numpy.decibels_search (Z.to_nat m) m 0)) as [Hbig|]; [|lia].
  assert (10 ^ m ≤ 10 ^ Numpy.decibels_search (Z.to_nat m) m 0)
    by (apply Z.pow_le_mono_r; lia).
  pose proof (pow10_bound m). lia.
Qed.

(** ** The cross-correlation *)

Section CrossCorrelationFacts.
Context {A : Type} `{Numpy.Number A, Numpy.Sqrt A}.

Lemma len_sub_scalar (x : list A) (c : A) :
  Numpy.len (Numpy.sub_scalar x c) = Numpy.len x.
Proof. unfold Numpy.len, Numpy.sub_scalar. rewrite length_fmap. reflexivity. Qed.

Lemma len_correlate (x y : list A) :
  1 ≤ Numpy.len x + Numpy.len y →
  Numpy.len (Numpy.correlate x y) = Numpy.len x + Numpy.len y - 1.
Proof.
  intros Hlen. unfold Numpy.correlate, Numpy.len in *.
  rewrite length_fmap, length_seqZ. lia.
Qed.

Lemma len_ccf_full (x y : list A) :
  1 ≤ Numpy.len x + Numpy.len y →
  Numpy.len (TimeSeries.ccf_full x y) = Numpy.len x + Numpy.len y - 1.
Proof.
  intros Hlen.
  pose proof (len_correlate (Numpy.sub_scalar x (Numpy.mean x))
                (Numpy.sub_scalar y (Numpy.mean y))) as Hc.
  rewrite !len_sub_scalar in Hc.
  unfold TimeSeries.ccf_full, Numpy.div_scalar, Numpy.len in *.
  rewrite length_fmap. apply Hc, Hlen.
Qed.

(** The products of the correlation at the middle index pair the elements
    of equal position. *)
Lemma imap_padded_zip (x y : list A) :
  (length x <= length y)%nat →
  imap (fun l xl => Numpy.nmul xl (default Numpy.nzero (y !! l))) x
  = zip_with Numpy.nmul x y.
Proof.
  revert y. induction x as [|a x IH]; intros [|b y] Hlen; simpl in *;
    [reflexivity|reflexivity|lia|].
  f_equal. rewrite <- IH by lia. apply imap_ext. reflexivity.
Qed.

Lemma correlate_at_zero_lag (x y : list A) :
  Numpy.len x = Numpy.len y →
  Numpy.correlate_at x y (Numpy.len x - 1) = Numpy.dot x y.
Proof.
  intros Hlen. unfold Numpy.correlate_at, Numpy.dot. f_equal.
  rewrite <- imap_padded_zip by (unfold Numpy.len in Hlen; lia).
  apply imap_ext. intros l xl _. cbn beta. f_equal.
  unfold Numpy.padded. rewrite <- Hlen.
  replace (Z.of_nat l - (Numpy.len x - 1) + Numpy.len x - 1) with (Z.of_nat l) by lia.
  destruct (Z.ltb_spec (Z.of_nat l) 0); [lia|]. rewrite Nat2Z.id. reflexivity.
Qed.

Lemma ccf_full_zero_lag (x y : list A) :
  Numpy.len x = Numpy.len y → 1 ≤ Numpy.len x →
  TimeSeries.ccf_full x y !! Z.to_nat (Numpy.len x - 1)
  = Some (Numpy.ndiv
            (Numpy.dot (Numpy.sub_scalar x (Numpy.mean x))
               (Numpy.sub_scalar y (Numpy.mean y)))
            (Numpy.nmul (Numpy.nmul (Numpy.std y) (Numpy.std x))
               (Numpy.of_Z (Numpy.len y)))).
Proof.
  intros Hlen Hx. unfold TimeSeries.ccf_full, Numpy.div_scalar, Numpy.correlate.
  rewrite !list_lookup_fmap, !len_sub_scalar.
  rewrite lookup_seqZ_lt by (rewrite Z2Nat.id; lia).
  cbn [fmap option_fmap option_map]. do 2 f_equal.
  rewrite Z2Nat.id, Z.add_0_l by lia.
  rewrite <- (len_sub_scalar x (Numpy.mean x)).
  apply correlate_at_zero_lag. rewrite !len_sub_scalar. exact Hlen.
Qed.

Lemma effective_lag_given (x y : list A) (l : Z) :
  l ≠ 0 → TimeSeries.effective_lag x y (Some l) = Ok l.
Proof.
  intros Hl. unfold TimeSeries.effective_lag, TimeSeries.falsy.
  destruct (Z.eqb_spec l 0); [contradiction|reflexivity].
Qed.

(** C9.  For sequences [x] and [y] of the same length [n >= 2], and a lag
    bound that is either given, with [1 <= lag_max <= n - 1], or left to
    its default [int(10 * log10(n / 2))], [ccf_stats] returns
    [2 * lag_max + 1] values: the entries [n - 1 - lag_max] to
    [n - 1 + lag_max] of the full normalised cross-correlation of the
    mean-removed series, whose middle, entry [n - 1], is the correlation at
    lag zero. *)
Theorem ccf_stats_length_and_centre (x y : list A) (lag_max : option Z) :
  Numpy.len x = Numpy.len y →
  2 ≤ Numpy.len x →
  (lag_max = None ∨ ∃ l, lag_max = Some l ∧ 1 ≤ l ≤ Numpy.len x - 1) →
  ∃ l r,
    TimeSeries.effective_lag x y lag_max = Ok l
    ∧ match lag_max with
      | Some given => l = given
      | None => Numpy.int_10_log10_half (Numpy.len x) = Ok l
      end
    ∧ 0 ≤ l ≤ Numpy.len x - 1
    ∧ TimeSeries.ccf_stats x y lag_max = Ok r
    ∧ Numpy.len r = 2 * l + 1
    ∧ (∀ j, - l ≤ j ≤ l →
            r !! Z.to_nat (l + j)
            = TimeSeries.ccf_full x y !! Z.to_nat (Numpy.len x - 1 + j))
    ∧ r !! Z.to_nat l
      = Some (Numpy.ndiv
                (Numpy.dot (Numpy.sub_scalar x (Numpy.mean x))
                   (Numpy.sub_scalar y (Numpy.mean y)))
                (Numpy.nmul (Numpy.nmul (Numpy.std y) (Numpy.std x))
                   (Numpy.of_Z (Numpy.len y)))).
Proof.
  intros Hlen Hn Hlag.
  assert (Heff : ∃ l, TimeSeries.effective_lag x y lag_max = Ok l
                      ∧ match lag_max with
                        | Some given => l = given
                        | None => Numpy.int_10_log10_half (Numpy.len x) = Ok l
                        end
                      ∧ 0 ≤ l ≤ Numpy.len x - 1).
  { destruct Hlag as [->|(l & -> & Hl)].
    - destruct (int_10_log10_half_spec (Numpy.len x) Hn) as (k & Hk & Hrange & _).
      exists k. cbn [TimeSeries.effective_lag].
      rewrite <- Hlen, Z.min_id. repeat split; try assumption; lia.
    - exists l. rewrite effective_lag_given by lia. repeat split; lia. }
  destruct Heff as (l & Heff & Hgiven & Hl).
  pose proof (len_ccf_full x y ltac:(lia)) as Hfull.
  assert (Hmid : (Numpy.len (TimeSeries.ccf_full x y) - 1) / 2 = Numpy.len x - 1).
  { rewrite Hfull, <- Hlen.
    replace (Numpy.len x + Numpy.len x - 1 - 1) with ((Numpy.len x - 1) * 2) by lia.
    apply Z.div_mul. lia. }
  exists l, (Numpy.slice (TimeSeries.ccf_full x y)
               (Numpy.len x - 1 - l) (Numpy.len x - 1 + (l + 1))).
  assert (Hslice : ∀ j, - l ≤ j ≤ l →
            Numpy.slice (TimeSeries.ccf_full x y)
              (Numpy.len x - 1 - l) (Numpy.len x - 1 + (l + 1)) !! Z.to_nat (l + j)
            = TimeSeries.ccf_full x y !! Z.to_nat (Numpy.len x - 1 + j)).
  { intros j Hj. rewrite slice_lookup by lia. f_equal. lia. }
  split; [exact Heff|]. split; [exact Hgiven|]. split; [exact Hl|].
  split.
  { unfold TimeSeries.ccf_stats. rewrite Heff. cbn [mbind result_bind].
    rewrite Hmid. reflexivity. }
  split; [rewrite slice_length by lia; lia|].
  split; [exact Hslice|].
  replace l with (l + 0) at 1 by lia. rewrite Hslice by lia.
  rewrite Z.add_0_r. apply ccf_full_zero_lag; [exact Hlen|lia].
Qed.

End CrossCorrelationFacts.

Lemma ccf_stats_length_and_centre_witness :
  ∃ r, TimeSeries.ccf_stats TimeSeries.sample_x TimeSeries.sample_y (Some 1) = Ok r
       ∧ Numpy.len r = 3
       ∧ r !! 1%nat
         = TimeSeries.ccf_full TimeSeries.sample_x TimeSeries.sample_y !! 3%nat.
Proof.
  destruct (ccf_stats_length_and_centre TimeSeries.sample_x TimeSeries.sample_y (Some 1))
    as (l & r & _ & Hl & _ & Hr & Hlen & Hcentre & _).
  - reflexivity.
  - vm_compute. discriminate.
  - right. exists 1. split; [reflexivity|]. vm_compute. split; discriminate.
  - subst l. exists r. split; [exact Hr|]. split; [exact Hlen|].
    apply (Hcentre 0). lia.
Defined.

(** The function on the sample: three values around lag zero for a lag bound
    of one, seven for the default bound of a series of four. *)
Example ccf_stats_sample_default :
  Numpy.len <$> (match TimeSeries.ccf_stats TimeSeries.sample_x TimeSeries.sample_y None with
                 | Ok r => Some r
                 | Raise _ => None
                 end) = Some 7.
Proof. vm_compute. reflexivity. Qed.

(** Beyond [n - 1] the lower index of the slice is negative and counts from
    the end: a lag bound of five on series of four gives two values, not
    eleven. *)
Example ccf_stats_lag_too_large :
  Numpy.len <$> (match TimeSeries.ccf_stats TimeSeries.sample_x TimeSeries.sample_y
                         (Some 5) with
                 | Ok r => Some r
                 | Raise _ => None
                 end) = Some 2.
Proof. vm_compute. reflexivity. Qed.

(** ** Threads, processes and shared state *)


(** * Further properties of the notebooks' code *)

(** ** The date codes of the housing data *)

(** X1.  Outside the range of timestamps the conversion raises:
    [OutOfBoundsDatetime] while the date still is a [datetime.datetime]
    (date codes -715510 to 2936548, the years 1 to 9999), [OverflowError]
    beyond. *)
Theorem convert_date_code_raises_outside_timestamps (d : Z) :
  d < Pandas.min_date_code ∨ Pandas.max_date_code < d →
  Pandas.convert_date_code_to_datetime d
  = Raise (if (-715510 <=? d) && (d <=? 2936548)
           then OutOfBoundsDatetime else OverflowError).
Proof.
  intros Hout. rewrite convert_date_code_cases.
  unfold Pandas.min_date_code, Pandas.max_date_code in *.
  case_leb; simpl; try reflexivity; lia.
Qed.

Lemma convert_date_code_raises_outside_timestamps_witness :
  Pandas.convert_date_code_to_datetime (-103100) = Raise OutOfBoundsDatetime.
Proof.
  apply (convert_date_code_raises_outside_timestamps (-103100)).
  left. unfold Pandas.min_date_code. lia.
Defined.

Lemma date_code_steps (d1 d2 : Z) (t1 t2 : Pandas.Timestamp) :
  Pandas.convert_date_code_to_datetime d1 = Ok t1 →
  Pandas.convert_date_code_to_datetime d2 = Ok t2 →
  Pandas.value t2 - Pandas.value t1 = (d2 - d1) * Pandas.ns_per_day.
Proof.
  rewrite !convert_date_code_cases. intros H1 H2.
  repeat match goal with
         | H : context [(?a <=? ?b)%Z] |- _ => destruct (Z.leb_spec a b)
         end; simpl in *; try discriminate.
  all: injection H1 as <-; injection H2 as <-.
  all: cbn [Pandas.value]; lia.
Qed.

Lemma date_code_has_timestamp (d : Z) :
  (∃ t, Pandas.convert_date_code_to_datetime d = Ok t)
  ↔ Pandas.min_date_code ≤ d ≤ Pandas.max_date_code.
Proof.
  rewrite convert_date_code_cases.
  unfold Pandas.min_date_code, Pandas.max_date_code. split.
  - intros [t Ht]. revert Ht. case_leb; simpl; intros Ht; try discriminate Ht; lia.
  - intros Hd. case_leb; simpl; try lia; eexists; reflexivity.
Qed.

(** X2.  Date codes count days: whenever two codes have timestamps, the
    timestamps differ by as many days as the codes.  So 16437 is the day
    after 16436, different codes have different timestamps, and a later
    code a later one. *)
Theorem convert_date_code_counts_days (d1 d2 : Z) (t1 t2 : Pandas.Timestamp) :
  Pandas.convert_date_code_to_datetime d1 = Ok t1 →
  Pandas.convert_date_code_to_datetime d2 = Ok t2 →
  Pandas.value t2 - Pandas.value t1 = (d2 - d1) * Pandas.ns_per_day
  ∧ (d1 < d2 ↔ Pandas.value t1 < Pandas.value t2)
  ∧ (d1 = d2 ↔ t1 = t2).
Proof.
  intros H1 H2. pose proof (date_code_steps _ _ _ _ H1 H2) as Hsteps.
  split; [exact Hsteps|]. unfold Pandas.ns_per_day in Hsteps.
  split; [split; intros; lia|]. split.
  - intros ->. congruence.
  - intros ->. lia.
Qed.

Lemma convert_date_code_counts_days_witness :
  Pandas.value {| Pandas.value := 12785 * Pandas.ns_per_day |}
  - Pandas.value {| Pandas.value := 12784 * Pandas.ns_per_day |}
  = (16437 - 16436) * Pandas.ns_per_day.
Proof.
  apply (convert_date_code_counts_days 16436 16437); reflexivity.
Defined.

(** *** The column of timestamps *)

Lemma apply_Forall2 {A B} (f : A → result B) (column : list A) (out : list B) :
  Eda.apply f column = Ok out ↔ Forall2 (fun v w => f v = Ok w) column out.
Proof.
  revert out. induction column as [|v rest IH]; intros out; cbn [Eda.apply].
  - split.
    + intros [= <-]. constructor.
    + intros Hall. apply Forall2_nil_inv_l in Hall as ->. reflexivity.
  - destruct (f v) as [w|e] eqn:Hv; cbn [mbind result_bind].
    + destruct (Eda.apply f rest) as [ws|e] eqn:Hrest; cbn [mbind result_bind].
      * split.
        -- intros [= <-]. constructor; [exact Hv|]. apply IH. reflexivity.
        -- intros Hall. apply Forall2_cons_inv_l in Hall as (w' & ws' & Hw & Hws & ->).
           apply IH in Hws. congruence.
      * split; [discriminate|].
        intros Hall. apply Forall2_cons_inv_l in Hall as (w' & ws' & Hw & Hws & ->).
        apply IH in Hws. discriminate Hws.
    + split; [discriminate|].
      intros Hall. apply Forall2_cons_inv_l in Hall as (w' & ws' & Hw & Hws & ->).
      congruence.
Qed.

(** X3.  The [datetime] column exists exactly when every date code of the [Date]
    column has a timestamp; one code out of range fails the whole
    assignment. *)
Theorem datetime_column_needs_every_code_in_range (Date : list Z) :
  (∃ datetime, Eda.datetime_column Date = Ok datetime)
  ↔ Forall (fun d => Pandas.min_date_code ≤ d ≤ Pandas.max_date_code) Date.
Proof.
  unfold Eda.datetime_column. split.
  - intros [datetime Hall]. apply apply_Forall2 in Hall.
    induction Hall as [|d t Date datetime Hd _ IH]; constructor; [|exact IH].
    apply date_code_has_timestamp. exists t. exact Hd.
  - induction 1 as [|d Date Hd _ [datetime IH]]; [eexists; reflexivity|].
    apply date_code_has_timestamp in Hd as [t Ht].
    exists (t :: datetime). cbn [Eda.apply]. rewrite Ht, IH. reflexivity.
Qed.

(** X4.  The [datetime] column is as long as the [Date] column and orders the
    rows as the date codes do: of two rows, the one with the larger date
    code has the later timestamp, and equal codes have equal timestamps. *)
Theorem datetime_column_keeps_order (Date : list Z) (datetime : list Pandas.Timestamp) :
  Eda.datetime_column Date = Ok datetime →
  length datetime = length Date
  ∧ ∀ i j di dj ti tj,
      Date !! i = Some di → Date !! j = Some dj →
      datetime !! i = Some ti → datetime !! j = Some tj →
      (di < dj ↔ Pandas.value ti < Pandas.value tj)
      ∧ (di = dj ↔ ti = tj).
Proof.
  unfold Eda.datetime_column. rewrite apply_Forall2. intros Hall.
  split; [symmetry; exact (Forall2_length _ _ _ Hall)|].
  intros i j di dj ti tj Hdi Hdj Hti Htj.
  pose proof (Forall2_lookup_lr _ _ _ _ _ _ Hall Hdi Hti) as Hi.
  pose proof (Forall2_lookup_lr _ _ _ _ _ _ Hall Hdj Htj) as Hj.
  pose proof (date_code_steps _ _ _ _ Hi Hj) as Hsteps.
  unfold Pandas.ns_per_day in Hsteps.
  split; [split; intros; lia|]. split.
  - intros ->. congruence.
  - intros ->. lia.
Qed.

Lemma datetime_column_keeps_order_witness :
  length [{| Pandas.value := 12875 * Pandas.ns_per_day |};
          {| Pandas.value := 12784 * Pandas.ns_per_day |}] = length [16527; 16436].
Proof.
  apply (datetime_column_keeps_order [16527; 16436]). reflexivity.
Defined.

(** ** The cross-correlation function at the edges *)

Lemma slice_empty {A} (l : list A) (lo hi : Z) :
  Numpy.slice_index (Numpy.len l) hi ≤ Numpy.slice_index (Numpy.len l) lo →
  Numpy.slice l lo hi = [].
Proof.
  intros Hle. unfold Numpy.slice.
  replace (Z.to_nat _) with 0%nat by lia. reflexivity.
Qed.

Section CrossCorrelationEdges.
Context {A : Type} `{Numpy.Number A, Numpy.Sqrt A}.

Lemma len_ccf_full_any (x y : list A) :
  Numpy.len (TimeSeries.ccf_full x y) = Z.max (Numpy.len x + Numpy.len y - 1) 0.
Proof.
  unfold TimeSeries.ccf_full, Numpy.div_scalar, Numpy.correlate, Numpy.sub_scalar,
    Numpy.len.
  rewrite !length_fmap, length_seqZ, ?length_fmap. lia.
Qed.

(** What [ccf_stats] returns once the lag bound is known. *)
Lemma ccf_stats_with_lag (x y : list A) (lag_max : option Z) (l : Z) :
  TimeSeries.effective_lag x y lag_max = Ok l →
  TimeSeries.ccf_stats x y lag_max
  = Ok (Numpy.slice (TimeSeries.ccf_full x y)
          ((Numpy.len (TimeSeries.ccf_full x y) - 1) / 2 - l)
          ((Numpy.len (TimeSeries.ccf_full x y) - 1) / 2 + (l + 1))).
Proof.
  intros Hl. unfold TimeSeries.ccf_stats. rewrite Hl. reflexivity.
Qed.

(** X6.  A negative lag bound selects nothing: on series that are not empty the
    slice ends before it begins, and [ccf_stats] returns an empty sequence
    instead of raising. *)
Theorem ccf_stats_negative_lag_is_empty (x y : list A) (lag_max : Z) :
  1 ≤ Numpy.len x → 1 ≤ Numpy.len y → lag_max < 0 →
  TimeSeries.ccf_stats x y (Some lag_max) = Ok [].
Proof.
  intros Hx Hy Hneg.
  rewrite (ccf_stats_with_lag x y (Some lag_max) lag_max)
    by (apply effective_lag_given; lia).
  f_equal. apply slice_empty.
  pose proof (len_ccf_full_any x y) as Hlen.
  set (L := Numpy.len (TimeSeries.ccf_full x y)) in *.
  unfold Numpy.slice_index.
  repeat match goal with
         | |- context [(?a <? ?b)%Z] => destruct (Z.ltb_spec a b)
         end; Z.div_mod_to_equations; lia.
Qed.

(** X7.  A series with no element has no default lag bound: the logarithm of
    zero is minus infinity, and [int] raises [OverflowError].  For a series
    of one element the default is [int(-3.01)], minus three, and the result
    is empty. *)
Theorem ccf_stats_default_on_short_series (x y : list A) :
  Z.min (Numpy.len x) (Numpy.len y) ≤ 1 →
  TimeSeries.ccf_stats x y None
  = if Z.min (Numpy.len x) (Numpy.len y) =? 0 then Raise OverflowError else Ok [].
Proof.
  intros Hshort.
  assert (Hmin : Z.min (Numpy.len x) (Numpy.len y) = 0
                 ∨ Z.min (Numpy.len x) (Numpy.len y) = 1)
    by (unfold Numpy.len in *; lia).
  destruct Hmin as [Hmin|Hmin]; rewrite Hmin; cbn [Z.eqb].
  - unfold TimeSeries.ccf_stats, TimeSeries.effective_lag. rewrite Hmin. reflexivity.
  - rewrite (ccf_stats_with_lag x y None (-3))
      by (unfold TimeSeries.effective_lag; rewrite Hmin; reflexivity).
    f_equal. apply slice_empty.
    pose proof (len_ccf_full_any x y) as Hlen.
    set (L := Numpy.len (TimeSeries.ccf_full x y)) in *.
    unfold Numpy.slice_index.
    repeat match goal with
           | |- context [(?a <? ?b)%Z] => destruct (Z.ltb_spec a b)
           end; Z.div_mod_to_equations; lia.
Qed.

(** X8.  A lag bound of [n] or more, on series of length [n], does not give
    [2 * lag_max + 1] values: the lower index of the slice is negative and
    counts from the end of the correlation, so the result is its tail, the
    last [lag_max - n + 1] entries (all [2 n - 1] from [lag_max = 3 n - 2]
    on). *)
Theorem ccf_stats_lag_beyond_series (x y : list A) (lag_max : Z) :
  Numpy.len x = Numpy.len y →
  1 ≤ Numpy.len x ≤ lag_max →
  TimeSeries.ccf_stats x y (Some lag_max)
  = Ok (drop (Z.to_nat (3 * Numpy.len x - 2 - lag_max)) (TimeSeries.ccf_full x y))
  ∧ Numpy.len (drop (Z.to_nat (3 * Numpy.len x - 2 - lag_max)) (TimeSeries.ccf_full x y))
    = Z.min (lag_max - Numpy.len x + 1) (2 * Numpy.len x - 1).
Proof.
  intros Hlen Hlag.
  pose proof (len_ccf_full_any x y) as Hfull.
  split.
  - rewrite (ccf_stats_with_lag x y (Some lag_max) lag_max)
      by (apply effective_lag_given; lia).
    f_equal. unfold Numpy.slice, Numpy.slice_index.
    set (L := Numpy.len (TimeSeries.ccf_full x y)) in *.
    assert (Hc : (L - 1) / 2 = Numpy.len x - 1) by (Z.div_mod_to_equations; lia).
    rewrite Hc.
    destruct (Z.ltb_spec (Numpy.len x - 1 - lag_max) 0); [|lia].
    destruct (Z.ltb_spec (Numpy.len x - 1 + (lag_max + 1)) 0); [lia|].
    replace (Z.to_nat (Z.max (Numpy.len x - 1 - lag_max + L) 0))
      with (Z.to_nat (3 * Numpy.len x - 2 - lag_max)) by lia.
    apply take_ge. rewrite length_drop. subst L. unfold Numpy.len in *. lia.
  - unfold Numpy.len in *. rewrite length_drop. lia.
Qed.

End CrossCorrelationEdges.

Lemma ccf_stats_negative_lag_is_empty_witness :
  TimeSeries.ccf_stats TimeSeries.sample_x TimeSeries.sample_y (Some (-2)) = Ok [].
Proof.
  apply (ccf_stats_negative_lag_is_empty TimeSeries.sample_x TimeSeries.sample_y (-2));
    [vm_compute; discriminate|vm_compute; discriminate|lia].
Defined.

Lemma ccf_stats_default_on_short_series_witness :
  TimeSeries.ccf_stats (A := Numpy.float64) [Numpy.of_Z 5] [Numpy.of_Z 7] None = Ok [].
Proof.
  apply (ccf_stats_default_on_short_series (A := Numpy.float64)
           [Numpy.of_Z 5] [Numpy.of_Z 7]).
  vm_compute. discriminate.
Defined.

Lemma ccf_stats_lag_beyond_series_witness :
  TimeSeries.ccf_stats TimeSeries.sample_x TimeSeries.sample_y (Some 5)
  = Ok (drop 5 (TimeSeries.ccf_full TimeSeries.sample_x TimeSeries.sample_y)).
Proof.
  apply (ccf_stats_lag_beyond_series TimeSeries.sample_x TimeSeries.sample_y 5).
  - reflexivity.
  - vm_compute. split; discriminate.
Defined.

Section CrossCorrelationLags.
Context {A : Type} `{Numpy.Number A, Numpy.Sqrt A}.

(** Series of three or more elements have a default lag bound of at least
    one. *)
Lemma default_lag_positive (n : Z) :
  3 ≤ n → ∃ k, Numpy.int_10_log10_half n = Ok k ∧ 1 ≤ k ≤ n - 1.
Proof.
  intros Hn.
  destruct (int_10_log10_half_spec n) as (k & Hk & Hrange & _ & Hhigh); [lia|].
  exists k. split; [exact Hk|]. split; [|lia].
  destruct (Z.eq_dec k 0) as [->|]; [|lia].
  assert (3 ^ 10 ≤ n ^ 10) by (apply Z.pow_le_mono_l; lia).
  change (2 ^ 10 * 10 ^ (0 + 1)) with 10240 in Hhigh.
  change (3 ^ 10) with 59049 in *. lia.
Qed.

(** The bound in force for series of equal length [n >= 2]: a given bound
    between 1 and [n - 1], or else the default, which lies between 0 and
    [n - 1]. *)
Lemma effective_lag_in_range (x y : list A) (lag_max : option Z) :
  Numpy.len x = Numpy.len y → 2 ≤ Numpy.len x →
  (lag_max = None ∨ ∃ l, lag_max = Some l ∧ 1 ≤ l ≤ Numpy.len x - 1) →
  ∃ l, TimeSeries.effective_lag x y lag_max = Ok l ∧ 0 ≤ l ≤ Numpy.len x - 1.
Proof.
  intros Hlen Hn [->|(l & -> & Hl)].
  - destruct (int_10_log10_half_spec (Numpy.len x) Hn) as (k & Hk & Hrange & _).
    exists k. cbn [TimeSeries.effective_lag]. rewrite <- Hlen, Z.min_id.
    split; assumption.
  - exists l. rewrite effective_lag_given by lia. split; [reflexivity|lia].
Qed.

(** The result for a bound in range: the [2 l + 1] entries of the full
    correlation around its middle. *)
Lemma ccf_stats_in_range (x y : list A) (lag_max : option Z) (l : Z) :
  Numpy.len x = Numpy.len y → 1 ≤ Numpy.len x →
  TimeSeries.effective_lag x y lag_max = Ok l → 0 ≤ l ≤ Numpy.len x - 1 →
  ∃ r, TimeSeries.ccf_stats x y lag_max = Ok r
       ∧ Numpy.len r = 2 * l + 1
       ∧ ∀ j, - l ≤ j ≤ l →
              r !! Z.to_nat (l + j)
              = TimeSeries.ccf_full x y !! Z.to_nat (Numpy.len x - 1 + j).
Proof.
  intros Hlen Hn Heff Hl.
  pose proof (len_ccf_full_any x y) as Hfull.
  rewrite (ccf_stats_with_lag x y lag_max l Heff).
  set (L := Numpy.len (TimeSeries.ccf_full x y)) in *.
  assert (Hc : (L - 1) / 2 = Numpy.len x - 1) by (Z.div_mod_to_equations; lia).
  rewrite Hc. eexists. split; [reflexivity|]. split.
  - rewrite slice_length by (fold L; lia). lia.
  - intros j Hj. rewrite slice_lookup by (fold L; lia). f_equal. lia.
Qed.

(** X9.  A lag bound of zero cannot be asked for: zero is falsy, so the default
    bound is used instead, and on series of three or more elements the
    result has at least three values, not the single correlation at lag
    zero. *)
Theorem ccf_stats_zero_lag_is_the_default (x y : list A) :
  Numpy.len x = Numpy.len y → 3 ≤ Numpy.len x →
  ∃ r, TimeSeries.ccf_stats x y (Some 0) = Ok r
       ∧ TimeSeries.ccf_stats x y None = Ok r
       ∧ 3 ≤ Numpy.len r.
Proof.
  intros Hlen Hn.
  destruct (default_lag_positive (Numpy.len x) Hn) as (k & Hk & Hrange).
  assert (Heff : TimeSeries.effective_lag x y None = Ok k)
    by (cbn [TimeSeries.effective_lag]; rewrite <- Hlen, Z.min_id; exact Hk).
  destruct (ccf_stats_in_range x y None k Hlen ltac:(lia) Heff ltac:(lia))
    as (r & Hr & Hlenr & _).
  exists r. split; [|split; [exact Hr|lia]].
  rewrite <- Hr. reflexivity.
Qed.

(** X10.  When [y] is the longer series, the correlation at lag zero, the sum of
    the products of the elements at the same places, is entry [len y - 1]
    of the full correlation.  The result is still cut around the middle
    of the full correlation, entry [(len x + len y - 2) // 2], and the two
    places agree only for series of equal length: otherwise the middle of
    the result is not the correlation at lag zero. *)
Theorem ccf_stats_centre_for_a_longer_series (x y : list A) (lag_max : Z) :
  1 ≤ Numpy.len x ≤ Numpy.len y →
  1 ≤ lag_max ≤ (Numpy.len x + Numpy.len y - 2) / 2 →
  ∃ r, TimeSeries.ccf_stats x y (Some lag_max) = Ok r
       ∧ Numpy.len r = 2 * lag_max + 1
       ∧ (∀ j, - lag_max ≤ j ≤ lag_max →
               r !! Z.to_nat (lag_max + j)
               = TimeSeries.ccf_full x y
                   !! Z.to_nat ((Numpy.len x + Numpy.len y - 2) / 2 + j))
       ∧ TimeSeries.ccf_full x y !! Z.to_nat (Numpy.len y - 1)
         = Some (Numpy.ndiv
                   (Numpy.dot (Numpy.sub_scalar x (Numpy.mean x))
                      (Numpy.sub_scalar y (Numpy.mean y)))
                   (Numpy.nmul (Numpy.nmul (Numpy.std y) (Numpy.std x))
                      (Numpy.of_Z (Numpy.len y))))
       ∧ ((Numpy.len x + Numpy.len y - 2) / 2 = Numpy.len y - 1
          ↔ Numpy.len x = Numpy.len y).
Proof.
  intros Hxy Hlag.
  pose proof (len_ccf_full_any x y) as Hfull.
  rewrite (ccf_stats_with_lag x y (Some lag_max) lag_max)
    by (apply effective_lag_given; lia).
  set (L := Numpy.len (TimeSeries.ccf_full x y)) in *.
  replace (L - 1) with (Numpy.len x + Numpy.len y - 2) by lia.
  set (c := (Numpy.len x + Numpy.len y - 2) / 2) in *.
  assert (Hc : 2 * c ≤ Numpy.len x + Numpy.len y - 2 < 2 * c + 2)
    by (subst c; Z.div_mod_to_equations; lia).
  eexists. split; [reflexivity|]. split; [|split; [|split]].
  - rewrite slice_length by (fold L; lia). lia.
  - intros j Hj. rewrite slice_lookup by (fold L; lia). f_equal. lia.
  - unfold TimeSeries.ccf_full, Numpy.div_scalar, Numpy.correlate.
    rewrite !list_lookup_fmap, !len_sub_scalar.
    rewrite lookup_seqZ_lt by (rewrite Z2Nat.id; lia).
    cbn [fmap option_fmap option_map]. do 2 f_equal.
    rewrite Z2Nat.id, Z.add_0_l by lia.
    unfold Numpy.correlate_at, Numpy.dot. f_equal.
    rewrite <- imap_padded_zip
      by (unfold Numpy.len, Numpy.sub_scalar in *; rewrite !length_fmap; lia).
    apply imap_ext. intros l xl _. cbn beta. f_equal.
    rewrite !len_sub_scalar. unfold Numpy.padded.
    replace (Z.of_nat l - (Numpy.len y - 1) + Numpy.len y - 1) with (Z.of_nat l) by lia.
    destruct (Z.ltb_spec (Z.of_nat l) 0); [lia|]. rewrite Nat2Z.id. reflexivity.
  - lia.
Qed.

End CrossCorrelationLags.

Lemma ccf_stats_zero_lag_is_the_default_witness :
  ∃ r, TimeSeries.ccf_stats TimeSeries.sample_x TimeSeries.sample_y (Some 0) = Ok r
       ∧ TimeSeries.ccf_stats TimeSeries.sample_x TimeSeries.sample_y None = Ok r
       ∧ 3 ≤ Numpy.len r.
Proof.
  apply (ccf_stats_zero_lag_is_the_default TimeSeries.sample_x TimeSeries.sample_y).
  - reflexivity.
  - vm_compute. discriminate.
Defined.

Lemma ccf_stats_centre_for_a_longer_series_witness :
  ∃ r, TimeSeries.ccf_stats TimeSeries.sample_x
         (TimeSeries.sample_y ++ TimeSeries.sample_y) (Some 2) = Ok r
       ∧ Numpy.len r = 5.
Proof.
  destruct (ccf_stats_centre_for_a_longer_series
              TimeSeries.sample_x (TimeSeries.sample_y ++ TimeSeries.sample_y) 2)
    as (r & Hr & Hlen & _).
  - vm_compute. split; discriminate.
  - vm_compute. split; discriminate.
  - exists r. split; [exact Hr|exact Hlen].
Defined.

(** ** The plot of the cross-correlation *)

(** X13.  The stems of the plot stand at [- (n // 2), ..., n // 2] for [n] values:
    as many positions as values when [n] is odd, one too many when [n] is
    even (and [ax.stem] then has sequences of different lengths). *)
Theorem stem_locs_length {A} (ccf_res_stats : list A) :
  Numpy.len (Transformations.stem_locs ccf_res_stats)
  = if Z.odd (Numpy.len ccf_res_stats)
    then Numpy.len ccf_res_stats
    else Numpy.len ccf_res_stats + 1.
Proof.
  unfold Transformations.stem_locs, Transformations.range,
    Transformations.int_half_len.
  unfold Numpy.len at 1. rewrite length_seqZ.
  assert (Hn : 0 ≤ Numpy.len ccf_res_stats) by (unfold Numpy.len; lia).
  destruct (Z.odd (Numpy.len ccf_res_stats)) eqn:Hodd.
  - apply Z.odd_spec in Hodd as [m Hm]. rewrite Hm in *.
    Z.quot_rem_to_equations. lia.
  - rewrite <- Z.negb_even in Hodd. apply negb_false_iff in Hodd.
    apply Z.even_spec in Hodd as [m Hm]. rewrite Hm in *.
    Z.quot_rem_to_equations. lia.
Qed.

Section CrossCorrelationPlot.
Context {A : Type} `{Numpy.Number A, Numpy.Sqrt A}.

(** X14.  On series of equal length [n >= 2], with the default lag bound or one
    between 1 and [n - 1], the plot is well formed: [ccf_stats] returns an
    odd number of values, the stems stand at the lags [- l, ..., l], as many
    as there are values, and the value drawn at lag [j] is the entry of the
    full correlation [j] places from its middle. *)
Theorem stem_plot_shows_each_lag (x y : list A) (lag_max : option Z) :
  Numpy.len x = Numpy.len y → 2 ≤ Numpy.len x →
  (lag_max = None ∨ ∃ l, lag_max = Some l ∧ 1 ≤ l ≤ Numpy.len x - 1) →
  ∃ l r,
    TimeSeries.ccf_stats x y lag_max = Ok r
    ∧ Transformations.stem_locs r = seqZ (- l) (2 * l + 1)
    ∧ length (Transformations.stem_locs r) = length r
    ∧ ∀ j, - l ≤ j ≤ l →
           Transformations.stem_locs r !! Z.to_nat (l + j) = Some j
           ∧ r !! Z.to_nat (l + j)
             = TimeSeries.ccf_full x y !! Z.to_nat (Numpy.len x - 1 + j).
Proof.
  intros Hlen Hn Hlag.
  destruct (effective_lag_in_range x y lag_max Hlen Hn Hlag) as (l & Heff & Hl).
  destruct (ccf_stats_in_range x y lag_max l Hlen ltac:(lia) Heff Hl)
    as (r & Hr & Hlenr & Hentries).
  exists l, r. split; [exact Hr|].
  assert (Hlocs : Transformations.stem_locs r = seqZ (- l) (2 * l + 1)).
  { unfold Transformations.stem_locs, Transformations.range,
      Transformations.int_half_len.
    rewrite Hlenr. replace ((2 * l + 1) ÷ 2) with l by (Z.quot_rem_to_equations; lia).
    f_equal. lia. }
  split; [exact Hlocs|]. split.
  - rewrite Hlocs, length_seqZ. unfold Numpy.len in Hlenr. lia.
  - intros j Hj. split; [|apply Hentries, Hj].
    rewrite Hlocs, lookup_seqZ_lt by lia. f_equal. lia.
Qed.

End CrossCorrelationPlot.

Lemma stem_plot_shows_each_lag_witness :
  ∃ l r,
    TimeSeries.ccf_stats TimeSeries.sample_x TimeSeries.sample_y None = Ok r
    ∧ Transformations.stem_locs r = seqZ (- l) (2 * l + 1)
    ∧ length (Transformations.stem_locs r) = length r.
Proof.
  destruct (stem_plot_shows_each_lag TimeSeries.sample_x TimeSeries.sample_y None)
    as (l & r & Hr & Hlocs & Hlen & _).
  - reflexivity.
  - vm_compute. discriminate.
  - left. reflexivity.
  - exists l, r. split; [exact Hr|]. split; [exact Hlocs|exact Hlen].
Defined.

(** ** The cross-correlation as the sum of lagged products *)

Section CrossCorrelationFormula.
Context {A : Type} `{Numpy.Number A, Numpy.Sqrt A}.

(** The arithmetic is one in which a zero term does not change a sum and a
    zero factor makes a product zero, as in exact arithmetic. *)
Hypothesis add_zero : ∀ a : A, Numpy.nadd a Numpy.nzero = a.
Hypothesis mul_zero : ∀ a : A, Numpy.nmul a Numpy.nzero = Numpy.nzero.

Lemma foldl_add_zeros (s : A) (zs : list A) :
  Forall (λ z, z = Numpy.nzero) zs → foldl Numpy.nadd s zs = s.
Proof using add_zero.
  intros Hz. revert s.
  induction Hz as [|z zs -> _ IH]; intros s; simpl; [reflexivity|].
  rewrite add_zero. apply IH.
Qed.

Lemma sum_zeros_app (zs l : list A) :
  Forall (λ z, z = Numpy.nzero) zs → Numpy.sum (zs ++ l) = Numpy.sum l.
Proof using add_zero.
  intros Hz. unfold Numpy.sum.
  rewrite foldl_app, (foldl_add_zeros _ zs) by assumption. reflexivity.
Qed.

Lemma sum_app_zeros (l zs : list A) :
  Forall (λ z, z = Numpy.nzero) zs → Numpy.sum (l ++ zs) = Numpy.sum l.
Proof using add_zero.
  intros Hz. unfold Numpy.sum. rewrite foldl_app. apply foldl_add_zeros, Hz.
Qed.

(** The products with elements outside of [y] are zero. *)
Lemma imap_zero_products (x y : list A) (g : nat → Z) :
  (∀ l, (l < length x)%nat → Numpy.padded y (g l) = Numpy.nzero) →
  Forall (λ z, z = Numpy.nzero)
    (imap (fun l xl => Numpy.nmul xl (Numpy.padded y (g l))) x).
Proof using mul_zero.
  intros Hg. apply Forall_lookup. intros i z Hi.
  rewrite list_lookup_imap in Hi.
  destruct (x !! i) as [xl|] eqn:Hx; [|discriminate].
  apply lookup_lt_Some in Hx. injection Hi as <-.
  rewrite Hg by exact Hx. apply mul_zero.
Qed.

Lemma imap_split {B} (f : nat → A → B) (x : list A) (k : nat) :
  imap f x = imap f (take k x) ++ imap (fun l => f (length (take k x) + l)%nat) (drop k x).
Proof. rewrite <- imap_app, take_drop. reflexivity. Qed.

(** [k] places after the middle, the correlation pairs [x[t + k]] with
    [y[t]]. *)
Lemma correlate_at_lead (x y : list A) (k : Z) :
  Numpy.len x = Numpy.len y → 0 ≤ k ≤ Numpy.len x →
  Numpy.correlate_at x y (Numpy.len x - 1 + k)
  = Numpy.dot (drop (Z.to_nat k) x) y.
Proof using add_zero mul_zero.
  intros Hlen Hk. unfold Numpy.correlate_at, Numpy.dot.
  rewrite <- Hlen.
  rewrite (imap_ext _ (fun l xl => Numpy.nmul xl (Numpy.padded y (Z.of_nat l - k))))
    by (intros l xl _; cbn beta; do 2 f_equal; lia).
  rewrite (imap_split _ x (Z.to_nat k)).
  rewrite sum_zeros_app.
  - f_equal. rewrite <- imap_padded_zip
      by (rewrite length_drop; unfold Numpy.len in Hlen; lia).
    apply imap_ext. intros l xl _. cbn beta. f_equal.
    rewrite length_take. unfold Numpy.padded, Numpy.len in *.
    destruct (Z.ltb_spec (Z.of_nat (Z.to_nat k `min` length x + l) - k) 0); [lia|].
    do 2 f_equal. lia.
  - apply (imap_zero_products (take (Z.to_nat k) x) y (fun l => Z.of_nat l - k)).
    intros l Hl. rewrite length_take in Hl. unfold Numpy.padded.
    destruct (Z.ltb_spec (Z.of_nat l - k) 0); [reflexivity|lia].
Qed.

(** [k] places before the middle, it pairs [x[t]] with [y[t + k]]. *)
Lemma correlate_at_lag (x y : list A) (k : Z) :
  Numpy.len x = Numpy.len y → 0 ≤ k ≤ Numpy.len x →
  Numpy.correlate_at x y (Numpy.len x - 1 - k)
  = Numpy.dot x (drop (Z.to_nat k) y).
Proof using add_zero mul_zero.
  intros Hlen Hk. unfold Numpy.correlate_at, Numpy.dot.
  rewrite <- Hlen.
  rewrite (imap_ext _ (fun l xl => Numpy.nmul xl (Numpy.padded y (Z.of_nat l + k))))
    by (intros l xl _; cbn beta; do 2 f_equal; lia).
  rewrite (imap_split _ x (length (drop (Z.to_nat k) y))).
  rewrite sum_app_zeros.
  - f_equal. rewrite <- zip_with_take_l.
    rewrite <- imap_padded_zip by (rewrite length_take; lia).
    apply imap_ext. intros l xl Hl. cbn beta. f_equal.
    apply lookup_lt_Some in Hl. rewrite length_take, length_drop in Hl.
    unfold Numpy.padded, Numpy.len in *.
    destruct (Z.ltb_spec (Z.of_nat l + k) 0); [lia|].
    rewrite lookup_drop. do 2 f_equal. lia.
  - apply (imap_zero_products (drop (length (drop (Z.to_nat k) y)) x) y
             (fun l => Z.of_nat (length (take (length (drop (Z.to_nat k) y)) x) + l) + k)).
    intros l Hl. rewrite length_drop in Hl. rewrite length_take, length_drop.
    unfold Numpy.padded, Numpy.len in *.
    destruct (Z.ltb_spec (Z.of_nat ((length y - Z.to_nat k) `min` length x + l) + k) 0);
      [reflexivity|].
    rewrite lookup_ge_None_2 by lia. reflexivity.
Qed.

(** The entries of the full normalised correlation around its middle. *)
Lemma ccf_full_entries (x y : list A) (k : Z) :
  Numpy.len x = Numpy.len y → 0 ≤ k ≤ Numpy.len x - 1 →
  let xc := Numpy.sub_scalar x (Numpy.mean x) in
  let yc := Numpy.sub_scalar y (Numpy.mean y) in
  let norm := Numpy.nmul (Numpy.nmul (Numpy.std y) (Numpy.std x))
                (Numpy.of_Z (Numpy.len y)) in
  TimeSeries.ccf_full x y !! Z.to_nat (Numpy.len x - 1 + k)
  = Some (Numpy.ndiv (Numpy.dot (drop (Z.to_nat k) xc) yc) norm)
  ∧ TimeSeries.ccf_full x y !! Z.to_nat (Numpy.len x - 1 - k)
    = Some (Numpy.ndiv (Numpy.dot xc (drop (Z.to_nat k) yc)) norm).
Proof using add_zero mul_zero.
  intros Hlen Hk xc yc norm.
  assert (Hxc : Numpy.len xc = Numpy.len x) by apply len_sub_scalar.
  assert (Hyc : Numpy.len yc = Numpy.len y) by apply len_sub_scalar.
  unfold TimeSeries.ccf_full, Numpy.div_scalar, Numpy.correlate.
  fold xc yc norm. rewrite !list_lookup_fmap, Hxc, Hyc.
  rewrite !lookup_seqZ_lt by (rewrite Z2Nat.id; lia).
  cbn [fmap option_fmap option_map]. rewrite !Z2Nat.id by lia.
  rewrite !Z.add_0_l. rewrite <- Hxc.
  rewrite correlate_at_lead, correlate_at_lag by lia.
  split; reflexivity.
Qed.

(** X11.  On series of equal length [n >= 2], with the default lag bound or one
    between 1 and [n - 1], the value that [ccf_stats] returns for the lag
    [k] is the sum over [t] of the products of the mean-removed [x[t + k]]
    and [y[t]], divided by [std(y) * std(x) * n]; for the lag [- k] it is
    that of [x[t]] and [y[t + k]].  Only the pairs inside both series
    enter the sum. *)
Theorem ccf_stats_is_the_sum_of_lagged_products (x y : list A) (lag_max : option Z) :
  Numpy.len x = Numpy.len y → 2 ≤ Numpy.len x →
  (lag_max = None ∨ ∃ l, lag_max = Some l ∧ 1 ≤ l ≤ Numpy.len x - 1) →
  let xc := Numpy.sub_scalar x (Numpy.mean x) in
  let yc := Numpy.sub_scalar y (Numpy.mean y) in
  let norm := Numpy.nmul (Numpy.nmul (Numpy.std y) (Numpy.std x))
                (Numpy.of_Z (Numpy.len y)) in
  ∃ l r,
    TimeSeries.effective_lag x y lag_max = Ok l
    ∧ TimeSeries.ccf_stats x y lag_max = Ok r
    ∧ ∀ k, 0 ≤ k ≤ l →
           r !! Z.to_nat (l + k)
           = Some (Numpy.ndiv (Numpy.dot (drop (Z.to_nat k) xc) yc) norm)
           ∧ r !! Z.to_nat (l - k)
             = Some (Numpy.ndiv (Numpy.dot xc (drop (Z.to_nat k) yc)) norm).
Proof using add_zero mul_zero.
  intros Hlen Hn Hlag xc yc norm.
  destruct (effective_lag_in_range x y lag_max Hlen Hn Hlag) as (l & Heff & Hl).
  destruct (ccf_stats_in_range x y lag_max l Hlen ltac:(lia) Heff Hl)
    as (r & Hr & Hlenr & Hentries).
  exists l, r. split; [exact Heff|]. split; [exact Hr|].
  intros k Hk.
  destruct (ccf_full_entries x y k Hlen ltac:(lia)) as [Hlead Hlagk].
  split.
  - rewrite (Hentries k) by lia. exact Hlead.
  - replace (l - k) with (l + - k) by lia. rewrite (Hentries (- k)) by lia.
    replace (Numpy.len x - 1 + - k) with (Numpy.len x - 1 - k) by lia.
    exact Hlagk.
Qed.

Hypothesis mul_comm : ∀ a b : A, Numpy.nmul a b = Numpy.nmul b a.

Lemma dot_comm (x y : list A) : Numpy.dot x y = Numpy.dot y x.
Proof using mul_comm.
  unfold Numpy.dot. f_equal. revert y.
  induction x as [|a x IH]; intros [|b y]; simpl; try reflexivity.
  rewrite mul_comm, IH. reflexivity.
Qed.

(** The full correlation of [y] with [x] is that of [x] with [y], read from
    the other end. *)
Lemma ccf_full_mirror (x y : list A) (j : Z) :
  Numpy.len x = Numpy.len y → - (Numpy.len x - 1) ≤ j ≤ Numpy.len x - 1 →
  TimeSeries.ccf_full y x !! Z.to_nat (Numpy.len x - 1 + j)
  = TimeSeries.ccf_full x y !! Z.to_nat (Numpy.len x - 1 - j).
Proof using add_zero mul_zero mul_comm.
  intros Hlen Hj. destruct (Z.le_gt_cases 0 j) as [Hpos|Hneg].
  - destruct (ccf_full_entries y x j (eq_sym Hlen) ltac:(lia)) as [Hyx _].
    destruct (ccf_full_entries x y j Hlen ltac:(lia)) as [_ Hxy].
    rewrite <- Hlen in Hyx. rewrite Hyx, Hxy.
    rewrite dot_comm, (mul_comm (Numpy.std x) (Numpy.std y)), Hlen. reflexivity.
  - destruct (ccf_full_entries y x (- j) (eq_sym Hlen) ltac:(lia)) as [_ Hyx].
    destruct (ccf_full_entries x y (- j) Hlen ltac:(lia)) as [Hxy _].
    rewrite <- Hlen in Hyx.
    replace (Numpy.len x - 1 + j) with (Numpy.len x - 1 - - j) by lia.
    replace (Numpy.len x - 1 - j) with (Numpy.len x - 1 + - j) by lia.
    rewrite Hyx, Hxy.
    rewrite dot_comm, (mul_comm (Numpy.std x) (Numpy.std y)), Hlen. reflexivity.
Qed.

(** X12.  Exchanging the two series reverses the result: the correlation of [y]
    with [x] at the lag [k] is that of [x] with [y] at the lag [- k].  This
    needs, besides the laws of zero, a commutative product. *)
Theorem ccf_stats_of_swapped_series_is_reversed
    (x y : list A) (lag_max : option Z) :
  Numpy.len x = Numpy.len y → 2 ≤ Numpy.len x →
  (lag_max = None ∨ ∃ l, lag_max = Some l ∧ 1 ≤ l ≤ Numpy.len x - 1) →
  ∃ r, TimeSeries.ccf_stats x y lag_max = Ok r
       ∧ TimeSeries.ccf_stats y x lag_max = Ok (reverse r).
Proof using add_zero mul_zero mul_comm.
  intros Hlen Hn Hlag.
  destruct (effective_lag_in_range x y lag_max Hlen Hn Hlag) as (l & Heff & Hl).
  assert (Heff' : TimeSeries.effective_lag y x lag_max = Ok l).
  { rewrite <- Heff. unfold TimeSeries.effective_lag.
    rewrite (Z.min_comm (Numpy.len y)). reflexivity. }
  destruct (ccf_stats_in_range x y lag_max l Hlen ltac:(lia) Heff Hl)
    as (r & Hr & Hlenr & Hentries).
  destruct (ccf_stats_in_range y x lag_max l (eq_sym Hlen) ltac:(lia) Heff' ltac:(lia))
    as (r' & Hr' & Hlenr' & Hentries').
  exists r. split; [exact Hr|]. rewrite Hr'. f_equal.
  unfold Numpy.len in Hlenr, Hlenr'.
  apply list_eq. intros i.
  destruct (Nat.lt_ge_cases i (length r)) as [Hi|Hi].
  - rewrite reverse_lookup by exact Hi.
    replace i with (Z.to_nat (l + (Z.of_nat i - l))) at 1 by lia.
    replace (length r - S i)%nat with (Z.to_nat (l + - (Z.of_nat i - l))) by lia.
    rewrite Hentries', Hentries by lia.
    rewrite <- Hlen.
    replace (Numpy.len x - 1 + - (Z.of_nat i - l))
      with (Numpy.len x - 1 - (Z.of_nat i - l)) by lia.
    apply ccf_full_mirror; [exact Hlen|lia].
  - rewrite !lookup_ge_None_2; [reflexivity| |]; rewrite ?length_reverse; lia.
Qed.

End CrossCorrelationFormula.

Lemma ccf_stats_is_the_sum_of_lagged_products_witness :
  ∃ l r,
    TimeSeries.effective_lag Exact.exact_x Exact.exact_y (Some 2) = Ok l
    ∧ TimeSeries.ccf_stats (H0 := Exact.Qc_sqrt) Exact.exact_x Exact.exact_y (Some 2)
      = Ok r.
Proof.
  destruct (ccf_stats_is_the_sum_of_lagged_products (H := Numpy.Qc_number) (H0 := Exact.Qc_sqrt)
              Qcplus_0_r Qcmult_0_r Exact.exact_x Exact.exact_y (Some 2))
    as (l & r & Heff & Hr & _).
  - reflexivity.
  - vm_compute. discriminate.
  - right. exists 2. split; [reflexivity|]. vm_compute. split; discriminate.
  - exists l, r. split; [exact Heff|exact Hr].
Defined.

Lemma ccf_stats_of_swapped_series_is_reversed_witness :
  ∃ r, TimeSeries.ccf_stats (H0 := Exact.Qc_sqrt) Exact.exact_x Exact.exact_y None = Ok r
       ∧ TimeSeries.ccf_stats (H0 := Exact.Qc_sqrt) Exact.exact_y Exact.exact_x None
         = Ok (reverse r).
Proof.
  apply (ccf_stats_of_swapped_series_is_reversed (H := Numpy.Qc_number) (H0 := Exact.Qc_sqrt)
           Qcplus_0_r Qcmult_0_r Qcmult_comm Exact.exact_x Exact.exact_y None).
  - reflexivity.
  - vm_compute. discriminate.
  - left. reflexivity.
Defined.

(** ** The latest rows of the housing data *)

Section Nlargest.
Context {R : Type} (key : R → Z).





(** Rows that stand in the order of their positions are sorted by value
    from the largest down, and rows of equal value by position. *)
Context (pos : R → nat).








End Nlargest.








(** ** Leads and lags *)

Section Shift.
Context {A : Type} `{Numpy.Number A}.

Lemma shift_length (periods : Z) (s : list (option A)) :
  length (Transformations.shift periods s) = length s.
Proof.
  unfold Transformations.shift. destruct (Z.leb_spec 0 periods).
  - rewrite length_take, length_app, length_replicate. lia.
  - rewrite length_app, length_drop, length_replicate. lia.
Qed.

Lemma shift_lookup (periods : Z) (s : list (option A)) (t : nat) :
  (t < length s)%nat →
  Transformations.shift periods s !! t
  = Some (Transformations.value_at s (Z.of_nat t - periods)).
Proof.
  intros Ht. unfold Transformations.shift, Transformations.value_at.
  destruct (Z.leb_spec 0 periods) as [Hk|Hk].
  - rewrite lookup_take_lt by exact Ht.
    destruct (Z.ltb_spec (Z.of_nat t - periods) 0) as [Hneg|Hpos].
    + rewrite lookup_app_l by (rewrite length_replicate; lia).
      apply lookup_replicate_2. lia.
    + rewrite lookup_app_r by (rewrite length_replicate; lia).
      rewrite length_replicate.
      replace (t - Z.to_nat periods)%nat with (Z.to_nat (Z.of_nat t - periods)) by lia.
      destruct (lookup_lt_is_Some_2 s (Z.to_nat (Z.of_nat t - periods))) as [v Hv];
        [lia|].
      rewrite Hv. reflexivity.
  - destruct (Z.ltb_spec (Z.of_nat t - periods) 0) as [Hneg|Hpos]; [lia|].
    destruct (Nat.lt_ge_cases t (length s - Z.to_nat (- periods))) as [Hin|Hout].
    + rewrite lookup_app_l by (rewrite length_drop; exact Hin).
      rewrite lookup_drop.
      replace (Z.to_nat (- periods) + t)%nat
        with (Z.to_nat (Z.of_nat t - periods)) by lia.
      destruct (lookup_lt_is_Some_2 s (Z.to_nat (Z.of_nat t - periods))) as [v Hv];
        [lia|].
      rewrite Hv. reflexivity.
    + rewrite lookup_app_r by (rewrite length_drop; exact Hout).
      rewrite length_drop, lookup_replicate_2 by lia.
      rewrite lookup_ge_None_2 by lia. reflexivity.
Qed.

Lemma value_at_shift (periods : Z) (s : list (option A)) (m : Z) :
  Transformations.value_at (Transformations.shift periods s) m
  = if (0 <=? m) && (m <? Z.of_nat (length s))
    then Transformations.value_at s (m - periods) else None.
Proof.
  unfold Transformations.value_at at 1.
  destruct (Z.ltb_spec m 0) as [Hneg|Hpos].
  - destruct (Z.leb_spec 0 m); [lia|reflexivity].
  - destruct (Z.leb_spec 0 m); [|lia]. cbn [andb].
    destruct (Z.ltb_spec m (Z.of_nat (length s))) as [Hin|Hout].
    + rewrite shift_lookup by lia. rewrite Z2Nat.id by lia. reflexivity.
    + rewrite lookup_ge_None_2 by (rewrite shift_length; lia). reflexivity.
Qed.

Lemma same_places (l k : list (option A)) :
  length l = length k →
  (∀ t, (t < length l)%nat → l !! t = k !! t) → l = k.
Proof.
  intros Hlen Hplaces. apply list_eq. intros t.
  destruct (Nat.lt_ge_cases t (length l)) as [Ht|Ht]; [apply Hplaces, Ht|].
  rewrite !lookup_ge_None_2 by lia. reflexivity.
Qed.

(** X15.  The lead and lag columns are as long as the series.  The lead column
    holds at place [t] the value of the series [lead] places later, and
    nothing in its last [lead] places; the lag column the value [lag]
    places earlier, and nothing in its first [lag] places. *)
Theorem lead_and_lag_columns (lead lag : Z) (s : list (option A)) (t : nat) :
  0 ≤ lead → 0 ≤ lag → (t < length s)%nat →
  length (Transformations.lead_column lead s) = length s
  ∧ length (Transformations.lag_column lag s) = length s
  ∧ Transformations.lead_column lead s !! t
    = Some (if Z.of_nat t + lead <? Z.of_nat (length s)
            then default None (s !! (t + Z.to_nat lead)%nat) else None)
  ∧ Transformations.lag_column lag s !! t
    = Some (if Z.of_nat t <? lag
            then None else default None (s !! (t - Z.to_nat lag)%nat)).
Proof.
  intros Hlead Hlag Ht.
  unfold Transformations.lead_column, Transformations.lag_column.
  rewrite !shift_length, !shift_lookup by exact Ht.
  split; [reflexivity|]. split; [reflexivity|].
  unfold Transformations.value_at. split; f_equal.
  - destruct (Z.ltb_spec (Z.of_nat t - - lead) 0); [lia|].
    replace (Z.to_nat (Z.of_nat t - - lead)) with (t + Z.to_nat lead)%nat by lia.
    destruct (Z.ltb_spec (Z.of_nat t + lead) (Z.of_nat (length s))); [reflexivity|].
    rewrite lookup_ge_None_2 by lia. reflexivity.
  - destruct (Z.ltb_spec (Z.of_nat t - lag) 0), (Z.ltb_spec (Z.of_nat t) lag);
      try lia; [reflexivity|].
    do 2 f_equal. lia.
Qed.

(** Two shifts in the same direction are one shift by the sum. *)
Lemma shifts_in_one_direction_add (j k : Z) (s : list (option A)) :
  (0 ≤ j ∧ 0 ≤ k) ∨ (j ≤ 0 ∧ k ≤ 0) →
  Transformations.shift j (Transformations.shift k s)
  = Transformations.shift (j + k) s.
Proof.
  intros Hdir. apply same_places; [rewrite !shift_length; reflexivity|].
  intros t Ht. rewrite !shift_length in Ht.
  rewrite !shift_lookup by (rewrite ?shift_length; exact Ht).
  f_equal. rewrite value_at_shift.
  replace (Z.of_nat t - (j + k)) with (Z.of_nat t - j - k) by lia.
  unfold Transformations.value_at.
  destruct (Z.leb_spec 0 (Z.of_nat t - j)), (Z.ltb_spec (Z.of_nat t - j) (Z.of_nat (length s)));
    cbn [andb]; try reflexivity.
  - destruct (Z.ltb_spec (Z.of_nat t - j - k) 0); [reflexivity|].
    rewrite lookup_ge_None_2 by lia. reflexivity.
  - destruct (Z.ltb_spec (Z.of_nat t - j - k) 0); [reflexivity|lia].
  - lia.
Qed.

(** X16.  A lead does not undo a lag: leading the lagged series by the same
    number of places gives back the series without its last values, which
    the lag has pushed out. *)
Theorem lead_of_lag_loses_the_end (k : Z) (s : list (option A)) :
  0 ≤ k →
  Transformations.lead_column k (Transformations.lag_column k s)
  = take (length s - Z.to_nat k) s ++ replicate (Z.to_nat k `min` length s) None.
Proof.
  intros Hk. unfold Transformations.lead_column, Transformations.lag_column.
  apply same_places.
  { rewrite !shift_length, length_app, length_take, length_replicate. lia. }
  intros t Ht. rewrite !shift_length in Ht.
  rewrite shift_lookup by (rewrite shift_length; exact Ht).
  rewrite value_at_shift.
  destruct (Z.leb_spec 0 (Z.of_nat t - - k)); [|lia]. cbn [andb].
  destruct (Z.ltb_spec (Z.of_nat t - - k) (Z.of_nat (length s))) as [Hin|Hout].
  - rewrite lookup_app_l by (rewrite length_take; lia).
    rewrite lookup_take_lt by lia.
    unfold Transformations.value_at.
    destruct (Z.ltb_spec (Z.of_nat t - - k - k) 0); [lia|].
    replace (Z.to_nat (Z.of_nat t - - k - k)) with t by lia.
    destruct (lookup_lt_is_Some_2 s t Ht) as [v Hv]. rewrite Hv. reflexivity.
  - rewrite lookup_app_r by (rewrite length_take; lia).
    rewrite length_take. symmetry. apply lookup_replicate_2. lia.
Qed.

End Shift.

Lemma lead_and_lag_columns_witness :
  length (Transformations.lead_column 12 (Some <$> TimeSeries.sample_x)) = 4%nat.
Proof.
  destruct (lead_and_lag_columns 12 3 (Some <$> TimeSeries.sample_x) 0)
    as (Hlen & _); [lia|lia|simpl; lia|].
  exact Hlen.
Defined.

Lemma lead_of_lag_loses_the_end_witness :
  Transformations.lead_column 1 (Transformations.lag_column 1 (Some <$> TimeSeries.sample_x))
  = take (length (Some <$> TimeSeries.sample_x) - Z.to_nat 1)
      (Some <$> TimeSeries.sample_x)
    ++ replicate (Z.to_nat 1 `min` length (Some <$> TimeSeries.sample_x)) None.
Proof.
  apply (lead_of_lag_loses_the_end 1 (Some <$> TimeSeries.sample_x)). lia.
Defined.

(** ** Differences and growth rates *)

Section Columns.
Context {A : Type} `{Numpy.Number A}.

Lemma zip_with_lift2 (op : A → A → A) (l k : list A) :
  zip_with (Transformations.lift2 op) (Some <$> l) (Some <$> k)
  = zip_with (fun u v => Some (op u v)) l k.
Proof.
  revert k. induction l as [|u l IH]; intros [|v k]; simpl; try reflexivity.
  f_equal. apply IH.
Qed.

(** A column computed from a series and its lag by [periods >= 0] places:
    nothing in the first [periods] places, then the operation on the value
    and the value [periods] places earlier. *)
Lemma lagged_operation_lookup (op : A → A → A) (periods : Z) (gdp : list A)
    (t : nat) (u : A) :
  0 ≤ periods → gdp !! t = Some u →
  zip_with (Transformations.lift2 op) (Some <$> gdp)
    (Transformations.shift periods (Some <$> gdp)) !! t
  = Some (if Z.of_nat t <? periods then None
          else op u <$> gdp !! (t - Z.to_nat periods)%nat).
Proof.
  intros Hk Hu. pose proof (lookup_lt_Some _ _ _ Hu) as Ht.
  rewrite lookup_zip_with, list_lookup_fmap, Hu.
  rewrite shift_lookup by (rewrite length_fmap; exact Ht).
  cbn [fmap option_fmap option_map mbind option_bind]. f_equal.
  unfold Transformations.value_at.
  destruct (Z.ltb_spec (Z.of_nat t - periods) 0), (Z.ltb_spec (Z.of_nat t) periods);
    try lia; [reflexivity|].
  replace (Z.to_nat (Z.of_nat t - periods)) with (t - Z.to_nat periods)%nat by lia.
  rewrite list_lookup_fmap.
  destruct (gdp !! (t - Z.to_nat periods)%nat); reflexivity.
Qed.

End Columns.

(** *** Exact arithmetic *)

Lemma foldl_Qcplus (a : Qc) (l : list Qc) :
  foldl Qcplus a l = (a + foldl Qcplus 0 l)%Qc.
Proof.
  revert a. induction l as [|x l IH]; intros a; simpl; [ring|].
  rewrite (IH (a + x)%Qc), (IH (0 + x)%Qc). ring.
Qed.

Lemma sum_cons_Qc (x : Qc) (l : list Qc) :
  Numpy.sum (x :: l) = (x + Numpy.sum l)%Qc.
Proof.
  unfold Numpy.sum. cbn [foldl Numpy.nadd Numpy.nzero Numpy.Qc_number].
  rewrite foldl_Qcplus. ring.
Qed.

Lemma of_Z_succ_Qc (n : Z) :
  Numpy.of_Z (n + 1) = (Numpy.of_Z n + 1 : Qc)%Qc.
Proof.
  cbn [Numpy.of_Z Numpy.Qc_number]. apply Qc_is_canon. simpl.
  rewrite !Qred_correct, inject_Z_plus. reflexivity.
Qed.

Lemma of_Z_nonzero_Qc (n : Z) : n ≠ 0 → (Numpy.of_Z n : Qc) ≠ 0%Qc.
Proof.
  intros Hn E. cbn [Numpy.of_Z Numpy.Qc_number] in E.
  apply (f_equal this) in E. simpl in E.
  assert (Hq : inject_Z n == 0) by (rewrite <- (Qred_correct (inject_Z n)), E; reflexivity).
  unfold Qeq in Hq. simpl in Hq. lia.
Qed.

(** The sum of the deviations from a number. *)
Lemma sum_sub_scalar_Qc (l : list Qc) (c : Qc) :
  Numpy.sum (Numpy.sub_scalar l c)
  = (Numpy.sum l - Numpy.of_Z (Numpy.len l) * c)%Qc.
Proof.
  induction l as [|x l IH].
  - apply Qc_is_canon. reflexivity.
  - cbn [Numpy.sub_scalar fmap list_fmap]. fold (Numpy.sub_scalar l c).
    rewrite !sum_cons_Qc, IH.
    replace (Numpy.len (x :: l)) with (Numpy.len l + 1)
      by (unfold Numpy.len; cbn [length]; lia).
    rewrite of_Z_succ_Qc. cbn [Numpy.nsub Numpy.Qc_number]. ring.
Qed.

(** X18.  In exact arithmetic the demeaned column of a series that is not empty
    sums to zero, and so has mean zero. *)
Theorem demean_sums_to_zero (gdp : list Qc) :
  gdp ≠ [] →
  Numpy.sum (Transformations.demean gdp) = 0%Qc
  ∧ Numpy.mean (Transformations.demean gdp) = 0%Qc.
Proof.
  intros Hgdp.
  assert (Hn : (Numpy.of_Z (Numpy.len gdp) : Qc) ≠ 0%Qc).
  { apply of_Z_nonzero_Qc. unfold Numpy.len. destruct gdp; [contradiction|].
    cbn [length]. lia. }
  assert (Hsum : Numpy.sum (Transformations.demean gdp) = 0%Qc).
  { unfold Transformations.demean. rewrite sum_sub_scalar_Qc.
    unfold Numpy.mean. cbn [Numpy.ndiv Numpy.Qc_number].
    set (n := Numpy.of_Z (Numpy.len gdp) : Qc) in *. field. exact Hn. }
  split; [exact Hsum|].
  unfold Numpy.mean. rewrite Hsum. cbn [Numpy.ndiv Numpy.Qc_number].
  unfold Qcdiv. ring.
Qed.

Lemma demean_sums_to_zero_witness :
  Numpy.sum (Transformations.demean Exact.exact_x) = 0%Qc.
Proof.
  apply (demean_sums_to_zero Exact.exact_x). discriminate.
Defined.

Lemma sum_of_steps_Qc (a : Qc) (l : list Qc) :
  Numpy.sum (zip_with Qcminus l (a :: l)) = (default a (last l) - a)%Qc.
Proof.
  revert a. induction l as [|b l IH]; intros a.
  - unfold Numpy.sum.
    cbn [zip_with foldl Numpy.nzero Numpy.Qc_number last default]. ring.
  - cbn [zip_with]. rewrite sum_cons_Qc, IH, last_cons.
    destruct (last l); cbn [default from_option id]; ring.
Qed.

Lemma omap_zip_with_Some {B} (op : B → B → B) (l k : list B) :
  omap id (None :: zip_with (fun u v => Some (op u v)) l k) = zip_with op l k.
Proof.
  cbn [omap list_omap id]. revert k.
  induction l as [|u l IH]; intros [|v k]; cbn [zip_with omap list_omap id];
    try reflexivity.
  f_equal. apply IH.
Qed.

(** X20.  The column of differences is as long as the series and has no first
    value.  In exact arithmetic its values sum to the change of the series
    from its first to its last value. *)
Theorem differences_sum_to_the_total_change (first : Qc) (rest : list Qc) :
  length (Transformations.difference (first :: rest)) = S (length rest)
  ∧ Transformations.difference (first :: rest) !! 0%nat = Some None
  ∧ Numpy.sum (omap id (Transformations.difference (first :: rest)))
    = (default first (last rest) - first)%Qc.
Proof.
  assert (Hdiff : Transformations.difference (first :: rest)
                  = None :: zip_with (fun u v => Some (u - v)%Qc) rest (first :: rest)).
  { unfold Transformations.difference, Transformations.diff, Transformations.shift.
    change (0 <=? 1) with true. change (Z.to_nat 1) with 1%nat.
    rewrite length_fmap, fmap_cons. cbn [replicate app length take zip_with].
    cbn [Transformations.lift2]. f_equal. rewrite <- fmap_cons.
    rewrite zip_with_take_r' by (rewrite !length_fmap; cbn [length]; lia).
    apply (zip_with_lift2 Qcminus). }
  rewrite Hdiff. split; [|split; [reflexivity|]].
  - cbn [length]. rewrite length_zip_with. cbn [length]. lia.
  - rewrite <- sum_of_steps_Qc. f_equal. apply (omap_zip_with_Some Qcminus).
Qed.

(** X17.  In exact arithmetic, growth over four quarters compounds the four
    quarterly growth rates: for a series with nonzero values, one plus the
    year-on-year rate (as a fraction) is the product of one plus each of
    the four quarter-on-quarter rates. *)
Theorem growth_over_a_year_compounds_the_quarters
    (gdp : list Qc) (t : nat) (x0 x1 x2 x3 x4 : Qc) :
  gdp !! t = Some x0 → gdp !! (t + 1)%nat = Some x1 →
  gdp !! (t + 2)%nat = Some x2 → gdp !! (t + 3)%nat = Some x3 →
  gdp !! (t + 4)%nat = Some x4 →
  x0 ≠ 0%Qc → x1 ≠ 0%Qc → x2 ≠ 0%Qc → x3 ≠ 0%Qc →
  ∃ y q1 q2 q3 q4,
    Transformations.q_on_q_yr_ago gdp !! (t + 4)%nat = Some (Some y)
    ∧ Transformations.q_on_q gdp !! (t + 1)%nat = Some (Some q1)
    ∧ Transformations.q_on_q gdp !! (t + 2)%nat = Some (Some q2)
    ∧ Transformations.q_on_q gdp !! (t + 3)%nat = Some (Some q3)
    ∧ Transformations.q_on_q gdp !! (t + 4)%nat = Some (Some q4)
    ∧ (1 + y / Numpy.of_Z 100
       = (1 + q1 / Numpy.of_Z 100) * (1 + q2 / Numpy.of_Z 100)
         * (1 + q3 / Numpy.of_Z 100) * (1 + q4 / Numpy.of_Z 100))%Qc.
Proof.
  intros H0 H1 H2 H3 H4 N0 N1 N2 N3.
  assert (Hc : (Numpy.of_Z 100 : Qc) ≠ 0%Qc) by (apply of_Z_nonzero_Qc; lia).
  unfold Transformations.q_on_q_yr_ago, Transformations.q_on_q,
    Transformations.mul_scalar, Transformations.pct_change.
  rewrite !list_lookup_fmap.
  rewrite (lagged_operation_lookup _ 4 gdp (t + 4) x4) by (lia || assumption).
  rewrite (lagged_operation_lookup _ 1 gdp (t + 1) x1) by (lia || assumption).
  rewrite (lagged_operation_lookup _ 1 gdp (t + 2) x2) by (lia || assumption).
  rewrite (lagged_operation_lookup _ 1 gdp (t + 3) x3) by (lia || assumption).
  rewrite (lagged_operation_lookup _ 1 gdp (t + 4) x4) by (lia || assumption).
  repeat match goal with
         | |- context [(?a <? ?b)%Z] => destruct (Z.ltb_spec a b); [lia|]
         end.
  replace (t + 4 - Z.to_nat 4)%nat with t by lia.
  replace (t + 1 - Z.to_nat 1)%nat with t by lia.
  replace (t + 2 - Z.to_nat 1)%nat with (t + 1)%nat by lia.
  replace (t + 3 - Z.to_nat 1)%nat with (t + 2)%nat by lia.
  replace (t + 4 - Z.to_nat 1)%nat with (t + 3)%nat by lia.
  rewrite H0, H1, H2, H3.
  cbn [fmap option_fmap option_map].
  do 5 eexists. repeat (split; [reflexivity|]).
  change (Numpy.of_Z 1 : Qc) with 1%Qc.
  cbn [Numpy.nsub Numpy.ndiv Numpy.nmul Numpy.Qc_number].
  set (c := Numpy.of_Z 100 : Qc) in *.
  field. repeat split; assumption.
Qed.

Lemma growth_over_a_year_compounds_the_quarters_witness :
  ∃ y, Transformations.q_on_q_yr_ago (Numpy.of_Z <$> [1; 2; 4; 8; 16]) !! 4%nat
       = Some (Some y).
Proof.
  destruct (growth_over_a_year_compounds_the_quarters
              (Numpy.of_Z <$> [1; 2; 4; 8; 16]) 0
              (Numpy.of_Z 1) (Numpy.of_Z 2) (Numpy.of_Z 4) (Numpy.of_Z 8)
              (Numpy.of_Z 16))
    as (y & _ & _ & _ & _ & Hy & _); try reflexivity;
    try (apply of_Z_nonzero_Qc; lia).
  exists y. exact Hy.
Defined.

(** ** Real-time demeaning *)

Section RealTime.
Context {A : Type} `{Numpy.Number A}.

Lemma real_time_demean_take (k : nat) (gdp : list A) :
  Transformations.real_time_demean (take k gdp)
  = take k (Transformations.real_time_demean gdp).
Proof.
  unfold Transformations.real_time_demean, Transformations.expanding_mean.
  rewrite zip_with_take. f_equal.
  rewrite <- fmap_take, take_seq, length_take.
  apply list_fmap_ext. intros i t Ht.
  apply lookup_seq in Ht as [-> Ht]. cbn [Nat.add].
  rewrite take_take. do 2 f_equal. lia.
Qed.

(** X19.  Real-time demeaning looks at the past only: the values it gives for a
    series are not changed by what is appended to the series later.  It
    keeps the length of the series. *)
Theorem real_time_demean_ignores_the_future (past future : list A) :
  take (length past) (Transformations.real_time_demean (past ++ future))
  = Transformations.real_time_demean past
  ∧ length (Transformations.real_time_demean (past ++ future))
    = length (past ++ future).
Proof.
  split.
  - rewrite <- real_time_demean_take, take_app_length. reflexivity.
  - unfold Transformations.real_time_demean, Transformations.expanding_mean.
    rewrite length_zip_with, length_fmap, length_seq. lia.
Qed.

End RealTime.

(** ** The inflation adjustment *)

(** X22.  The adjustment needs a row for the base date 2021-12-31: without one it
    raises [KeyError] (so it does for an empty frame).  With one, the new
    column has a value at every label of the frame, and at no other. *)
Theorem cheddar_i_adjust_needs_the_base_date
    {A : Type} `{Numpy.Number A} (cdf : TimeSeries.frame A) :
  match cdf !! TimeSeries.base with
  | None => TimeSeries.cheddar_i_adjust cdf = Raise (KeyError "2021-12-31")
  | Some _ =>
      ∃ adjusted,
        TimeSeries.cheddar_i_adjust cdf = Ok adjusted
        ∧ dom adjusted = dom cdf
  end.
Proof.
  destruct (cdf !! TimeSeries.base) as [r|] eqn:Hbase.
  - unfold TimeSeries.cheddar_i_adjust, TimeSeries.loc. rewrite Hbase.
    cbn [mbind result_bind]. eexists. split; [reflexivity|]. apply dom_fmap_L.
  - apply cheddar_i_adjust_no_base, Hbase.
Qed.

(** X23.  In exact arithmetic the adjusted prices do not depend on the scale of
    the price index: multiplying the whole [inflation] column by a nonzero
    number (a change of the base year of the index) leaves the result as it
    is, provided that inflation is nonzero in every row. *)
Theorem cheddar_i_adjust_ignores_the_scale_of_the_index
    (cdf : TimeSeries.frame Qc) (c : Qc) :
  c ≠ 0%Qc →
  (∀ label r, cdf !! label = Some r → TimeSeries.inflation r ≠ 0%Qc) →
  TimeSeries.cheddar_i_adjust
    ((fun r => {| TimeSeries.inflation := (c * TimeSeries.inflation r)%Qc;
                  TimeSeries.cheddar := TimeSeries.cheddar r |}) <$> cdf)
  = TimeSeries.cheddar_i_adjust cdf.
Proof.
  intros Hc Hrows. unfold TimeSeries.cheddar_i_adjust, TimeSeries.loc.
  rewrite lookup_fmap.
  destruct (cdf !! TimeSeries.base) as [b|] eqn:Hbase;
    cbn [fmap option_fmap option_map mbind result_bind]; [|reflexivity].
  f_equal. rewrite <- map_fmap_compose. apply map_fmap_ext.
  intros label r Hr. cbn [compose TimeSeries.inflation TimeSeries.cheddar].
  cbn [Numpy.ndiv Numpy.nmul Numpy.Qc_number].
  pose proof (Hrows label r Hr) as Hi.
  field. split; assumption.
Qed.

(** X24.  In exact arithmetic, with positive prices and a positive index: a row
    in which the index is lower than at the base date gets an adjusted
    price above its nominal price, and a row in which it is higher an
    adjusted price below. *)
Theorem cheddar_i_adjust_raises_the_prices_of_cheaper_years
    (cdf : TimeSeries.frame Qc) (label : string) (b r : TimeSeries.row Qc) :
  cdf !! TimeSeries.base = Some b → cdf !! label = Some r →
  (0 < TimeSeries.inflation r)%Qc → (0 < TimeSeries.cheddar r)%Qc →
  ∃ adjusted v,
    TimeSeries.cheddar_i_adjust cdf = Ok adjusted
    ∧ adjusted !! label = Some v
    ∧ ((TimeSeries.inflation r < TimeSeries.inflation b)%Qc
       → (TimeSeries.cheddar r < v)%Qc)
    ∧ ((TimeSeries.inflation b < TimeSeries.inflation r)%Qc
       → (v < TimeSeries.cheddar r)%Qc).
Proof.
  intros Hbase Hr Hi Hp.
  destruct (cheddar_i_adjust_formula cdf b Hbase) as (adjusted & Hadj & Hrows).
  exists adjusted. eexists. split; [exact Hadj|].
  split; [rewrite Hrows, Hr; reflexivity|].
  cbn [Numpy.ndiv Numpy.nmul Numpy.Qc_number].
  destruct b as [ib pb], r as [i p]. cbn [TimeSeries.inflation TimeSeries.cheddar] in *.
  unfold Qclt in *. cbn [this Qcdiv Qcmult Qcinv Q2Qc] in *.
  change (Qred 0) with 0%Q in *.
  split; intros Hlt; rewrite !Qred_correct.
  - apply Qlt_shift_div_l; [exact Hi|].
    rewrite (Qmult_comm ib p). apply Qmult_lt_l; assumption.
  - apply Qlt_shift_div_r; [exact Hi|].
    rewrite (Qmult_comm ib p). apply Qmult_lt_l; assumption.
Qed.

Lemma cheddar_i_adjust_ignores_the_scale_of_the_index_witness :
  TimeSeries.cheddar_i_adjust
    ((fun r => {| TimeSeries.inflation := (Q2Qc 2 * TimeSeries.inflation r)%Qc;
                  TimeSeries.cheddar := TimeSeries.cheddar r |})
       <$> TimeSeries.sample_cdf)
  = TimeSeries.cheddar_i_adjust TimeSeries.sample_cdf.
Proof.
  apply (cheddar_i_adjust_ignores_the_scale_of_the_index TimeSeries.sample_cdf (Q2Qc 2)).
  - discriminate.
  - intros label r Hr.
    destruct (decide (label = "2020-12-31")) as [->|Hne].
    + vm_compute in Hr. injection Hr as <-. discriminate.
    + unfold TimeSeries.sample_cdf in Hr. rewrite lookup_insert_ne in Hr by congruence.
      destruct (decide (label = "2021-12-31")) as [->|Hne'].
      * vm_compute in Hr. injection Hr as <-. discriminate.
      * rewrite lookup_insert_ne, lookup_empty in Hr by congruence. discriminate Hr.
Defined.

Lemma cheddar_i_adjust_raises_the_prices_of_cheaper_years_witness :
  ∃ adjusted v,
    TimeSeries.cheddar_i_adjust TimeSeries.sample_cdf = Ok adjusted
    ∧ adjusted !! "2020-12-31" = Some v
    ∧ (TimeSeries.cheddar TimeSeries.sample_row_2020 < v)%Qc.
Proof.
  destruct (cheddar_i_adjust_raises_the_prices_of_cheaper_years
              TimeSeries.sample_cdf "2020-12-31"
              TimeSeries.sample_row_2021 TimeSeries.sample_row_2020)
    as (adjusted & v & Hadj & Hv & Hup & _);
    [vm_compute; reflexivity|vm_compute; reflexivity|reflexivity|reflexivity|].
  exists adjusted, v. split; [exact Hadj|]. split; [exact Hv|].
  apply Hup. reflexivity.
Defined.

(** ** The grid of the Box-Cox figure *)

(** X21.  The grid of axes fits the list of lambdas only when there are three of
    them.  For [n >= 2] lambdas (with one, the grid is a single axes) the
    loop over [axes[1:]] reads the indices [0, ..., n - 1] of the list
    exactly when [n = 3]; with two lambdas the second is not drawn, and
    with more than three the loop reads past the end of the list. *)
Theorem boxcox_grid_fits_three_lambdas_only (n : Z) :
  2 ≤ n →
  (Transformations.loop_indices n = seqZ 0 n ↔ n = 3)
  ∧ (Transformations.n_axes n - 1 < n ↔ n < 3)
  ∧ (n < Transformations.n_axes n - 1 ↔ 3 < n).
Proof.
  intros Hn.
  unfold Transformations.loop_indices, Transformations.n_axes,
    Transformations.nrows, Transformations.ncols, Transformations.num_plots.
  assert (Hq : ∃ q, 1 ≤ q ∧ (n + 1 = 2 * q ∨ n + 1 = 2 * q + 1) ∧ (n + 1) / 2 = q).
  { exists ((n + 1) / 2). Z.div_mod_to_equations. lia. }
  destruct Hq as (q & Hq1 & Hq & ->).
  assert (Hgrid : ((n + 1 - q) * q - 1 < n ↔ n < 3)
                  ∧ (n < (n + 1 - q) * q - 1 ↔ 3 < n)
                  ∧ ((n + 1 - q) * q - 1 = n ↔ n = 3)).
  { destruct Hq as [Hq|Hq].
    - replace (n + 1 - q) with q by lia. replace n with (2 * q - 1) by lia.
      repeat split; intros; nia.
    - replace (n + 1 - q) with (q + 1) by lia. replace n with (2 * q) by lia.
      repeat split; intros; nia. }
  destruct Hgrid as (Hless & Hmore & Hsame).
  split; [|split; assumption].
  rewrite <- Hsame. split.
  - intros Heq. apply (f_equal length) in Heq. rewrite !length_seqZ in Heq. lia.
  - intros ->. reflexivity.
Qed.

Lemma boxcox_grid_fits_three_lambdas_only_witness :
  Transformations.loop_indices 3 = seqZ 0 3.
Proof.
  apply (boxcox_grid_fits_three_lambdas_only 3); [lia|reflexivity].
Defined.
